(** * Device and presentation-surface negotiation of RayTracingApplication

    A shallow embedding of [src/src/application.cpp] and
    [src/include/application.h]: adapter suitability, queue family
    resolution, swap-chain configuration and teardown, with the theorems
    that relate the code to its specification; then the rest of the
    start-up ([createInstance] to [createGraphicsPipeline], with
    [Loader::readFile] of [src/src/loader.cpp]), [initVulkan] as a whole
    and [run] around it.

    The platform (the Vulkan driver and GLFW) is a record of answers,
    [Driver]; the member functions run in a small monad that threads the
    object's fields, can throw, and records the platform calls it makes. *)

From Stdlib Require Import ZArith Lia.
From stdpp Require Import base option list strings gmap sorting.

Local Open Scope Z_scope.

(** ** Machine integers *)

Definition UINT32_MAX : Z := 4294967295.

(** Arithmetic on [uint32_t] is modulo 2^32. *)
Definition uint32 (z : Z) : Z := z mod 4294967296.

(** [static_cast<uint32_t>] of an [int]. *)
Definition static_cast_uint32 (z : Z) : Z := uint32 z.

Definition is_uint32 (z : Z) : Prop := 0 <= z <= UINT32_MAX.

(** ** The platform's types and constants (vulkan_core.h, glfw3.h) *)

Module Vk.

Definition VkResult := Z.
Definition VK_SUCCESS : VkResult := 0.

Definition VK_NULL_HANDLE : Z := 0.

Definition VK_QUEUE_GRAPHICS_BIT : Z := 1.

Definition VK_FORMAT_B8G8R8A8_SRGB : Z := 50.
Definition VK_COLOR_SPACE_SRGB_NONLINEAR_KHR : Z := 0.

Definition VK_PRESENT_MODE_MAILBOX_KHR : Z := 1.
Definition VK_PRESENT_MODE_FIFO_KHR : Z := 2.

Definition VK_IMAGE_USAGE_COLOR_ATTACHMENT_BIT : Z := 16.
Definition VK_COMPOSITE_ALPHA_OPAQUE_BIT_KHR : Z := 1.

Definition VK_KHR_SWAPCHAIN_EXTENSION_NAME : string := "VK_KHR_swapchain".

Inductive VkSharingMode : Set :=
| VK_SHARING_MODE_EXCLUSIVE
| VK_SHARING_MODE_CONCURRENT.

Record VkExtent2D : Set := mkExtent { width : Z; height : Z }.

Record VkSurfaceFormatKHR : Set := mkSurfaceFormat { format : Z; colorSpace : Z }.

Record VkSurfaceCapabilitiesKHR : Set := mkCapabilities {
  minImageCount : Z;
  maxImageCount : Z;
  currentExtent : VkExtent2D;
  minImageExtent : VkExtent2D;
  maxImageExtent : VkExtent2D;
  currentTransform : Z
}.

Record VkQueueFamilyProperties : Set := mkQueueFamily { queueFlags : Z }.

Record VkExtensionProperties : Set := mkExtension { extensionName : string }.

End Vk.
Import Vk.

#[global] Instance VkExtent2D_eq_dec : EqDecision VkExtent2D.
Proof. solve_decision. Defined.

#[global] Instance VkSurfaceFormatKHR_eq_dec : EqDecision VkSurfaceFormatKHR.
Proof. solve_decision. Defined.

#[global] Instance VkSharingMode_eq_dec : EqDecision VkSharingMode.
Proof. solve_decision. Defined.

(** The two create-info structures share field names with other
    structures, so each sits in a module of its own. *)
Module VkDeviceQueueCreateInfo.
Record t : Set := mk { queueFamilyIndex : Z; queueCount : Z }.
End VkDeviceQueueCreateInfo.

Module VkDeviceCreateInfo.
Record t : Set := mk {
  pQueueCreateInfos : list VkDeviceQueueCreateInfo.t;
  ppEnabledExtensionNames : list string;
  ppEnabledLayerNames : list string
}.
End VkDeviceCreateInfo.

Module VkSwapchainCreateInfoKHR.
Record t : Set := mk {
  surface : Z;
  minImageCount : Z;
  imageFormat : Z;
  imageColorSpace : Z;
  imageExtent : VkExtent2D;
  imageArrayLayers : Z;
  imageUsage : Z;
  imageSharingMode : VkSharingMode;
  queueFamilyIndexCount : Z;
  (** [None] is [nullptr]. *)
  pQueueFamilyIndices : option (list Z);
  preTransform : Z;
  compositeAlpha : Z;
  presentMode : Z;
  clipped : bool;
  oldSwapchain : Z
}.

(** The family indices the driver reads: the first
    [queueFamilyIndexCount] entries behind the pointer. *)
Definition listedFamilies (ci : t) : list Z :=
  match pQueueFamilyIndices ci with
  | Some arr => take (Z.to_nat (queueFamilyIndexCount ci)) arr
  | None => []
  end.
End VkSwapchainCreateInfoKHR.

(** ** The platform *)

(** What the driver and the windowing layer answer.  The answers do not
    change while the application negotiates. *)
Record Driver : Type := mkDriver {
  vkEnumeratePhysicalDevices : Z -> VkResult * list Z;
  vkGetPhysicalDeviceQueueFamilyProperties : Z -> list VkQueueFamilyProperties;
  (** the value left in [presentSupport] *)
  vkGetPhysicalDeviceSurfaceSupportKHR : Z -> Z -> Z -> bool;
  vkEnumerateDeviceExtensionProperties : Z -> VkResult * list VkExtensionProperties;
  vkGetPhysicalDeviceSurfaceCapabilitiesKHR : Z -> Z -> VkResult * VkSurfaceCapabilitiesKHR;
  vkGetPhysicalDeviceSurfaceFormatsKHR : Z -> Z -> list VkSurfaceFormatKHR;
  vkGetPhysicalDeviceSurfacePresentModesKHR : Z -> Z -> list Z;
  glfwGetFramebufferSize : Z -> Z * Z;
  vkCreateDevice : Z -> VkDeviceCreateInfo.t -> VkResult * Z;
  vkGetDeviceQueue : Z -> Z -> Z -> Z;
  vkCreateSwapchainKHR : Z -> VkSwapchainCreateInfoKHR.t -> VkResult * Z;
  vkGetSwapchainImagesKHR : Z -> Z -> VkResult * list Z;
  (** whether [vkGetInstanceProcAddr] finds
      [vkDestroyDebugUtilsMessengerEXT] *)
  hasDestroyDebugUtilsMessengerEXT : Z -> bool
}.

(** The platform calls a member function makes, in program order:
    the per-family surface queries and every creation and release. *)
Inductive Call : Type :=
| GetPhysicalDeviceSurfaceSupportKHR (device i surface : Z)
| CreateDevice (physicalDevice : Z) (createInfo : VkDeviceCreateInfo.t)
| GetDeviceQueue (device family index : Z)
| CreateSwapchainKHR (device : Z) (createInfo : VkSwapchainCreateInfoKHR.t)
| DestroyImageView (device imageView : Z)
| DestroySwapchainKHR (device swapChain : Z)
| DestroyDevice (device : Z)
| DestroyDebugUtilsMessengerEXT (instance debugMessenger : Z)
| DestroySurfaceKHR (instance surface : Z)
| DestroyInstance (instance : Z)
| glfwDestroyWindow (window : Z)
| glfwTerminate.

(** ** The application object *)

Record QueueFamilyIndicies : Set := mkIndicies {
  graphicsFamily : option Z;
  presentFamily : option Z
}.

Definition has_value {A} (o : option A) : bool :=
  match o with Some _ => true | None => false end.

Definition isComplete (q : QueueFamilyIndicies) : bool :=
  has_value (graphicsFamily q) && has_value (presentFamily q).

Record SwapChainSupportDetails : Set := mkDetails {
  capabilities : VkSurfaceCapabilitiesKHR;
  formats : list VkSurfaceFormatKHR;
  presentModes : list Z
}.

Record RayTracingApplication : Set := mkApp {
  window : Z;
  instance : Z;
  debugMessenger : Z;
  physicalDevice : Z;
  device : Z;
  graphicsQueue : Z;
  presentQueue : Z;
  surface : Z;
  swapChain : Z;
  swapChainImages : list Z;
  swapChainImageFormat : Z;
  swapChainExtent : VkExtent2D;
  swapChainImageViews : list Z;
  validationLayers : list string;
  deviceExtensions : list string;
  enableValidationLayers : bool
}.

Definition set_physicalDevice (v : Z) (a : RayTracingApplication) :=
  mkApp (window a) (instance a) (debugMessenger a) v (device a)
    (graphicsQueue a) (presentQueue a) (surface a) (swapChain a)
    (swapChainImages a) (swapChainImageFormat a) (swapChainExtent a)
    (swapChainImageViews a) (validationLayers a) (deviceExtensions a)
    (enableValidationLayers a).

Definition set_device (v : Z) (a : RayTracingApplication) :=
  mkApp (window a) (instance a) (debugMessenger a) (physicalDevice a) v
    (graphicsQueue a) (presentQueue a) (surface a) (swapChain a)
    (swapChainImages a) (swapChainImageFormat a) (swapChainExtent a)
    (swapChainImageViews a) (validationLayers a) (deviceExtensions a)
    (enableValidationLayers a).

Definition set_graphicsQueue (v : Z) (a : RayTracingApplication) :=
  mkApp (window a) (instance a) (debugMessenger a) (physicalDevice a)
    (device a) v (presentQueue a) (surface a) (swapChain a)
    (swapChainImages a) (swapChainImageFormat a) (swapChainExtent a)
    (swapChainImageViews a) (validationLayers a) (deviceExtensions a)
    (enableValidationLayers a).

Definition set_presentQueue (v : Z) (a : RayTracingApplication) :=
  mkApp (window a) (instance a) (debugMessenger a) (physicalDevice a)
    (device a) (graphicsQueue a) v (surface a) (swapChain a)
    (swapChainImages a) (swapChainImageFormat a) (swapChainExtent a)
    (swapChainImageViews a) (validationLayers a) (deviceExtensions a)
    (enableValidationLayers a).

Definition set_swapChain (v : Z) (a : RayTracingApplication) :=
  mkApp (window a) (instance a) (debugMessenger a) (physicalDevice a)
    (device a) (graphicsQueue a) (presentQueue a) (surface a) v
    (swapChainImages a) (swapChainImageFormat a) (swapChainExtent a)
    (swapChainImageViews a) (validationLayers a) (deviceExtensions a)
    (enableValidationLayers a).

Definition set_swapChainImages (v : list Z) (a : RayTracingApplication) :=
  mkApp (window a) (instance a) (debugMessenger a) (physicalDevice a)
    (device a) (graphicsQueue a) (presentQueue a) (surface a) (swapChain a)
    v (swapChainImageFormat a) (swapChainExtent a)
    (swapChainImageViews a) (validationLayers a) (deviceExtensions a)
    (enableValidationLayers a).

Definition set_swapChainImageFormat (v : Z) (a : RayTracingApplication) :=
  mkApp (window a) (instance a) (debugMessenger a) (physicalDevice a)
    (device a) (graphicsQueue a) (presentQueue a) (surface a) (swapChain a)
    (swapChainImages a) v (swapChainExtent a)
    (swapChainImageViews a) (validationLayers a) (deviceExtensions a)
    (enableValidationLayers a).

Definition set_swapChainExtent (v : VkExtent2D) (a : RayTracingApplication) :=
  mkApp (window a) (instance a) (debugMessenger a) (physicalDevice a)
    (device a) (graphicsQueue a) (presentQueue a) (surface a) (swapChain a)
    (swapChainImages a) (swapChainImageFormat a) v
    (swapChainImageViews a) (validationLayers a) (deviceExtensions a)
    (enableValidationLayers a).

(** ** The monad of member functions *)

Inductive Exception : Set :=
| runtime_error (what : string)
| bad_optional_access
| length_error (what : string)
| bad_alloc.

(** A member function returns, throws, or has undefined behaviour. *)
Inductive Outcome (A : Type) : Type :=
| Ok (a : A)
| Throw (e : Exception)
| Undefined.
Arguments Ok {A} a.
Arguments Throw {A} e.
Arguments Undefined {A}.

Record Run (A : Type) : Type := mkRun {
  outcome : Outcome A;
  final : RayTracingApplication;
  calls : list Call
}.
Arguments mkRun {A} _ _ _.
Arguments outcome {A} _.
Arguments final {A} _.
Arguments calls {A} _.

Definition M (A : Type) : Type := RayTracingApplication -> Run A.

Definition ret {A} (a : A) : M A := fun s => mkRun (Ok a) s [].

Definition bind {A B} (m : M A) (k : A -> M B) : M B :=
  fun s =>
    let r := m s in
    match outcome r with
    | Ok a =>
        let r' := k a (final r) in
        mkRun (outcome r') (final r') (calls r ++ calls r')
    | Throw e => mkRun (Throw e) (final r) (calls r)
    | Undefined => mkRun Undefined (final r) (calls r)
    end.

Notation "'let*' x := c 'in' k" := (bind c (fun x => k))
  (at level 10, x name, c at level 100, k at level 200, only parsing).

Definition throw {A} (e : Exception) : M A := fun s => mkRun (Throw e) s [].
Definition undefined {A} : M A := fun s => mkRun Undefined s [].
Definition gets {A} (f : RayTracingApplication -> A) : M A :=
  fun s => mkRun (Ok (f s)) s [].
Definition modify (f : RayTracingApplication -> RayTracingApplication) : M unit :=
  fun s => mkRun (Ok tt) (f s) [].
Definition call (c : Call) : M unit := fun s => mkRun (Ok tt) s [c].

(** [#define VK_ASSERT(stmt, msg) if(stmt != VK_SUCCESS){throw ...}] *)
Definition VK_ASSERT (stmt : VkResult) (msg : string) : M unit :=
  if bool_decide (stmt = VK_SUCCESS) then ret tt else throw (runtime_error msg).

(** [std::optional::value()] *)
Definition value {A} (o : option A) : M A :=
  match o with
  | Some v => ret v
  | None => throw bad_optional_access
  end.

(** An undefined result of a pure helper poisons the caller. *)
Definition defined {A} (o : option A) : M A :=
  match o with
  | Some v => ret v
  | None => undefined
  end.

(** [std::clamp(v, lo, hi)]; its behaviour is undefined when [hi < lo]. *)
Definition std_clamp (v lo hi : Z) : option Z :=
  if hi <? lo then None
  else Some (if v <? lo then lo else if hi <? v then hi else v).

(** Iteration over a [std::set<uint32_t>]: ascending, without duplicates. *)
Definition std_set_iter (s : gset Z) : list Z := merge_sort Z.le (elements s).

(** ** Member functions *)

Section Application.

Context (drv : Driver).

(** *** Queue Family Resolver *)

(** [prop.queueFlags & VK_QUEUE_GRAPHICS_BIT] as a condition. *)
Definition graphicsBit (prop : VkQueueFamilyProperties) : bool :=
  negb (Z.land (queueFlags prop) VK_QUEUE_GRAPHICS_BIT =? 0).

Definition getSurfaceSupport (device i surface : Z) : M bool :=
  let* _ := call (GetPhysicalDeviceSurfaceSupportKHR device i surface) in
  ret (vkGetPhysicalDeviceSurfaceSupportKHR drv device i surface).

(** The range-for of [findQueueFamilies], entered at counter [i] with
    the indices found so far. *)
Fixpoint findQueueFamilies_for (device surface : Z)
    (queueProperties : list VkQueueFamilyProperties) (i : Z)
    (indicies : QueueFamilyIndicies) : M QueueFamilyIndicies :=
  match queueProperties with
  | [] => ret indicies
  | prop :: rest =>
      let* presentSupport := getSurfaceSupport device i surface in
      let indicies :=
        if graphicsBit prop
        then mkIndicies (Some i) (presentFamily indicies)
        else indicies in
      let indicies :=
        if presentSupport : bool
        then mkIndicies (graphicsFamily indicies) (Some i)
        else indicies in
      if isComplete indicies then ret indicies
      else findQueueFamilies_for device surface rest (uint32 (i + 1)) indicies
  end.

Definition findQueueFamilies (device : Z) : M QueueFamilyIndicies :=
  let* surface := gets surface in
  findQueueFamilies_for device surface
    (vkGetPhysicalDeviceQueueFamilyProperties drv device) 0
    (mkIndicies None None).

(** *** Capability Prober *)

(** The count-then-fill enumeration of device extensions, each call
    under [VK_ASSERT]. *)
Definition enumerateDeviceExtensions (phyDevice : Z)
    : M (list VkExtensionProperties) :=
  let r := vkEnumerateDeviceExtensionProperties drv phyDevice in
  let* _ := VK_ASSERT (fst r) "Could not enumerate Device Extensions!" in
  let* _ := VK_ASSERT (fst r) "Could not enumerate Device Extensions!" in
  ret (snd r).

(** [for (ext : availableExtensions) reqExtensions.erase(ext.extensionName)] *)
Definition eraseAvailable (reqExtensions : gset string)
    (availableExtensions : list VkExtensionProperties) : gset string :=
  foldl (fun req ext => req ∖ {[ extensionName ext ]})
    reqExtensions availableExtensions.

Definition checkDeviceExtensionSupport (phyDevice : Z) : M bool :=
  let* availableExtensions := enumerateDeviceExtensions phyDevice in
  let* deviceExtensions := gets deviceExtensions in
  let reqExtensions : gset string := list_to_set deviceExtensions in
  let reqExtensions := eraseAvailable reqExtensions availableExtensions in
  ret (bool_decide (reqExtensions = ∅)).

Definition querySwapChainSupport (phyDevice : Z) : M SwapChainSupportDetails :=
  let* surface := gets surface in
  let r := vkGetPhysicalDeviceSurfaceCapabilitiesKHR drv phyDevice surface in
  let* _ := VK_ASSERT (fst r) "Could not get physical surface capabilities!" in
  let offered := vkGetPhysicalDeviceSurfaceFormatsKHR drv phyDevice surface in
  let formatCount := length offered in
  let formats := if bool_decide (formatCount ≠ 0%nat) then offered else [] in
  let modes := vkGetPhysicalDeviceSurfacePresentModesKHR drv phyDevice surface in
  let presentCount := length modes in
  let presentModes := if bool_decide (presentCount ≠ 0%nat) then modes else [] in
  ret (mkDetails (snd r) formats presentModes).

(** *** Suitability Evaluator *)

(** The device properties and features are fetched and not used. *)
Definition isDeviceSuitable (phyDevice : Z) : M bool :=
  let* indices := findQueueFamilies phyDevice in
  let* extensionsSupported := checkDeviceExtensionSupport phyDevice in
  let* swapAdequate :=
    (if extensionsSupported : bool then
       let* details := querySwapChainSupport phyDevice in
       ret (negb (bool_decide (formats details = []))
            && negb (bool_decide (presentModes details = [])))
     else ret false) in
  ret (isComplete indices && swapAdequate).

Fixpoint pickPhysicalDevice_for (devices : list Z) : M unit :=
  match devices with
  | [] => ret tt
  | device :: rest =>
      let* suitable := isDeviceSuitable device in
      if suitable : bool then modify (set_physicalDevice device)
      else pickPhysicalDevice_for rest
  end.

Definition pickPhysicalDevice : M unit :=
  let* instance := gets instance in
  let r := vkEnumeratePhysicalDevices drv instance in
  let* _ := VK_ASSERT (fst r) "Could not enumerate physical devices" in
  let deviceCount := length (snd r) in
  let* _ :=
    (if bool_decide (deviceCount = 0%nat)
     then throw (runtime_error "Could not enumerate physical devices!")
     else ret tt) in
  let* _ := VK_ASSERT (fst r) "Could not enumerate physical devices" in
  let* _ := pickPhysicalDevice_for (snd r) in
  let* chosen := gets physicalDevice in
  if bool_decide (chosen = VK_NULL_HANDLE)
  then throw (runtime_error "Could not find any suitable physical device")
  else ret tt.

(** *** Presentation Configurator *)

Definition isPreferredFormat (f : VkSurfaceFormatKHR) : bool :=
  (format f =? VK_FORMAT_B8G8R8A8_SRGB)
  && (colorSpace f =? VK_COLOR_SPACE_SRGB_NONLINEAR_KHR).

(** The range-for of [chooseSwapChainFormat]: [Some] is a [return]
    from inside the loop. *)
Fixpoint chooseSwapChainFormat_for (formats : list VkSurfaceFormatKHR)
    : option VkSurfaceFormatKHR :=
  match formats with
  | [] => None
  | f :: rest =>
      if isPreferredFormat f then Some f else chooseSwapChainFormat_for rest
  end.

(** [formats[0]] on an empty vector is undefined: [None]. *)
Definition chooseSwapChainFormat (formats : list VkSurfaceFormatKHR)
    : option VkSurfaceFormatKHR :=
  match chooseSwapChainFormat_for formats with
  | Some f => Some f
  | None => formats !! 0%nat
  end.

Fixpoint chooseSwapChainPresent (presentModes : list Z) : Z :=
  match presentModes with
  | [] => VK_PRESENT_MODE_FIFO_KHR
  | presentMode :: rest =>
      if presentMode =? VK_PRESENT_MODE_MAILBOX_KHR then presentMode
      else chooseSwapChainPresent rest
  end.

Definition chooseSwapExtent (capabilities : VkSurfaceCapabilitiesKHR)
    : M VkExtent2D :=
  if negb (width (currentExtent capabilities) =? UINT32_MAX)
  then ret (currentExtent capabilities)
  else
    let* window := gets window in
    let size := glfwGetFramebufferSize drv window in
    let extent :=
      mkExtent (static_cast_uint32 (fst size)) (static_cast_uint32 (snd size)) in
    let* w := defined (std_clamp (width extent)
                    (width (minImageExtent capabilities))
                    (width (maxImageExtent capabilities))) in
    let* h := defined (std_clamp (height extent)
                    (height (minImageExtent capabilities))
                    (height (maxImageExtent capabilities))) in
    ret (mkExtent w h).

(** The [imageCount] that [createSwapChain] asks for. *)
Definition imageCount (capabilities : VkSurfaceCapabilitiesKHR) : Z :=
  let imageCount := uint32 (minImageCount capabilities + 1) in
  if (0 <? maxImageCount capabilities)
     && (maxImageCount capabilities <? imageCount)
  then maxImageCount capabilities
  else imageCount.

(** *** Logical device *)

Definition createLogicalDevice : M unit :=
  let* physicalDevice := gets physicalDevice in
  let* indices := findQueueFamilies physicalDevice in
  let* g := value (graphicsFamily indices) in
  let* p := value (presentFamily indices) in
  let uniqueQueueFamilies : gset Z := {[ g; p ]} in
  let queueCreateInfos :=
    map (fun queueFamily => VkDeviceQueueCreateInfo.mk queueFamily 1)
      (std_set_iter uniqueQueueFamilies) in
  let* availableExtensions := enumerateDeviceExtensions physicalDevice in
  let* deviceExtensions := gets deviceExtensions in
  let enabledExtensions :=
    deviceExtensions ++
    flat_map (fun ext =>
                if bool_decide (extensionName ext = "VK_KHR_portability_subset")
                then ["VK_KHR_portability_subset"] else [])
      availableExtensions in
  let* enableValidationLayers := gets enableValidationLayers in
  let* validationLayers := gets validationLayers in
  let createInfo :=
    VkDeviceCreateInfo.mk queueCreateInfos enabledExtensions
      (if enableValidationLayers : bool then validationLayers else []) in
  let* _ := call (CreateDevice physicalDevice createInfo) in
  let r := vkCreateDevice drv physicalDevice createInfo in
  let* _ := VK_ASSERT (fst r) "Could not create logical device!" in
  let* _ := modify (set_device (snd r)) in
  let* device := gets device in
  let* g := value (graphicsFamily indices) in
  let* _ := call (GetDeviceQueue device g 0) in
  let* _ := modify (set_graphicsQueue (vkGetDeviceQueue drv device g 0)) in
  let* p := value (presentFamily indices) in
  let* _ := call (GetDeviceQueue device p 0) in
  modify (set_presentQueue (vkGetDeviceQueue drv device p 0)).

(** *** Swap chain *)

Definition createSwapChain : M unit :=
  let* physicalDevice := gets physicalDevice in
  let* support := querySwapChainSupport physicalDevice in
  let* surfaceFormat := defined (chooseSwapChainFormat (formats support)) in
  let present := chooseSwapChainPresent (presentModes support) in
  let* extent := chooseSwapExtent (capabilities support) in
  let imageCount := imageCount (capabilities support) in
  let* surface := gets surface in
  let* indices := findQueueFamilies physicalDevice in
  let* g := value (graphicsFamily indices) in
  let* p := value (presentFamily indices) in
  let queueFamilyIndicies := [g; p] in
  let sharing :=
    if negb (bool_decide (graphicsFamily indices = presentFamily indices))
    then (VK_SHARING_MODE_CONCURRENT, 2, Some queueFamilyIndicies)
    else (VK_SHARING_MODE_EXCLUSIVE, 0, None) in
  let createInfo :=
    VkSwapchainCreateInfoKHR.mk surface imageCount
      (format surfaceFormat) (colorSpace surfaceFormat) extent 1
      VK_IMAGE_USAGE_COLOR_ATTACHMENT_BIT
      (fst (fst sharing)) (snd (fst sharing)) (snd sharing)
      (currentTransform (capabilities support))
      VK_COMPOSITE_ALPHA_OPAQUE_BIT_KHR present true VK_NULL_HANDLE in
  let* device := gets device in
  let* _ := call (CreateSwapchainKHR device createInfo) in
  let r := vkCreateSwapchainKHR drv device createInfo in
  let* _ := VK_ASSERT (fst r) "Could not create Swapchain!" in
  let* _ := modify (set_swapChain (snd r)) in
  let images := vkGetSwapchainImagesKHR drv device (snd r) in
  let* _ := VK_ASSERT (fst images) "Could not get Swapchain Images!" in
  let* _ := VK_ASSERT (fst images) "Could not get Swapchain Images!" in
  let* _ := modify (set_swapChainImages (snd images)) in
  let* _ := modify (set_swapChainImageFormat (format surfaceFormat)) in
  modify (set_swapChainExtent extent).

(** *** Teardown *)

Fixpoint cleanup_for (device : Z) (imageViews : list Z) : M unit :=
  match imageViews with
  | [] => ret tt
  | imageView :: rest =>
      let* _ := call (DestroyImageView device imageView) in
      cleanup_for device rest
  end.

Definition cleanup : M unit :=
  let* device := gets device in
  let* imageViews := gets swapChainImageViews in
  let* _ := cleanup_for device imageViews in
  let* swapChain := gets swapChain in
  let* _ := call (DestroySwapchainKHR device swapChain) in
  let* _ := call (DestroyDevice device) in
  let* enableValidationLayers := gets enableValidationLayers in
  let* instance := gets instance in
  let* _ :=
    (if enableValidationLayers : bool then
       if hasDestroyDebugUtilsMessengerEXT drv instance then
         let* debugMessenger := gets debugMessenger in
         call (DestroyDebugUtilsMessengerEXT instance debugMessenger)
       else ret tt
     else ret tt) in
  let* surface := gets surface in
  let* _ := call (DestroySurfaceKHR instance surface) in
  let* _ := call (DestroyInstance instance) in
  let* window := gets window in
  let* _ := call (glfwDestroyWindow window) in
  call glfwTerminate.

End Application.

(** ** The vocabulary of the theorems *)

(** *** Queue Family Resolver *)

(** Index [new] is what a slot holding [old] holds after the families
    [lo], ..., [hi - 1] were examined, each family with property [Q]
    overwriting the slot with its own index. *)
Definition last_hit (Q : nat -> bool) (lo hi : nat) (old new : option Z) : Prop :=
  forall j : Z,
    new = Some j <->
    (exists k : nat, j = Z.of_nat k /\ (lo <= k < hi)%nat /\ Q k = true /\
                     forall k' : nat, (k < k' < hi)%nat -> Q k' = false)
    \/ (old = Some j /\ forall k : nat, (lo <= k < hi)%nat -> Q k = false).

(** The slot is assigned once the families [lo], ..., [hi - 1] were
    examined. *)
Definition seen (Q : nat -> bool) (lo hi : nat) (old : option Z) : Prop :=
  has_value old = true \/ exists k : nat, (lo <= k < hi)%nat /\ Q k = true.

(** One conditional assignment of the loop body: [if (b) slot = i;]. *)
Definition pick (b : bool) (i : Z) (old : option Z) : option Z :=
  if b then Some i else old.

(** The surface queries for the families [lo], ..., [lo + n - 1]. *)
Definition supportQueries (device surface : Z) (lo n : nat) : list Call :=
  (fun k : nat => GetPhysicalDeviceSurfaceSupportKHR device (Z.of_nat k) surface)
    <$> seq lo n.

(** Family [k] of the adapter advertises graphics capability. *)
Definition advertisesGraphics (drv : Driver) (device : Z) (k : nat) : bool :=
  match vkGetPhysicalDeviceQueueFamilyProperties drv device !! k with
  | Some prop => graphicsBit prop
  | None => false
  end.

(** Family [k] of the adapter can present to the surface. *)
Definition canPresent (drv : Driver) (device surface : Z) (k : nat) : bool :=
  vkGetPhysicalDeviceSurfaceSupportKHR drv device (Z.of_nat k) surface.

(** [slot] holds the index of the last family with property [Q] among
    the first [n] families, and is empty when there is none. *)
Definition last_among (Q : nat -> bool) (n : nat) (slot : option Z) : Prop :=
  forall j : Z,
    slot = Some j <->
    exists k : nat, j = Z.of_nat k /\ (k < n)%nat /\ Q k = true /\
                    forall k' : nat, (k < k' < n)%nat -> Q k' = false.

(** [slot] holds the index of the first family with property [Q] among
    the first [n] families, and is empty when there is none. *)
Definition first_among (Q : nat -> bool) (n : nat) (slot : option Z) : Prop :=
  forall j : Z,
    slot = Some j <->
    exists k : nat, j = Z.of_nat k /\ (k < n)%nat /\ Q k = true /\
                    forall k' : nat, (k' < k)%nat -> Q k' = false.

(** Both roles have a family among the first [m] families. *)
Definition bothAmong (G P : nat -> bool) (m : nat) : Prop :=
  (exists k : nat, (k < m)%nat /\ G k = true)
  /\ (exists k : nat, (k < m)%nat /\ P k = true).

(** The 8-bit BGRA format in the non-linear SRGB colour space. *)
Definition preferredFormat : VkSurfaceFormatKHR :=
  mkSurfaceFormat VK_FORMAT_B8G8R8A8_SRGB VK_COLOR_SPACE_SRGB_NONLINEAR_KHR.

(** ** A concrete platform *)

Module Scenario.

Definition unorm : VkSurfaceFormatKHR := mkSurfaceFormat 44 0.
Definition rgba : VkSurfaceFormatKHR := mkSurfaceFormat 37 0.
Definition unconstrained : VkSurfaceCapabilitiesKHR :=
  mkCapabilities 2 0 (mkExtent UINT32_MAX UINT32_MAX)
    (mkExtent 100 100) (mkExtent 4000 4000) 1.

(** Adapter 7 has two graphics-only families and then one that only
    presents; adapter 8 has one family that does both; adapter 9 has a
    graphics family and none that presents. *)
Definition driver : Driver := {|
  vkEnumeratePhysicalDevices := fun _ => (VK_SUCCESS, [9; 7; 8]);
  vkGetPhysicalDeviceQueueFamilyProperties := fun device =>
    if device =? 7 then [mkQueueFamily 1; mkQueueFamily 1; mkQueueFamily 4]
    else if device =? 8 then [mkQueueFamily 3]
    else if device =? 9 then [mkQueueFamily 1]
    else [];
  vkGetPhysicalDeviceSurfaceSupportKHR := fun device i _ =>
    if device =? 7 then i =? 2
    else if device =? 8 then i =? 0
    else false;
  vkEnumerateDeviceExtensionProperties := fun _ =>
    (VK_SUCCESS,
     [mkExtension "VK_KHR_portability_subset";
      mkExtension "VK_KHR_swapchain";
      mkExtension "VK_KHR_swapchain"]);
  vkGetPhysicalDeviceSurfaceCapabilitiesKHR := fun _ _ =>
    (VK_SUCCESS, unconstrained);
  vkGetPhysicalDeviceSurfaceFormatsKHR := fun _ _ => [unorm; preferredFormat; rgba];
  vkGetPhysicalDeviceSurfacePresentModesKHR := fun _ _ => [2; 1];
  glfwGetFramebufferSize := fun _ => (50, 4500);
  vkCreateDevice := fun _ _ => (VK_SUCCESS, 100);
  vkGetDeviceQueue := fun _ family _ => 200 + family;
  vkCreateSwapchainKHR := fun _ _ => (VK_SUCCESS, 300);
  vkGetSwapchainImagesKHR := fun _ _ => (VK_SUCCESS, [401; 402; 403]);
  hasDestroyDebugUtilsMessengerEXT := fun _ => true
|}.

(** The object with adapter [phys] chosen and nothing created yet. *)
Definition app (phys : Z) : RayTracingApplication := {|
  window := 1; instance := 2; debugMessenger := 3;
  physicalDevice := phys; device := VK_NULL_HANDLE;
  graphicsQueue := 0; presentQueue := 0; surface := 5;
  swapChain := VK_NULL_HANDLE; swapChainImages := [];
  swapChainImageFormat := 0; swapChainExtent := mkExtent 0 0;
  swapChainImageViews := [];
  validationLayers := ["VK_LAYER_KHRONOS_validation"];
  deviceExtensions := [VK_KHR_SWAPCHAIN_EXTENSION_NAME];
  enableValidationLayers := false
|}.

(** An object with every handle set and validation layers enabled. *)
Definition started : RayTracingApplication := {|
  window := 1; instance := 2; debugMessenger := 3;
  physicalDevice := 7; device := 100;
  graphicsQueue := 201; presentQueue := 202; surface := 5;
  swapChain := 300; swapChainImages := [401; 402; 403];
  swapChainImageFormat := VK_FORMAT_B8G8R8A8_SRGB;
  swapChainExtent := mkExtent 100 4000;
  swapChainImageViews := [501; 502; 503];
  validationLayers := ["VK_LAYER_KHRONOS_validation"];
  deviceExtensions := [VK_KHR_SWAPCHAIN_EXTENSION_NAME];
  enableValidationLayers := true
|}.

(** What [createSwapChain] asks for on adapter 7. *)
Definition createInfo : VkSwapchainCreateInfoKHR.t := {|
  VkSwapchainCreateInfoKHR.surface := 5;
  VkSwapchainCreateInfoKHR.minImageCount := 3;
  VkSwapchainCreateInfoKHR.imageFormat := VK_FORMAT_B8G8R8A8_SRGB;
  VkSwapchainCreateInfoKHR.imageColorSpace := VK_COLOR_SPACE_SRGB_NONLINEAR_KHR;
  VkSwapchainCreateInfoKHR.imageExtent := mkExtent 100 4000;
  VkSwapchainCreateInfoKHR.imageArrayLayers := 1;
  VkSwapchainCreateInfoKHR.imageUsage := VK_IMAGE_USAGE_COLOR_ATTACHMENT_BIT;
  VkSwapchainCreateInfoKHR.imageSharingMode := VK_SHARING_MODE_CONCURRENT;
  VkSwapchainCreateInfoKHR.queueFamilyIndexCount := 2;
  VkSwapchainCreateInfoKHR.pQueueFamilyIndices := Some [1; 2];
  VkSwapchainCreateInfoKHR.preTransform := 1;
  VkSwapchainCreateInfoKHR.compositeAlpha := VK_COMPOSITE_ALPHA_OPAQUE_BIT_KHR;
  VkSwapchainCreateInfoKHR.presentMode := VK_PRESENT_MODE_MAILBOX_KHR;
  VkSwapchainCreateInfoKHR.clipped := true;
  VkSwapchainCreateInfoKHR.oldSwapchain := VK_NULL_HANDLE
|}.

End Scenario.

(** The first-match reading of the scan: each index is that of the
    FIRST family of the adapter with the capability. *)
Definition findQueueFamilies_first_match
    (drv : Driver) (s : RayTracingApplication) (dev : Z) : Prop :=
  let count := length (vkGetPhysicalDeviceQueueFamilyProperties drv dev) in
  exists ind : QueueFamilyIndicies,
    outcome (findQueueFamilies drv dev s) = Ok ind
    /\ first_among (advertisesGraphics drv dev) count (graphicsFamily ind)
    /\ first_among (canPresent drv dev (surface s)) count (presentFamily ind).

(** *** Presentation Configurator *)

(** [r] is [v] brought into the interval from [lo] to [hi]. *)
Definition clamped (v lo hi r : Z) : Prop :=
  lo <= r <= hi
  /\ (v < lo -> r = lo)
  /\ (hi < v -> r = hi)
  /\ (lo <= v <= hi -> r = v).

(** The both-components reading of the sentinel: the current extent is
    returned unless BOTH of its components are the largest [uint32_t]. *)
Definition chooseSwapExtent_both_sentinel
    (drv : Driver) (s : RayTracingApplication)
    (caps : VkSurfaceCapabilitiesKHR) : Prop :=
  let cur := currentExtent caps in
  let size := glfwGetFramebufferSize drv (window s) in
  (~ (width cur = UINT32_MAX /\ height cur = UINT32_MAX) ->
   outcome (chooseSwapExtent drv caps s) = Ok cur)
  /\ (width cur = UINT32_MAX /\ height cur = UINT32_MAX ->
      exists w h : Z,
        outcome (chooseSwapExtent drv caps s) = Ok (mkExtent w h)
        /\ clamped (static_cast_uint32 (fst size))
             (width (minImageExtent caps)) (width (maxImageExtent caps)) w
        /\ clamped (static_cast_uint32 (snd size))
             (height (minImageExtent caps)) (height (maxImageExtent caps)) h).

(** *** Platform calls *)

Definition isSurfaceQuery (c : Call) : bool :=
  match c with
  | GetPhysicalDeviceSurfaceSupportKHR _ _ _ => true
  | _ => false
  end.

(** *** Teardown *)

(** Both releases happen in [t], and every occurrence of [a] comes
    strictly before every occurrence of [b]. *)
Definition releasedBefore (a b : Call) (t : list Call) : Prop :=
  a ∈ t /\ b ∈ t
  /\ forall i j : nat, t !! i = Some a -> t !! j = Some b -> (i < j)%nat.

(** The releases that follow the image views. *)
Definition teardownTail (drv : Driver) (s : RayTracingApplication) : list Call :=
  [DestroySwapchainKHR (device s) (swapChain s); DestroyDevice (device s)]
  ++ (if enableValidationLayers s
      then if hasDestroyDebugUtilsMessengerEXT drv (instance s)
           then [DestroyDebugUtilsMessengerEXT (instance s) (debugMessenger s)]
           else []
      else [])
  ++ [DestroySurfaceKHR (instance s) (surface s); DestroyInstance (instance s);
      glfwDestroyWindow (window s); glfwTerminate].

(** ** The create-infos of the device and the swap chain *)

(** The [createInfo] that [createLogicalDevice] builds for the families
    [g] and [p] and the extensions the adapter lists. *)
Definition deviceCreateInfoFor (s : RayTracingApplication) (g p : Z)
    (availableExtensions : list VkExtensionProperties) : VkDeviceCreateInfo.t :=
  VkDeviceCreateInfo.mk
    (map (fun queueFamily => VkDeviceQueueCreateInfo.mk queueFamily 1)
       (std_set_iter {[ g; p ]}))
    (deviceExtensions s ++
     flat_map (fun ext =>
                 if bool_decide (extensionName ext = "VK_KHR_portability_subset")
                 then ["VK_KHR_portability_subset"] else [])
       availableExtensions)
    (if enableValidationLayers s then validationLayers s else []).

(** The families a device create-info asks queues for, in order. *)
Definition requestedFamilies (ci : VkDeviceCreateInfo.t) : list Z :=
  VkDeviceQueueCreateInfo.queueFamilyIndex <$> VkDeviceCreateInfo.pQueueCreateInfos ci.

(** The [createInfo] that [createSwapChain] builds from the surface's
    details, the chosen format and extent, and the families [g] and [p]. *)
Definition swapchainCreateInfoFor (s : RayTracingApplication)
    (support : SwapChainSupportDetails) (surfaceFormat : VkSurfaceFormatKHR)
    (extent : VkExtent2D) (g p : Z) : VkSwapchainCreateInfoKHR.t :=
  let sharing :=
    if negb (bool_decide (g = p))
    then (VK_SHARING_MODE_CONCURRENT, 2, Some [g; p])
    else (VK_SHARING_MODE_EXCLUSIVE, 0, None) in
  VkSwapchainCreateInfoKHR.mk (surface s) (imageCount (capabilities support))
    (format surfaceFormat) (colorSpace surfaceFormat) extent 1
    VK_IMAGE_USAGE_COLOR_ATTACHMENT_BIT
    (fst (fst sharing)) (snd (fst sharing)) (snd sharing)
    (currentTransform (capabilities support))
    VK_COMPOSITE_ALPHA_OPAQUE_BIT_KHR
    (chooseSwapChainPresent (presentModes support)) true VK_NULL_HANDLE.

(** The details [querySwapChainSupport] returns when the capability
    query succeeds. *)
Definition supportOf (drv : Driver) (phyDevice surface : Z) : SwapChainSupportDetails :=
  mkDetails (snd (vkGetPhysicalDeviceSurfaceCapabilitiesKHR drv phyDevice surface))
    (vkGetPhysicalDeviceSurfaceFormatsKHR drv phyDevice surface)
    (vkGetPhysicalDeviceSurfacePresentModesKHR drv phyDevice surface).

(** ** Instance bootstrap and image views *)

(** [strncmp(s1, s2, n)]: the sign of the first difference among the
    first [n] characters, the end of a string counting as the smallest
    character. *)
Fixpoint strncmp (s1 s2 : string) (n : nat) : Z :=
  match n with
  | O => 0
  | S n' =>
      match s1, s2 with
      | EmptyString, EmptyString => 0
      | EmptyString, String _ _ => -1
      | String _ _, EmptyString => 1
      | String c1 r1, String c2 r2 =>
          if Ascii.eqb c1 c2 then strncmp r1 r2 n'
          else if (Ascii.nat_of_ascii c1 <? Ascii.nat_of_ascii c2)%nat then -1
          else 1
      end
  end.

Definition VK_EXT_DEBUG_UTILS_EXTENSION_NAME : string := "VK_EXT_debug_utils".
Definition VK_KHR_PORTABILITY_ENUMERATION_EXTENSION_NAME : string :=
  "VK_KHR_portability_enumeration".
Definition VK_KHR_GET_PHYSICAL_DEVICE_PROPERTIES_2_EXTENSION_NAME : string :=
  "VK_KHR_get_physical_device_properties2".
Definition VK_INSTANCE_CREATE_ENUMERATE_PORTABILITY_BIT_KHR : Z := 1.
Definition VK_API_VERSION_1_0 : Z := 4194304.

(** [VK_MAKE_VERSION(major, minor, patch)] *)
Definition VK_MAKE_VERSION (major minor patch : Z) : Z :=
  Z.lor (Z.lor (Z.shiftl major 22) (Z.shiftl minor 12)) patch.

Record VkLayerProperties : Set := mkLayer { layerName : string }.

Module VkApplicationInfo.
Record t : Set := mk {
  pApplicationName : string;
  pEngineName : string;
  applicationVersion : Z;
  apiVersion : Z;
  engineVersion : Z
}.
End VkApplicationInfo.

Module VkDebugUtilsMessengerCreateInfoEXT.
Record t : Set := mk { messageSeverity : Z; messageType : Z }.
End VkDebugUtilsMessengerCreateInfoEXT.

(** A pointer handed to the platform: null, to an object that is alive
    at the call, or to an object whose lifetime has ended. *)
Inductive pointer (A : Type) : Type :=
| nullptr
| alive (a : A)
| dangling.

Arguments nullptr {A}.
Arguments alive {A} a.
Arguments dangling {A}.

Module VkInstanceCreateInfo.
Record t : Set := mk {
  pApplicationInfo : VkApplicationInfo.t;
  flags : Z;
  ppEnabledExtensionNames : list string;
  ppEnabledLayerNames : list string;
  pNext : pointer VkDebugUtilsMessengerCreateInfoEXT.t
}.
End VkInstanceCreateInfo.

(** A stream opened at its end ([std::ios::ate]). *)
Record File : Set := mkFile {
  (** what [tellg()] reports there: the size of a regular file, [-1]
      when the position cannot be determined *)
  tellg : Z;
  (** the bytes a read from position 0 delivers *)
  contents : list Z
}.

Definition SIZE_MAX : Z := 18446744073709551615.

(** The conversion [(size_t) pos]. *)
Definition static_cast_size_t (z : Z) : Z := z mod (SIZE_MAX + 1).

Module VkImageViewCreateInfo.
Record VkComponentMapping : Set := mkComponents { r : Z; g : Z; b : Z; a : Z }.
Record VkImageSubresourceRange : Set := mkRange {
  aspectMask : Z;
  baseMipLevel : Z;
  levelCount : Z;
  baseArrayLayer : Z;
  layerCount : Z
}.
Record t : Set := mk {
  image : Z;
  viewType : Z;
  format : Z;
  components : VkComponentMapping;
  subresourceRange : VkImageSubresourceRange
}.
End VkImageViewCreateInfo.

Definition VK_IMAGE_VIEW_TYPE_2D : Z := 1.
Definition VK_COMPONENT_SWIZZLE_IDENTITY : Z := 0.
Definition VK_IMAGE_ASPECT_COLOR_BIT : Z := 1.

(** What the Vulkan loader, the windowing layer, the file system and
    the allocator answer before and after the adapter is negotiated.  The
    answers do not change during start-up, and a creation that fails
    leaves the handle it was to write as it was.  The calls made to them
    are not among [Call]; their effect is in what they return. *)
Record Bootstrap : Type := mkBootstrap {
  glfwCreateWindow : Z -> Z -> string -> Z;
  (** the answer of [glfwWindowShouldClose] after that many calls of
      [glfwPollEvents] *)
  glfwWindowShouldClose : Z -> nat -> bool;
  vkEnumerateInstanceLayerProperties : VkResult * list VkLayerProperties;
  vkEnumerateInstanceExtensionProperties : VkResult * list VkExtensionProperties;
  glfwGetRequiredInstanceExtensions : list string;
  vkCreateInstance : VkInstanceCreateInfo.t -> VkResult * Z;
  (** what [vkGetInstanceProcAddr] finds for
      [vkCreateDebugUtilsMessengerEXT], [None] for [nullptr] *)
  vkCreateDebugUtilsMessengerEXT :
    Z -> option (Z -> VkDebugUtilsMessengerCreateInfoEXT.t -> VkResult * Z);
  glfwCreateWindowSurface : Z -> Z -> VkResult * Z;
  vkCreateImageView : Z -> VkImageViewCreateInfo.t -> VkResult * Z;
  (** the stream of the file of that name, [None] when it cannot be
      opened *)
  ifstream : string -> option File;
  (** [std::vector<char> buffer(n)]: [None] when the buffer is created,
      else what its constructor throws ([std::length_error] above
      [max_size()], [std::bad_alloc] when the allocation fails) *)
  vector_char : Z -> option Exception
}.

Definition set_window (v : Z) (a : RayTracingApplication) :=
  mkApp v (instance a) (debugMessenger a) (physicalDevice a) (device a)
    (graphicsQueue a) (presentQueue a) (surface a) (swapChain a)
    (swapChainImages a) (swapChainImageFormat a) (swapChainExtent a)
    (swapChainImageViews a) (validationLayers a) (deviceExtensions a)
    (enableValidationLayers a).

Definition set_instance (v : Z) (a : RayTracingApplication) :=
  mkApp (window a) v (debugMessenger a) (physicalDevice a) (device a)
    (graphicsQueue a) (presentQueue a) (surface a) (swapChain a)
    (swapChainImages a) (swapChainImageFormat a) (swapChainExtent a)
    (swapChainImageViews a) (validationLayers a) (deviceExtensions a)
    (enableValidationLayers a).

Definition set_debugMessenger (v : Z) (a : RayTracingApplication) :=
  mkApp (window a) (instance a) v (physicalDevice a) (device a)
    (graphicsQueue a) (presentQueue a) (surface a) (swapChain a)
    (swapChainImages a) (swapChainImageFormat a) (swapChainExtent a)
    (swapChainImageViews a) (validationLayers a) (deviceExtensions a)
    (enableValidationLayers a).

Definition set_surface (v : Z) (a : RayTracingApplication) :=
  mkApp (window a) (instance a) (debugMessenger a) (physicalDevice a) (device a)
    (graphicsQueue a) (presentQueue a) v (swapChain a)
    (swapChainImages a) (swapChainImageFormat a) (swapChainExtent a)
    (swapChainImageViews a) (validationLayers a) (deviceExtensions a)
    (enableValidationLayers a).

Definition set_swapChainImageViews (v : list Z) (a : RayTracingApplication) :=
  mkApp (window a) (instance a) (debugMessenger a) (physicalDevice a) (device a)
    (graphicsQueue a) (presentQueue a) (surface a) (swapChain a)
    (swapChainImages a) (swapChainImageFormat a) (swapChainExtent a)
    v (validationLayers a) (deviceExtensions a)
    (enableValidationLayers a).

Definition WIDTH : Z := 800.
Definition HEIGHT : Z := 600.

Section Startup.

Context (bs : Bootstrap).

(** [glfwInit] and the two window hints come first; their effect is in
    what [glfwCreateWindow] answers. *)
Definition initWindow : M unit :=
  modify (set_window (glfwCreateWindow bs WIDTH HEIGHT "Vulkan Raytracing")).

(** The loop of [mainLoop] with at most [fuel] tests of its condition,
    [polls] calls of [glfwPollEvents] having been made: the number of
    calls made when the loop ends, [None] when the fuel runs out first. *)
Fixpoint mainLoop_for (window : Z) (fuel polls : nat) : option nat :=
  match fuel with
  | O => None
  | S fuel' =>
      if negb (glfwWindowShouldClose bs window polls)
      then mainLoop_for window fuel' (S polls)
      else Some polls
  end.

(** The inner loop of [checkValidationLayerSupport]: [layerFound]. *)
Fixpoint checkValidationLayerSupport_found (name : string)
    (layers : list VkLayerProperties) : bool :=
  match layers with
  | [] => false
  | layer :: rest =>
      if strncmp name (layerName layer) 256 =? 0 then true
      else checkValidationLayerSupport_found name rest
  end.

(** The outer loop of [checkValidationLayerSupport]. *)
Fixpoint checkValidationLayerSupport_for (validationLayers : list string)
    (layers : list VkLayerProperties) : bool :=
  match validationLayers with
  | [] => true
  | name :: rest =>
      if negb (checkValidationLayerSupport_found name layers) then false
      else checkValidationLayerSupport_for rest layers
  end.

Definition checkValidationLayerSupport : M bool :=
  let r := vkEnumerateInstanceLayerProperties bs in
  let* _ := VK_ASSERT (fst r) "Failed to enumerate Layer Properties" in
  let* _ := VK_ASSERT (fst r) "Failed to enumerate Layer Properties" in
  let* validationLayers := gets validationLayers in
  ret (checkValidationLayerSupport_for validationLayers (snd r)).

(** The inner loop of the first loop of
    [checkAndAddInstanceExtensionSupport]: [foundExt]. *)
Fixpoint checkAndAddInstanceExtensionSupport_found (reqExt : string)
    (extensions : list VkExtensionProperties) : bool :=
  match extensions with
  | [] => false
  | vkExt :: rest =>
      if strncmp (extensionName vkExt) reqExt 256 =? 0 then true
      else checkAndAddInstanceExtensionSupport_found reqExt rest
  end.

(** Its first loop: every required extension must be found. *)
Fixpoint checkAndAddInstanceExtensionSupport_for (requiredExtensions : list string)
    (extensions : list VkExtensionProperties) : M unit :=
  match requiredExtensions with
  | [] => ret tt
  | reqExt :: rest =>
      if negb (checkAndAddInstanceExtensionSupport_found reqExt extensions)
      then throw (runtime_error
                    ("Could not find required GLFW Extension: " +:+ reqExt))
      else checkAndAddInstanceExtensionSupport_for rest extensions
  end.

(** Its second loop: what is pushed onto [requiredExtensions]. *)
Fixpoint checkAndAddInstanceExtensionSupport_add
    (extensions : list VkExtensionProperties) : list string :=
  match extensions with
  | [] => []
  | vkExt :: rest =>
      if strncmp (extensionName vkExt)
           VK_KHR_GET_PHYSICAL_DEVICE_PROPERTIES_2_EXTENSION_NAME 256 =? 0
      then [VK_KHR_GET_PHYSICAL_DEVICE_PROPERTIES_2_EXTENSION_NAME]
      else checkAndAddInstanceExtensionSupport_add rest
  end.

(** [requiredExtensions] is passed by reference; the result is the
    vector the caller holds afterwards. *)
Definition checkAndAddInstanceExtensionSupport (requiredExtensions : list string)
    : M (list string) :=
  let r := vkEnumerateInstanceExtensionProperties bs in
  let* _ := VK_ASSERT (fst r) "Failed to enumerate Instance Extensions!" in
  let* _ := VK_ASSERT (fst r) "Failed to enumerate Instance Extensions!" in
  let* _ := checkAndAddInstanceExtensionSupport_for requiredExtensions (snd r) in
  ret (requiredExtensions ++ checkAndAddInstanceExtensionSupport_add (snd r)).

Definition getRequiredExtensions : M (list string) :=
  let extensions := glfwGetRequiredInstanceExtensions bs in
  let* enableValidationLayers := gets enableValidationLayers in
  let extensions :=
    if enableValidationLayers : bool
    then extensions ++ [VK_EXT_DEBUG_UTILS_EXTENSION_NAME] else extensions in
  ret (extensions ++ [VK_KHR_PORTABILITY_ENUMERATION_EXTENSION_NAME]).

(** Severities verbose, warning and error; types general, validation
    and performance.  The callback is [debugCallback], the user data
    null. *)
Definition populateMessenger : VkDebugUtilsMessengerCreateInfoEXT.t :=
  VkDebugUtilsMessengerCreateInfoEXT.mk
    (Z.lor (Z.lor 1 256) 4096) (Z.lor (Z.lor 1 2) 4).

(** [&msgCreateInfo] as [instanceCreateInfo.pNext] holds it after the
    block of [if(enableValidationLayers)]: [msgCreateInfo] is a local of
    that block, filled by [populateMessenger]; its lifetime ends with the
    block, before [vkCreateInstance] is called. *)
Definition msgCreateInfo_after_block
  : pointer VkDebugUtilsMessengerCreateInfoEXT.t := dangling.

(** [vkCreateInstance] follows the [pNext] chain of its argument: reading
    through a pointer to a dead object is undefined. *)
Definition vkCreateInstance_reads (createInfo : VkInstanceCreateInfo.t) : M unit :=
  match VkInstanceCreateInfo.pNext createInfo with
  | dangling => undefined
  | _ => ret tt
  end.

Definition createInstance : M unit :=
  let* enableValidationLayers := gets enableValidationLayers in
  let* _ :=
    (if enableValidationLayers : bool then
       let* supported := checkValidationLayerSupport in
       if negb supported
       then throw (runtime_error "Validation Layer requested, but not available!")
       else ret tt
     else ret tt) in
  let appInfo :=
    VkApplicationInfo.mk "Vulkan Raytracing" "No Engine"
      (VK_MAKE_VERSION 0 0 1) VK_API_VERSION_1_0 (VK_MAKE_VERSION 0 0 1) in
  let* requiredExtensions := getRequiredExtensions in
  let* requiredExtensions := checkAndAddInstanceExtensionSupport requiredExtensions in
  let* validationLayers := gets validationLayers in
  let instanceCreateInfo :=
    VkInstanceCreateInfo.mk appInfo
      (Z.lor 0 VK_INSTANCE_CREATE_ENUMERATE_PORTABILITY_BIT_KHR)
      requiredExtensions
      (if enableValidationLayers then validationLayers else [])
      (if enableValidationLayers then msgCreateInfo_after_block else nullptr) in
  let* _ := vkCreateInstance_reads instanceCreateInfo in
  let r := vkCreateInstance bs instanceCreateInfo in
  let* _ := VK_ASSERT (fst r) "Failed to initialize Vulkan Instance!" in
  modify (set_instance (snd r)).

Definition setupDebugMessenger : M unit :=
  let* enableValidationLayers := gets enableValidationLayers in
  if negb enableValidationLayers then ret tt
  else
    let createInfo := populateMessenger in
    let* instance := gets instance in
    match vkCreateDebugUtilsMessengerEXT bs instance with
    | Some func =>
        let r := func instance createInfo in
        let* _ := VK_ASSERT (fst r) "DebugUtilsMessenger could not be created" in
        modify (set_debugMessenger (snd r))
    | None =>
        throw (runtime_error
                 "Could not find InstanceProcAddr of vkCreateDebugUtilsMessengerEXT")
    end.

Definition createSurface : M unit :=
  let* instance := gets instance in
  let* window := gets window in
  let r := glfwCreateWindowSurface bs instance window in
  let* _ := VK_ASSERT (fst r) "Could not create window surface!" in
  modify (set_surface (snd r)).

(** [Loader::readFile]: a buffer of the size that the end position
    gives, zero-filled by its constructor, then overwritten with what a
    read of that many bytes from position 0 delivers.  Neither [tellg]
    nor the read is checked. *)
Definition readFile (filename : string) : M (list Z) :=
  match ifstream bs filename with
  | None => throw (runtime_error ("Could not open file " +:+ filename))
  | Some file =>
      let fileSize := static_cast_size_t (tellg file) in
      match vector_char bs fileSize with
      | Some e => throw e
      | None => ret (resize (Z.to_nat fileSize) 0 (contents file))
      end
  end.

Definition createGraphicsPipeline : M unit :=
  let* vertCode := readFile "vert.spv" in
  let* fragCode := readFile "frag.spv" in
  ret tt.

(** The [createInfo] of the loop body of [createImageViews]. *)
Definition imageViewCreateInfo (image format : Z) : VkImageViewCreateInfo.t :=
  VkImageViewCreateInfo.mk image VK_IMAGE_VIEW_TYPE_2D format
    (VkImageViewCreateInfo.mkComponents
       VK_COMPONENT_SWIZZLE_IDENTITY VK_COMPONENT_SWIZZLE_IDENTITY
       VK_COMPONENT_SWIZZLE_IDENTITY VK_COMPONENT_SWIZZLE_IDENTITY)
    (VkImageViewCreateInfo.mkRange VK_IMAGE_ASPECT_COLOR_BIT 0 1 0 1).

(** The loop of [createImageViews] with [count] iterations left, at
    index [i].  The view is stored when its creation succeeds. *)
Fixpoint createImageViews_for (count i : nat) : M unit :=
  match count with
  | O => ret tt
  | S count' =>
      let* swapChainImages := gets swapChainImages in
      let* image := defined (swapChainImages !! i) in
      let* swapChainImageFormat := gets swapChainImageFormat in
      let* device := gets device in
      let r :=
        vkCreateImageView bs device
          (imageViewCreateInfo image swapChainImageFormat) in
      let* _ := VK_ASSERT (fst r) "Could not create image view!" in
      let* _ :=
        modify (fun a =>
                  set_swapChainImageViews
                    (<[i := snd r]> (swapChainImageViews a)) a) in
      createImageViews_for count' (S i)
  end.

Definition createImageViews : M unit :=
  let* _ :=
    modify (fun a =>
              set_swapChainImageViews
                (resize (length (swapChainImages a)) VK_NULL_HANDLE
                   (swapChainImageViews a)) a) in
  let* swapChainImageViews := gets swapChainImageViews in
  createImageViews_for (length swapChainImageViews) 0.

End Startup.

Definition initVulkan (drv : Driver) (bs : Bootstrap) : M unit :=
  let* _ := createInstance bs in
  let* _ := setupDebugMessenger bs in
  let* _ := createSurface bs in
  let* _ := pickPhysicalDevice drv in
  let* _ := createLogicalDevice drv in
  let* _ := createSwapChain drv in
  let* _ := createImageViews bs in
  createGraphicsPipeline bs.

(** [run] with at most [fuel] tests of the condition of [mainLoop]:
    [None] when the loop is still running after them.  An exception of
    the start-up leaves [run] at once. *)
Definition run (drv : Driver) (bs : Bootstrap) (fuel : nat)
    (s : RayTracingApplication) : option (Run unit) :=
  let start := (let* _ := initWindow bs in initVulkan drv bs) s in
  match outcome start with
  | Ok _ =>
      match mainLoop_for bs (window (final start)) fuel 0 with
      | Some _ =>
          let stop := cleanup drv (final start) in
          Some (mkRun (outcome stop) (final stop) (calls start ++ calls stop))
      | None => None
      end
  | _ => Some start
  end.

(** ** The vocabulary of the start-up theorems *)

(** Names that fit the 256-byte name arrays of the API, terminator
    included. *)
Definition fitsNameArray (name : string) : Prop := (String.length name < 256)%nat.

(** The answer of the platform for the view of [image], as the loop of
    [createImageViews] asks for it in the state [s]. *)
Definition viewOf (bs : Bootstrap) (s : RayTracingApplication) (image : Z)
  : VkResult * Z :=
  vkCreateImageView bs (device s)
    (imageViewCreateInfo image (swapChainImageFormat s)).

(** The calls that give a handle back to the platform. *)
Definition isRelease (c : Call) : bool :=
  match c with
  | DestroyImageView _ _ | DestroySwapchainKHR _ _ | DestroyDevice _
  | DestroyDebugUtilsMessengerEXT _ _ | DestroySurfaceKHR _ _ | DestroyInstance _
  | glfwDestroyWindow _ | glfwTerminate => true
  | _ => false
  end.

(** The calls of the start-up: the surface queries, the creation of the
    device with the fetch of its queues, the creation of the swap chain. *)
Definition isStartupCall (c : Call) : bool :=
  match c with
  | GetPhysicalDeviceSurfaceSupportKHR _ _ _ | CreateDevice _ _
  | GetDeviceQueue _ _ _ | CreateSwapchainKHR _ _ => true
  | _ => false
  end.

(** *** A concrete start-up *)

Module Boot.

Definition VK_ERROR_INITIALIZATION_FAILED : VkResult := -3.

(** A loader that offers the validation layer and every instance
    extension the application can ask for; the view of image [i] is
    [i + 100], and the window asks to close after two polls. *)
Definition loader : Bootstrap := {|
  glfwCreateWindow := fun _ _ _ => 1;
  glfwWindowShouldClose := fun _ polls => (2 <=? polls)%nat;
  vkEnumerateInstanceLayerProperties :=
    (VK_SUCCESS, [mkLayer "VK_LAYER_KHRONOS_validation"]);
  vkEnumerateInstanceExtensionProperties :=
    (VK_SUCCESS,
     [mkExtension "VK_KHR_surface";
      mkExtension "VK_KHR_xcb_surface";
      mkExtension "VK_EXT_debug_utils";
      mkExtension "VK_KHR_get_physical_device_properties2";
      mkExtension "VK_KHR_portability_enumeration"]);
  glfwGetRequiredInstanceExtensions := ["VK_KHR_surface"; "VK_KHR_xcb_surface"];
  vkCreateInstance := fun _ => (VK_SUCCESS, 2);
  vkCreateDebugUtilsMessengerEXT := fun _ => Some (fun _ _ => (VK_SUCCESS, 3));
  glfwCreateWindowSurface := fun _ _ => (VK_SUCCESS, 5);
  vkCreateImageView := fun _ createInfo =>
    (VK_SUCCESS, VkImageViewCreateInfo.image createInfo + 100);
  ifstream := fun filename =>
    if String.eqb filename "vert.spv" then Some (mkFile 4 [3; 2; 35; 7])
    else if String.eqb filename "frag.spv" then Some (mkFile 4 [3; 2; 35; 7])
    else None;
  vector_char := fun n =>
    if 9223372036854775807 <? n
    then Some (length_error "cannot create std::vector larger than max_size()")
    else None
|}.

(** The same loader without the windowing extension of the platform. *)
Definition headless : Bootstrap := {|
  glfwCreateWindow := glfwCreateWindow loader;
  glfwWindowShouldClose := glfwWindowShouldClose loader;
  vkEnumerateInstanceLayerProperties := vkEnumerateInstanceLayerProperties loader;
  vkEnumerateInstanceExtensionProperties :=
    (VK_SUCCESS,
     [mkExtension "VK_KHR_surface";
      mkExtension "VK_KHR_portability_enumeration"]);
  glfwGetRequiredInstanceExtensions := glfwGetRequiredInstanceExtensions loader;
  vkCreateInstance := vkCreateInstance loader;
  vkCreateDebugUtilsMessengerEXT := vkCreateDebugUtilsMessengerEXT loader;
  glfwCreateWindowSurface := glfwCreateWindowSurface loader;
  vkCreateImageView := vkCreateImageView loader;
  ifstream := ifstream loader;
  vector_char := vector_char loader
|}.

(** The same loader with no layer at all. *)
Definition layerless : Bootstrap := {|
  glfwCreateWindow := glfwCreateWindow loader;
  glfwWindowShouldClose := glfwWindowShouldClose loader;
  vkEnumerateInstanceLayerProperties := (VK_ERROR_INITIALIZATION_FAILED, []);
  vkEnumerateInstanceExtensionProperties :=
    vkEnumerateInstanceExtensionProperties loader;
  glfwGetRequiredInstanceExtensions := glfwGetRequiredInstanceExtensions loader;
  vkCreateInstance := vkCreateInstance loader;
  vkCreateDebugUtilsMessengerEXT := vkCreateDebugUtilsMessengerEXT loader;
  glfwCreateWindowSurface := glfwCreateWindowSurface loader;
  vkCreateImageView := vkCreateImageView loader;
  ifstream := ifstream loader;
  vector_char := vector_char loader
|}.

(** The same loader, which cannot create the view of image 402. *)
Definition viewless : Bootstrap := {|
  glfwCreateWindow := glfwCreateWindow loader;
  glfwWindowShouldClose := glfwWindowShouldClose loader;
  vkEnumerateInstanceLayerProperties := vkEnumerateInstanceLayerProperties loader;
  vkEnumerateInstanceExtensionProperties :=
    vkEnumerateInstanceExtensionProperties loader;
  glfwGetRequiredInstanceExtensions := glfwGetRequiredInstanceExtensions loader;
  vkCreateInstance := vkCreateInstance loader;
  vkCreateDebugUtilsMessengerEXT := vkCreateDebugUtilsMessengerEXT loader;
  glfwCreateWindowSurface := glfwCreateWindowSurface loader;
  vkCreateImageView := fun _ createInfo =>
    if VkImageViewCreateInfo.image createInfo =? 402
    then (VK_ERROR_INITIALIZATION_FAILED, 0)
    else (VK_SUCCESS, VkImageViewCreateInfo.image createInfo + 100);
  ifstream := ifstream loader;
  vector_char := vector_char loader
|}.

(** The same loader where [vert.spv] is a directory: it opens, and its
    end position cannot be determined. *)
Definition sizeless : Bootstrap := {|
  glfwCreateWindow := glfwCreateWindow loader;
  glfwWindowShouldClose := glfwWindowShouldClose loader;
  vkEnumerateInstanceLayerProperties := vkEnumerateInstanceLayerProperties loader;
  vkEnumerateInstanceExtensionProperties :=
    vkEnumerateInstanceExtensionProperties loader;
  glfwGetRequiredInstanceExtensions := glfwGetRequiredInstanceExtensions loader;
  vkCreateInstance := vkCreateInstance loader;
  vkCreateDebugUtilsMessengerEXT := vkCreateDebugUtilsMessengerEXT loader;
  glfwCreateWindowSurface := glfwCreateWindowSurface loader;
  vkCreateImageView := vkCreateImageView loader;
  ifstream := fun filename =>
    if String.eqb filename "vert.spv" then Some (mkFile (-1) [])
    else ifstream loader filename;
  vector_char := vector_char loader
|}.

(** The driver of [Scenario], which cannot create a swap chain. *)
Definition chainless : Driver := {|
  vkEnumeratePhysicalDevices := vkEnumeratePhysicalDevices Scenario.driver;
  vkGetPhysicalDeviceQueueFamilyProperties :=
    vkGetPhysicalDeviceQueueFamilyProperties Scenario.driver;
  vkGetPhysicalDeviceSurfaceSupportKHR :=
    vkGetPhysicalDeviceSurfaceSupportKHR Scenario.driver;
  vkEnumerateDeviceExtensionProperties :=
    vkEnumerateDeviceExtensionProperties Scenario.driver;
  vkGetPhysicalDeviceSurfaceCapabilitiesKHR :=
    vkGetPhysicalDeviceSurfaceCapabilitiesKHR Scenario.driver;
  vkGetPhysicalDeviceSurfaceFormatsKHR :=
    vkGetPhysicalDeviceSurfaceFormatsKHR Scenario.driver;
  vkGetPhysicalDeviceSurfacePresentModesKHR :=
    vkGetPhysicalDeviceSurfacePresentModesKHR Scenario.driver;
  glfwGetFramebufferSize := glfwGetFramebufferSize Scenario.driver;
  vkCreateDevice := vkCreateDevice Scenario.driver;
  vkGetDeviceQueue := vkGetDeviceQueue Scenario.driver;
  vkCreateSwapchainKHR := fun _ _ => (VK_ERROR_INITIALIZATION_FAILED, 0);
  vkGetSwapchainImagesKHR := vkGetSwapchainImagesKHR Scenario.driver;
  hasDestroyDebugUtilsMessengerEXT := hasDestroyDebugUtilsMessengerEXT Scenario.driver
|}.

(** The object as it is constructed: no adapter chosen, the other
    handles not yet written. *)
Definition fresh (validate : bool) : RayTracingApplication := {|
  window := 1; instance := 0; debugMessenger := 0;
  physicalDevice := VK_NULL_HANDLE; device := 0;
  graphicsQueue := 0; presentQueue := 0; surface := 0;
  swapChain := 0; swapChainImages := [];
  swapChainImageFormat := 0; swapChainExtent := mkExtent 0 0;
  swapChainImageViews := [];
  validationLayers := ["VK_LAYER_KHRONOS_validation"];
  deviceExtensions := [VK_KHR_SWAPCHAIN_EXTENSION_NAME];
  enableValidationLayers := validate
|}.

(** The object at the end of a successful start-up: validation is off,
    so no messenger was created. *)
Definition started : RayTracingApplication := {|
  window := 1; instance := 2; debugMessenger := 0;
  physicalDevice := 7; device := 100;
  graphicsQueue := 201; presentQueue := 202; surface := 5;
  swapChain := 300; swapChainImages := [401; 402; 403];
  swapChainImageFormat := VK_FORMAT_B8G8R8A8_SRGB;
  swapChainExtent := mkExtent 100 4000;
  swapChainImageViews := [501; 502; 503];
  validationLayers := ["VK_LAYER_KHRONOS_validation"];
  deviceExtensions := [VK_KHR_SWAPCHAIN_EXTENSION_NAME];
  enableValidationLayers := false
|}.

(** The object after [createSwapChain] on adapter 7. *)
Definition chained : RayTracingApplication := {|
  window := 1; instance := 2; debugMessenger := 0;
  physicalDevice := 7; device := 100;
  graphicsQueue := 201; presentQueue := 202; surface := 5;
  swapChain := 300; swapChainImages := [401; 402; 403];
  swapChainImageFormat := VK_FORMAT_B8G8R8A8_SRGB;
  swapChainExtent := mkExtent 100 4000;
  swapChainImageViews := [];
  validationLayers := ["VK_LAYER_KHRONOS_validation"];
  deviceExtensions := [VK_KHR_SWAPCHAIN_EXTENSION_NAME];
  enableValidationLayers := false
|}.

End Boot.

(** ** Running member functions *)

Lemma bind_Ok {A B} (m : M A) (k : A -> M B) s a :
  outcome (m s) = Ok a ->
  bind m k s =
  mkRun (outcome (k a (final (m s)))) (final (k a (final (m s))))
        (calls (m s) ++ calls (k a (final (m s)))).
Proof. intros H. unfold bind. now rewrite H. Qed.

Lemma bind_Throw {A B} (m : M A) (k : A -> M B) s e :
  outcome (m s) = Throw e ->
  bind m k s = mkRun (Throw e) (final (m s)) (calls (m s)).
Proof. intros H. unfold bind. now rewrite H. Qed.

Lemma bind_Ok_inv {A B} (m : M A) (k : A -> M B) s b :
  outcome (bind m k s) = Ok b ->
  exists a,
    outcome (m s) = Ok a
    /\ outcome (k a (final (m s))) = Ok b
    /\ final (bind m k s) = final (k a (final (m s))).
Proof.
  unfold bind. destruct (outcome (m s)) as [a| |]; simpl; try discriminate.
  intros H. exists a. done.
Qed.

Lemma final_bind {A B} (m : M A) (k : A -> M B) s :
  final (m s) = s -> (forall a, final (k a s) = s) -> final (bind m k s) = s.
Proof.
  intros Hm Hk. unfold bind.
  destruct (outcome (m s)); cbn [final]; rewrite ?Hm; auto.
Qed.

Lemma in_calls_bind {A B} (m : M A) (k : A -> M B) s c :
  c ∈ calls (bind m k s) ->
  c ∈ calls (m s)
  \/ exists a, outcome (m s) = Ok a /\ c ∈ calls (k a (final (m s))).
Proof.
  unfold bind. destruct (outcome (m s)) as [a| |] eqn:Ho; simpl; try tauto.
  rewrite elem_of_app. intros [H|H]; [now left|]. right. eauto.
Qed.

(** Splits the membership [H] of a call in the calls of a bind into the
    calls of its first part and those of what follows it. *)
Ltac in_bind H :=
  let a := fresh "a" in
  let Ho := fresh "Ho" in
  apply in_calls_bind in H as [H|(a & Ho & H)];
  cbn [gets modify call ret throw undefined outcome final calls] in *.

Ltac no_calls H := exfalso; revert H; apply not_elem_of_nil.

Lemma VK_ASSERT_calls res msg s c : c ∈ calls (VK_ASSERT res msg s) -> False.
Proof. unfold VK_ASSERT. destruct (bool_decide _); apply not_elem_of_nil. Qed.

Lemma VK_ASSERT_final res msg s : final (VK_ASSERT res msg s) = s.
Proof. unfold VK_ASSERT. destruct (bool_decide _); reflexivity. Qed.

Lemma uint32_small z : 0 <= z <= UINT32_MAX -> uint32 z = z.
Proof. unfold uint32, UINT32_MAX. intros H. apply Z.mod_small. lia. Qed.

(** ** Queue Family Resolver *)

(** Names the family whose index ends up in the slot. *)
Ltac hit k :=
  left; exists k; split; [reflexivity|]; split; [lia|]; split;
  [first [assumption | congruence]|].

Lemma last_hit_nil Q i old : last_hit Q i i old old.
Proof.
  intros j. split.
  - intros ->. right. split; [done|]. intros k ?; lia.
  - intros [(k & _ & Hk & _)|[-> _]]; [lia|done].
Qed.

Lemma last_hit_single Q i old :
  last_hit Q i (S i) old (pick (Q i) (Z.of_nat i) old).
Proof.
  intros j. unfold pick. destruct (Q i) eqn:HQ; split.
  - intros [= <-]. hit i. intros k' ?; lia.
  - intros [(k & -> & Hk & _)|[_ Hnone]].
    + f_equal. lia.
    + rewrite Hnone in HQ by lia. discriminate.
  - intros ->. right. split; [done|]. intros k Hk.
    assert (k = i) as -> by lia. done.
  - intros [(k & -> & Hk & HQk & _)|[-> _]]; [|done].
    assert (k = i) as -> by lia. congruence.
Qed.

Lemma last_hit_cons Q i n old new :
  (i < n)%nat ->
  last_hit Q (S i) n (pick (Q i) (Z.of_nat i) old) new ->
  last_hit Q i n old new.
Proof.
  intros Hin H j. rewrite (H j). unfold pick. clear H.
  destruct (Q i) eqn:HQ; split.
  - intros [(k & -> & Hk & HQk & Hlast)|[[= <-] Hnone]].
    + hit k. done.
    + hit i. intros k' Hk'. apply Hnone. lia.
  - intros [(k & -> & Hk & HQk & Hlast)|[_ Hnone]].
    + destruct (decide (k = i)) as [->|Hne].
      * right. split; [done|]. intros k' Hk'. apply Hlast. lia.
      * hit k. done.
    + rewrite Hnone in HQ by lia. discriminate.
  - intros [(k & -> & Hk & HQk & Hlast)|[-> Hnone]].
    + hit k. done.
    + right. split; [done|]. intros k Hk.
      destruct (decide (k = i)) as [->|Hne]; [done|]. apply Hnone. lia.
  - intros [(k & -> & Hk & HQk & Hlast)|[-> Hnone]].
    + destruct (decide (k = i)) as [->|Hne]; [congruence|].
      hit k. done.
    + right. split; [done|]. intros k Hk. apply Hnone. lia.
Qed.

Lemma seen_single Q i old :
  seen Q i (S i) old <-> has_value (pick (Q i) (Z.of_nat i) old) = true.
Proof.
  unfold seen, pick. destruct (Q i) eqn:HQ; simpl; split.
  - done.
  - intros _. right. exists i. split; [lia|done].
  - intros [H|(k & Hk & HQk)]; [done|].
    assert (k = i) as -> by lia. congruence.
  - intros H. now left.
Qed.

Lemma seen_cons Q i m old :
  (S i < m)%nat ->
  seen Q i m old <-> seen Q (S i) m (pick (Q i) (Z.of_nat i) old).
Proof.
  intros Hm. unfold seen, pick. destruct (Q i) eqn:HQ; simpl; split.
  - intros _. now left.
  - intros _. right. exists i. split; [lia|done].
  - intros [H|(k & Hk & HQk)]; [now left|].
    right. exists k. split; [|done].
    destruct (decide (k = i)) as [->|Hne]; [congruence|lia].
  - intros [H|(k & Hk & HQk)]; [now left|].
    right. exists k. split; [lia|done].
Qed.

Lemma isComplete_seen Q R i g p :
  isComplete (mkIndicies (pick (Q i) (Z.of_nat i) g) (pick (R i) (Z.of_nat i) p)) = true
  <-> seen Q i (S i) g /\ seen R i (S i) p.
Proof.
  rewrite !seen_single. unfold isComplete. simpl.
  rewrite andb_true_iff. done.
Qed.

Lemma last_hit_None Q n slot : last_hit Q 0 n None slot -> last_among Q n slot.
Proof.
  intros H j. rewrite (H j). split.
  - intros [(k & -> & Hk & HQ & Hl)|[[=] _]].
    exists k. split; [done|]. split; [lia|]. done.
  - intros (k & -> & Hk & HQ & Hl). hit k. done.
Qed.

Lemma seen_None Q m : seen Q 0 m None <-> exists k : nat, (k < m)%nat /\ Q k = true.
Proof.
  unfold seen. simpl. split.
  - intros [[=]|(k & Hk & HQ)]. exists k. split; [lia|done].
  - intros (k & Hk & HQ). right. exists k. split; [lia|done].
Qed.

Lemma last_among_has_value Q n slot :
  last_among Q n slot -> has_value slot = true ->
  exists k : nat, (k < n)%nat /\ Q k = true.
Proof.
  intros H Hv. destruct slot as [j|]; [|done].
  destruct (proj1 (H j) eq_refl) as (k & _ & Hk & HQ & _). eauto.
Qed.

Lemma findQueueFamilies_for_spec drv dev surf (Gf Pf : nat -> bool) :
  (forall k : nat,
     Pf k = vkGetPhysicalDeviceSurfaceSupportKHR drv dev (Z.of_nat k) surf) ->
  forall rest (i : nat) ind s,
    (forall (k : nat) prop,
       rest !! k = Some prop -> graphicsBit prop = Gf (i + k)%nat) ->
    Z.of_nat (i + length rest) <= UINT32_MAX ->
    isComplete ind = false ->
    exists (n : nat) ind',
      findQueueFamilies_for drv dev surf rest (Z.of_nat i) ind s
      = mkRun (Ok ind') s (supportQueries dev surf i (n - i))
      /\ (i <= n <= i + length rest)%nat
      /\ (rest <> [] -> (i < n)%nat)
      /\ last_hit Gf i n (graphicsFamily ind) (graphicsFamily ind')
      /\ last_hit Pf i n (presentFamily ind) (presentFamily ind')
      /\ ((n < i + length rest)%nat -> isComplete ind' = true)
      /\ (forall m : nat, (i < m < n)%nat ->
            ~ (seen Gf i m (graphicsFamily ind)
               /\ seen Pf i m (presentFamily ind))).
Proof.
  intros HP rest. induction rest as [|prop rest IH]; intros i ind s HG Hlen Hinc.
  - exists i, ind. simpl. rewrite Nat.sub_diag.
    split; [done|]. split; [lia|]. split; [done|].
    split; [apply last_hit_nil|]. split; [apply last_hit_nil|].
    split; intros; lia.
  - cbn [length] in *.
    assert (graphicsBit prop = Gf i) as HGi.
    { rewrite (HG 0%nat prop eq_refl). f_equal. lia. }
    set (ind2 := mkIndicies (pick (Gf i) (Z.of_nat i) (graphicsFamily ind))
                            (pick (Pf i) (Z.of_nat i) (presentFamily ind))).
    assert (findQueueFamilies_for drv dev surf (prop :: rest) (Z.of_nat i) ind s
            = if isComplete ind2
              then mkRun (Ok ind2) s (supportQueries dev surf i 1)
              else
                let r := findQueueFamilies_for drv dev surf rest
                           (Z.of_nat (S i)) ind2 s in
                mkRun (outcome r) (final r)
                  (supportQueries dev surf i 1 ++ calls r)) as Hstep.
    { simpl. unfold bind at 1. simpl. rewrite HGi, <- HP.
      replace (uint32 (Z.of_nat i + 1)) with (Z.of_nat (S i))
        by (rewrite uint32_small; lia).
      subst ind2. unfold pick. destruct ind as [g p].
      destruct (Gf i), (Pf i); simpl;
        repeat match goal with
               | |- context [isComplete ?q] => destruct (isComplete q)
               end; reflexivity. }
    rewrite Hstep. clear Hstep.
    destruct (isComplete ind2) eqn:Hc.
    + exists (S i), ind2.
      replace (S i - i)%nat with 1%nat by lia.
      split; [done|]. split; [lia|]. split; [lia|].
      split; [apply last_hit_single|]. split; [apply last_hit_single|].
      split; [done|]. intros m ?; lia.
    + destruct (IH (S i) ind2 s) as (n & ind' & Hrun & Hn & Hne & HlG & HlP & Hcomp & Hmin).
      * intros k prop' Hk. rewrite (HG (S k) prop' Hk). f_equal. lia.
      * lia.
      * done.
      * exists n, ind'. rewrite Hrun. simpl.
        split.
        { f_equal. unfold supportQueries.
          replace (n - i)%nat with (S (n - S i)) by lia. done. }
        split; [lia|]. split; [lia|].
        split; [apply last_hit_cons; [lia|done]|].
        split; [apply last_hit_cons; [lia|done]|].
        split; [intros; apply Hcomp; lia|].
        intros m Hm [HsG HsP].
        destruct (decide (m = S i)) as [->|Hne'].
        -- assert (isComplete ind2 = true) as Hc'
             by (apply isComplete_seen; done).
           congruence.
        -- apply (Hmin m); [lia|].
           split; [apply (seen_cons Gf i m); [lia|done]
                  |apply (seen_cons Pf i m); [lia|done]].
Qed.

Lemma findQueueFamilies_for_total drv dev surf rest :
  forall i ind s,
  exists ind' q,
    findQueueFamilies_for drv dev surf rest i ind s = mkRun (Ok ind') s q
    /\ Forall (fun c => isSurfaceQuery c = true) q.
Proof.
  induction rest as [|prop rest IH]; intros i ind s.
  - exists ind, []. split; [reflexivity|constructor].
  - simpl. unfold bind at 1. simpl.
    match goal with
    | |- context [if isComplete ?q then _ else _] =>
        destruct (isComplete q) eqn:Hc; [exists q|]
    end.
    + eexists. split; [reflexivity|]. repeat constructor.
    + match goal with
      | |- context [findQueueFamilies_for _ _ _ _ ?j ?q s] =>
          destruct (IH j q s) as (ind' & calls' & -> & Hq)
      end.
      exists ind'. eexists. split; [reflexivity|].
      simpl. constructor; [reflexivity|exact Hq].
Qed.

Lemma findQueueFamilies_total drv dev s :
  exists ind q,
    findQueueFamilies drv dev s = mkRun (Ok ind) s q
    /\ Forall (fun c => isSurfaceQuery c = true) q.
Proof.
  unfold findQueueFamilies, bind. simpl.
  destruct (findQueueFamilies_for_total drv dev (surface s)
              (vkGetPhysicalDeviceQueueFamilyProperties drv dev) 0
              (mkIndicies None None) s) as (ind & q & -> & Hq).
  exists ind, q. split; [reflexivity|exact Hq].
Qed.

Example findQueueFamilies_adapter7 :
  findQueueFamilies Scenario.driver 7 (Scenario.app 7)
  = mkRun (Ok (mkIndicies (Some 1) (Some 2))) (Scenario.app 7)
      [GetPhysicalDeviceSurfaceSupportKHR 7 0 5;
       GetPhysicalDeviceSurfaceSupportKHR 7 1 5;
       GetPhysicalDeviceSurfaceSupportKHR 7 2 5].
Proof. reflexivity. Qed.

Example findQueueFamilies_adapter8 :
  findQueueFamilies Scenario.driver 8 (Scenario.app 8)
  = mkRun (Ok (mkIndicies (Some 0) (Some 0))) (Scenario.app 8)
      [GetPhysicalDeviceSurfaceSupportKHR 8 0 5].
Proof. reflexivity. Qed.

(** C1 (as the code has it): [findQueueFamilies] always returns, leaves
    the object unchanged and examines the families in index order, one
    surface query per family, stopping right after the first family at
    which both indices are assigned (and never before).  Every graphics
    family examined overwrites the graphics index and every presenting
    family examined overwrites the present index, independently of each
    other: each index is that of the LAST such family among the families
    examined, not of the first. *)
Theorem findQueueFamilies_scan (drv : Driver) (s : RayTracingApplication) (dev : Z) :
  let props := vkGetPhysicalDeviceQueueFamilyProperties drv dev in
  let G := advertisesGraphics drv dev in
  let P := canPresent drv dev (surface s) in
  Z.of_nat (length props) <= UINT32_MAX ->
  exists (n : nat) (ind : QueueFamilyIndicies),
    findQueueFamilies drv dev s
    = mkRun (Ok ind) s (supportQueries dev (surface s) 0 n)
    /\ (n <= length props)%nat
    /\ (props <> [] -> (1 <= n)%nat)
    /\ (forall m : nat, (0 < m < n)%nat -> ~ bothAmong G P m)
    /\ ((n < length props)%nat -> bothAmong G P n)
    /\ last_among G n (graphicsFamily ind)
    /\ last_among P n (presentFamily ind).
Proof.
  intros props G P Hlen.
  destruct (findQueueFamilies_for_spec drv dev (surface s) G P
              (fun k => eq_refl) props 0%nat (mkIndicies None None) s)
    as (n & ind & Hrun & Hn & Hne & HlG & HlP & Hcomp & Hmin).
  - intros k prop Hk. subst G. unfold advertisesGraphics.
    fold props. simpl. now rewrite Hk.
  - simpl. lia.
  - done.
  - apply last_hit_None in HlG. apply last_hit_None in HlP.
    exists n, ind. split.
    { unfold findQueueFamilies, bind. simpl. fold props.
      change 0 with (Z.of_nat 0). rewrite Hrun. simpl.
      now rewrite Nat.sub_0_r. }
    split; [lia|]. split; [intros H; specialize (Hne H); lia|].
    split.
    { intros m Hm [HG' HP']. apply (Hmin m Hm).
      simpl. split; apply seen_None; done. }
    split; [|done].
    intros Hlt. specialize (Hcomp Hlt).
    unfold isComplete in Hcomp. apply andb_true_iff in Hcomp as [Hg Hp].
    split; eapply last_among_has_value; eauto.
Qed.

Lemma findQueueFamilies_scan_witness :
  exists (n : nat) (ind : QueueFamilyIndicies),
    findQueueFamilies Scenario.driver 7 (Scenario.app 7)
    = mkRun (Ok ind) (Scenario.app 7) (supportQueries 7 5 0 n)
    /\ (n <= 3)%nat
    /\ (vkGetPhysicalDeviceQueueFamilyProperties Scenario.driver 7 <> [] ->
        (1 <= n)%nat)
    /\ (forall m : nat, (0 < m < n)%nat ->
          ~ bothAmong (advertisesGraphics Scenario.driver 7)
                      (canPresent Scenario.driver 7 5) m)
    /\ ((n < 3)%nat ->
        bothAmong (advertisesGraphics Scenario.driver 7)
                  (canPresent Scenario.driver 7 5) n)
    /\ last_among (advertisesGraphics Scenario.driver 7) n (graphicsFamily ind)
    /\ last_among (canPresent Scenario.driver 7 5) n (presentFamily ind).
Proof.
  apply (findQueueFamilies_scan Scenario.driver (Scenario.app 7) 7).
  vm_compute. discriminate.
Defined.

(** On an adapter whose families are graphics, graphics, present, the
    graphics index is 1 although family 0 is the first graphics family. *)
Lemma findQueueFamilies_not_first_match :
  ~ findQueueFamilies_first_match Scenario.driver (Scenario.app 7) 7.
Proof.
  intros (ind & Hrun & HG & _).
  injection Hrun as <-. simpl in HG.
  assert (Some 1 = Some 0) as Habs; [|discriminate].
  apply (HG 0). exists 0%nat.
  split; [done|]. split; [simpl; lia|]. split; [done|].
  intros k' ?; lia.
Qed.

(** ** Capability Prober *)

Lemma enumerateDeviceExtensions_run drv dev s :
  enumerateDeviceExtensions drv dev s =
  let r := vkEnumerateDeviceExtensionProperties drv dev in
  if bool_decide (fst r = VK_SUCCESS) then mkRun (Ok (snd r)) s []
  else mkRun (Throw (runtime_error "Could not enumerate Device Extensions!")) s [].
Proof.
  unfold enumerateDeviceExtensions, bind, VK_ASSERT. simpl.
  destruct (bool_decide _); simpl; reflexivity.
Qed.

Lemma checkDeviceExtensionSupport_run drv dev s :
  checkDeviceExtensionSupport drv dev s =
  let r := vkEnumerateDeviceExtensionProperties drv dev in
  if bool_decide (fst r = VK_SUCCESS)
  then mkRun (Ok (bool_decide
                    (eraseAvailable (list_to_set (deviceExtensions s)) (snd r)
                     = ∅))) s []
  else mkRun (Throw (runtime_error "Could not enumerate Device Extensions!")) s [].
Proof.
  unfold checkDeviceExtensionSupport, bind.
  rewrite enumerateDeviceExtensions_run. simpl.
  destruct (bool_decide _); simpl; reflexivity.
Qed.

Lemma querySwapChainSupport_run drv dev s :
  querySwapChainSupport drv dev s =
  let r := vkGetPhysicalDeviceSurfaceCapabilitiesKHR drv dev (surface s) in
  if bool_decide (fst r = VK_SUCCESS)
  then mkRun (Ok (mkDetails (snd r)
                    (vkGetPhysicalDeviceSurfaceFormatsKHR drv dev (surface s))
                    (vkGetPhysicalDeviceSurfacePresentModesKHR drv dev (surface s))))
         s []
  else mkRun (Throw (runtime_error "Could not get physical surface capabilities!"))
         s [].
Proof.
  unfold querySwapChainSupport, bind, VK_ASSERT. simpl.
  destruct (bool_decide (fst _ = VK_SUCCESS)); simpl; [|reflexivity].
  destruct (vkGetPhysicalDeviceSurfaceFormatsKHR drv dev (surface s));
    destruct (vkGetPhysicalDeviceSurfacePresentModesKHR drv dev (surface s));
    reflexivity.
Qed.

Lemma eraseAvailable_elem (req : gset string) avail (x : string) :
  x ∈ eraseAvailable req avail <-> x ∈ req /\ x ∉ extensionName <$> avail.
Proof.
  unfold eraseAvailable. revert req.
  induction avail as [|ext avail IH]; intros req; simpl.
  - rewrite elem_of_nil. tauto.
  - rewrite IH, elem_of_difference, elem_of_singleton, elem_of_cons. tauto.
Qed.

Lemma eraseAvailable_empty (required : list string) avail :
  eraseAvailable (list_to_set required) avail = ∅
  <-> forall x : string, x ∈ required -> x ∈ extensionName <$> avail.
Proof.
  split.
  - intros Hempty x Hx.
    destruct (decide (x ∈ extensionName <$> avail)) as [|Hnot]; [done|].
    assert (x ∈ eraseAvailable (list_to_set required) avail) as Hin.
    { apply eraseAvailable_elem. split; [|done]. now apply elem_of_list_to_set. }
    rewrite Hempty in Hin. now apply not_elem_of_empty in Hin.
  - intros Hall. apply leibniz_equiv. apply elem_of_equiv_empty. intros x Hx.
    apply eraseAvailable_elem in Hx as [Hreq Hnot].
    apply Hnot, Hall. now apply elem_of_list_to_set in Hreq.
Qed.

Example checkDeviceExtensionSupport_adapter7 :
  checkDeviceExtensionSupport Scenario.driver 7 (Scenario.app 7)
  = mkRun (Ok true) (Scenario.app 7) [].
Proof. vm_compute. reflexivity. Qed.

(** C5: when the enumeration of the adapter's device extensions
    succeeds with the list [avail], [checkDeviceExtensionSupport] returns
    true exactly when every required name is among the names of [avail];
    the answer depends only on the two sets of names, not on the order of
    the lists nor on repetitions in them. *)
Theorem checkDeviceExtensionSupport_subset
    (drv : Driver) (s : RayTracingApplication) (dev : Z)
    (avail : list VkExtensionProperties) :
  vkEnumerateDeviceExtensionProperties drv dev = (VK_SUCCESS, avail) ->
  (exists b : bool,
     checkDeviceExtensionSupport drv dev s = mkRun (Ok b) s []
     /\ (b = true <->
         forall x : string,
           x ∈ deviceExtensions s -> x ∈ extensionName <$> avail))
  /\ (forall (drv' : Driver) (s' : RayTracingApplication) (dev' : Z)
             (avail' : list VkExtensionProperties),
        vkEnumerateDeviceExtensionProperties drv' dev' = (VK_SUCCESS, avail') ->
        (forall x : string, x ∈ deviceExtensions s <-> x ∈ deviceExtensions s') ->
        (forall x : string,
           x ∈ extensionName <$> avail <-> x ∈ extensionName <$> avail') ->
        outcome (checkDeviceExtensionSupport drv dev s)
        = outcome (checkDeviceExtensionSupport drv' dev' s')).
Proof.
  intros Henum. split.
  - rewrite checkDeviceExtensionSupport_run, Henum. simpl.
    eexists. split; [reflexivity|].
    rewrite bool_decide_eq_true. apply eraseAvailable_empty.
  - intros drv' s' dev' avail' Henum' HR HS.
    rewrite !checkDeviceExtensionSupport_run, Henum, Henum'. simpl.
    f_equal. apply bool_decide_ext.
    rewrite !eraseAvailable_empty. split; intros H x Hx.
    + apply HS, H, HR, Hx.
    + apply HS, H, HR, Hx.
Qed.

Lemma checkDeviceExtensionSupport_subset_witness :
  exists b : bool,
    checkDeviceExtensionSupport Scenario.driver 7 (Scenario.app 7)
    = mkRun (Ok b) (Scenario.app 7) []
    /\ (b = true <->
        forall x : string,
          x ∈ deviceExtensions (Scenario.app 7) ->
          x ∈ extensionName <$>
                [mkExtension "VK_KHR_portability_subset";
                 mkExtension "VK_KHR_swapchain";
                 mkExtension "VK_KHR_swapchain"]).
Proof.
  apply (proj1 (checkDeviceExtensionSupport_subset Scenario.driver
                  (Scenario.app 7) 7 _ eq_refl)).
Defined.

(** ** Suitability Evaluator *)

(** The outcome of [isDeviceSuitable], the scan having resolved [ind]. *)
Lemma isDeviceSuitable_outcome drv dev s ind :
  outcome (findQueueFamilies drv dev s) = Ok ind ->
  outcome (isDeviceSuitable drv dev s) =
  if bool_decide (fst (vkEnumerateDeviceExtensionProperties drv dev) = VK_SUCCESS)
  then
    if bool_decide
         (eraseAvailable (list_to_set (deviceExtensions s))
            (snd (vkEnumerateDeviceExtensionProperties drv dev)) = ∅)
    then
      if bool_decide
           (fst (vkGetPhysicalDeviceSurfaceCapabilitiesKHR drv dev (surface s))
            = VK_SUCCESS)
      then
        Ok (isComplete ind
            && (negb (bool_decide
                        (vkGetPhysicalDeviceSurfaceFormatsKHR drv dev (surface s)
                         = []))
                && negb (bool_decide
                           (vkGetPhysicalDeviceSurfacePresentModesKHR drv dev
                              (surface s) = []))))
      else Throw (runtime_error "Could not get physical surface capabilities!")
    else Ok (isComplete ind && false)
  else Throw (runtime_error "Could not enumerate Device Extensions!").
Proof.
  intros Hfind0.
  destruct (findQueueFamilies_total drv dev s) as (ind' & q & Hfind & _).
  rewrite Hfind in Hfind0. injection Hfind0 as ->.
  unfold isDeviceSuitable.
  unfold bind at 1. rewrite Hfind. simpl.
  unfold bind at 1. rewrite checkDeviceExtensionSupport_run. simpl.
  destruct (bool_decide (fst (vkEnumerateDeviceExtensionProperties drv dev)
                         = VK_SUCCESS)); simpl; [|reflexivity].
  destruct (bool_decide (eraseAvailable _ _ = ∅)); simpl; [|reflexivity].
  unfold bind at 1. unfold bind at 1. rewrite querySwapChainSupport_run. simpl.
  destruct (bool_decide (fst (vkGetPhysicalDeviceSurfaceCapabilitiesKHR drv dev
                                (surface s)) = VK_SUCCESS)); reflexivity.
Qed.

(** An adapter that is found suitable offers a surface format. *)
Lemma isDeviceSuitable_formats drv dev s :
  outcome (isDeviceSuitable drv dev s) = Ok true ->
  fst (vkGetPhysicalDeviceSurfaceCapabilitiesKHR drv dev (surface s)) = VK_SUCCESS
  /\ vkGetPhysicalDeviceSurfaceFormatsKHR drv dev (surface s) <> [].
Proof.
  destruct (findQueueFamilies_total drv dev s) as (ind & q & Hfind & _).
  rewrite (isDeviceSuitable_outcome drv dev s ind)
    by (rewrite Hfind; reflexivity).
  destruct (bool_decide (fst (vkEnumerateDeviceExtensionProperties drv dev)
                         = VK_SUCCESS)); [|discriminate].
  destruct (bool_decide (eraseAvailable _ _ = ∅));
    [|rewrite andb_false_r; discriminate].
  destruct (bool_decide (fst (vkGetPhysicalDeviceSurfaceCapabilitiesKHR drv dev
                                (surface s)) = VK_SUCCESS)) eqn:Hcaps;
    [|discriminate].
  apply bool_decide_eq_true in Hcaps.
  intros [= H]. apply andb_true_iff in H as [_ H].
  apply andb_true_iff in H as [Hf _].
  apply negb_true_iff, bool_decide_eq_false in Hf. done.
Qed.

Lemma isDeviceSuitable_final drv dev s : final (isDeviceSuitable drv dev s) = s.
Proof.
  unfold isDeviceSuitable.
  apply final_bind.
  { destruct (findQueueFamilies_total drv dev s) as (ind & q & -> & _).
    reflexivity. }
  intros indices. apply final_bind.
  { rewrite checkDeviceExtensionSupport_run. cbn zeta.
    destruct (bool_decide _); reflexivity. }
  intros supported. apply final_bind; [|reflexivity].
  destruct supported; [|reflexivity].
  apply final_bind; [|reflexivity].
  rewrite querySwapChainSupport_run. cbn zeta.
  destruct (bool_decide _); reflexivity.
Qed.

(** C4: [isDeviceSuitable] returns true exactly when (a) the indices
    that [findQueueFamilies] resolves for the adapter and the surface are
    complete, (b) the adapter's device extensions enumerate and every
    required extension name is among them, and (c) the surface
    capabilities are obtained and the adapter's format list and
    present-mode list for the surface are both non-empty.  (A platform
    query that fails makes the function throw instead of return.) *)
Theorem isDeviceSuitable_iff (drv : Driver) (s : RayTracingApplication) (dev : Z) :
  outcome (isDeviceSuitable drv dev s) = Ok true
  <->
  (exists ind : QueueFamilyIndicies,
     outcome (findQueueFamilies drv dev s) = Ok ind /\ isComplete ind = true)
  /\ (fst (vkEnumerateDeviceExtensionProperties drv dev) = VK_SUCCESS
      /\ forall name : string,
           name ∈ deviceExtensions s ->
           name ∈ extensionName <$> snd (vkEnumerateDeviceExtensionProperties drv dev))
  /\ (fst (vkGetPhysicalDeviceSurfaceCapabilitiesKHR drv dev (surface s))
      = VK_SUCCESS
      /\ vkGetPhysicalDeviceSurfaceFormatsKHR drv dev (surface s) <> []
      /\ vkGetPhysicalDeviceSurfacePresentModesKHR drv dev (surface s) <> []).
Proof.
  destruct (findQueueFamilies_total drv dev s) as (ind & q & Hfind & _).
  rewrite (isDeviceSuitable_outcome drv dev s ind)
    by (rewrite Hfind; reflexivity).
  rewrite Hfind. cbn [outcome]. rewrite <- eraseAvailable_empty.
  destruct (bool_decide (fst (vkEnumerateDeviceExtensionProperties drv dev)
                         = VK_SUCCESS)) eqn:Henum.
  2:{ apply bool_decide_eq_false in Henum.
      split; [discriminate|]. intros (_ & [? _] & _). done. }
  apply bool_decide_eq_true in Henum.
  destruct (bool_decide (eraseAvailable _ _ = ∅)) eqn:Hext.
  2:{ apply bool_decide_eq_false in Hext. rewrite andb_false_r.
      split; [discriminate|]. intros (_ & [_ ?] & _). done. }
  apply bool_decide_eq_true in Hext.
  destruct (bool_decide (fst (vkGetPhysicalDeviceSurfaceCapabilitiesKHR drv dev
                                (surface s)) = VK_SUCCESS)) eqn:Hcaps.
  2:{ apply bool_decide_eq_false in Hcaps.
      split; [discriminate|]. intros (_ & _ & ? & _). done. }
  apply bool_decide_eq_true in Hcaps.
  split.
  - intros [= H]. apply andb_true_iff in H as [Hc H].
    apply andb_true_iff in H as [Hf Hp].
    apply negb_true_iff, bool_decide_eq_false in Hf.
    apply negb_true_iff, bool_decide_eq_false in Hp.
    split; [exists ind; done|]. done.
  - intros ((ind' & [= <-] & Hc) & _ & _ & Hf & Hp).
    f_equal. rewrite Hc. simpl. apply andb_true_iff.
    split; apply negb_true_iff, bool_decide_eq_false; done.
Qed.

Lemma isDeviceSuitable_iff_witness :
  outcome (isDeviceSuitable Scenario.driver 7 (Scenario.app 7)) = Ok true.
Proof.
  apply (isDeviceSuitable_iff Scenario.driver (Scenario.app 7) 7).
  split; [|split].
  - exists (mkIndicies (Some 1) (Some 2)). split; reflexivity.
  - split; [reflexivity|]. intros name Hname. simpl in *.
    apply list_elem_of_singleton in Hname as ->.
    apply elem_of_cons. right. apply elem_of_cons. now left.
  - split; [reflexivity|]. split; discriminate.
Defined.

Lemma pickPhysicalDevice_for_chosen drv devices s :
  outcome (pickPhysicalDevice_for drv devices s) = Ok tt ->
  final (pickPhysicalDevice_for drv devices s) = s
  \/ exists d,
       d ∈ devices
       /\ outcome (isDeviceSuitable drv d s) = Ok true
       /\ final (pickPhysicalDevice_for drv devices s) = set_physicalDevice d s.
Proof.
  induction devices as [|d rest IH]; [now left|].
  cbn [pickPhysicalDevice_for]. intros H.
  apply bind_Ok_inv in H as (b & Hsuit & H & ->).
  rewrite isDeviceSuitable_final in *.
  destruct b.
  - right. exists d. split; [now left|]. done.
  - destruct (IH H) as [?|(d' & Hd' & ? & ?)]; [now left|].
    right. exists d'. split; [now right|]. done.
Qed.

Lemma pickPhysicalDevice_chosen drv s :
  physicalDevice s = VK_NULL_HANDLE ->
  outcome (pickPhysicalDevice drv s) = Ok tt ->
  exists d,
    outcome (isDeviceSuitable drv d s) = Ok true
    /\ final (pickPhysicalDevice drv s) = set_physicalDevice d s.
Proof.
  intros Hnull. unfold pickPhysicalDevice. intros H.
  apply bind_Ok_inv in H as (i & [= <-] & H & ->). cbn [gets final] in *.
  apply bind_Ok_inv in H as ([] & _ & H & ->).
  rewrite VK_ASSERT_final in *. revert H.
  destruct (bool_decide
              (length (snd (vkEnumeratePhysicalDevices drv (instance s)))
               = 0%nat)).
  { intros H. apply bind_Ok_inv in H as ([] & H & _ & _). discriminate H. }
  intros H.
  apply bind_Ok_inv in H as ([] & _ & H & ->). cbn [ret final] in *.
  apply bind_Ok_inv in H as ([] & _ & H & ->).
  rewrite VK_ASSERT_final in *.
  apply bind_Ok_inv in H as ([] & Hfor & H & ->).
  revert H.
  destruct (pickPhysicalDevice_for_chosen _ _ _ Hfor) as [->|(d & _ & Hs & ->)].
  - unfold bind. cbn [gets outcome final]. rewrite Hnull. discriminate.
  - intros _. exists d. split; [exact Hs|].
    unfold bind. cbn [gets outcome final].
    destruct (bool_decide _); reflexivity.
Qed.

Example pickPhysicalDevice_scenario :
  pickPhysicalDevice Scenario.driver (Scenario.app VK_NULL_HANDLE)
  = mkRun (Ok tt) (Scenario.app 7)
      [GetPhysicalDeviceSurfaceSupportKHR 9 0 5;
       GetPhysicalDeviceSurfaceSupportKHR 7 0 5;
       GetPhysicalDeviceSurfaceSupportKHR 7 1 5;
       GetPhysicalDeviceSurfaceSupportKHR 7 2 5].
Proof. vm_compute. reflexivity. Qed.

(** ** Presentation Configurator: extent *)

Lemma std_clamp_clamped v lo hi :
  lo <= hi -> exists r, std_clamp v lo hi = Some r /\ clamped v lo hi r.
Proof.
  intros Hle. unfold std_clamp, clamped.
  destruct (Z.ltb_spec hi lo) as [?|_]; [lia|].
  eexists. split; [reflexivity|].
  destruct (Z.ltb_spec v lo), (Z.ltb_spec hi v); lia.
Qed.

Lemma chooseSwapExtent_pure drv caps s :
  exists o, chooseSwapExtent drv caps s = mkRun o s [].
Proof.
  unfold chooseSwapExtent.
  destruct (negb _); [eexists; reflexivity|].
  unfold bind, defined. simpl.
  destruct (std_clamp _ _ _); simpl; [|eexists; reflexivity].
  destruct (std_clamp _ _ _); simpl; eexists; reflexivity.
Qed.

(** C2 (as the code has it): [chooseSwapExtent] looks at the WIDTH of
    the current extent only.  When the width is not the largest
    [uint32_t] the current extent is returned as it is, whatever the
    framebuffer size; when it is, the framebuffer size, converted to
    [uint32_t], is clamped dimension by dimension between the minimum and
    the maximum extent of the surface.  With minimum (100,100), maximum
    (4000,4000) and a framebuffer of (50,4500) the result is (100,4000);
    a current extent of (1280,720) comes back unchanged. *)
Theorem chooseSwapExtent_width_sentinel
    (drv : Driver) (s : RayTracingApplication) (caps : VkSurfaceCapabilitiesKHR) :
  let cur := currentExtent caps in
  let lo := minImageExtent caps in
  let hi := maxImageExtent caps in
  let size := glfwGetFramebufferSize drv (window s) in
  (width cur <> UINT32_MAX ->
   chooseSwapExtent drv caps s = mkRun (Ok cur) s [])
  /\ (width cur = UINT32_MAX ->
      width lo <= width hi -> height lo <= height hi ->
      exists w h : Z,
        chooseSwapExtent drv caps s = mkRun (Ok (mkExtent w h)) s []
        /\ clamped (static_cast_uint32 (fst size)) (width lo) (width hi) w
        /\ clamped (static_cast_uint32 (snd size)) (height lo) (height hi) h)
  /\ (size = (50, 4500) ->
      forall count1 count2 transform : Z,
        outcome (chooseSwapExtent drv
                   (mkCapabilities count1 count2
                      (mkExtent UINT32_MAX UINT32_MAX)
                      (mkExtent 100 100) (mkExtent 4000 4000) transform) s)
        = Ok (mkExtent 100 4000))
  /\ (forall (count1 count2 transform : Z) (lo' hi' : VkExtent2D),
        outcome (chooseSwapExtent drv
                   (mkCapabilities count1 count2 (mkExtent 1280 720)
                      lo' hi' transform) s)
        = Ok (mkExtent 1280 720)).
Proof.
  intros cur lo hi size. split; [|split; [|split]].
  - intros Hw. unfold chooseSwapExtent. fold cur.
    destruct (Z.eqb_spec (width cur) UINT32_MAX); [done|]. reflexivity.
  - intros Hw Hwidth Hheight. unfold chooseSwapExtent. fold cur lo hi.
    rewrite Hw, Z.eqb_refl. simpl.
    destruct (std_clamp_clamped (static_cast_uint32 (fst size))
                (width lo) (width hi) Hwidth) as (w & Ew & Hcw).
    destruct (std_clamp_clamped (static_cast_uint32 (snd size))
                (height lo) (height hi) Hheight) as (h & Eh & Hch).
    exists w, h. split; [|done].
    unfold bind. simpl. fold size. rewrite Ew. simpl. rewrite Eh. reflexivity.
  - intros Hsize count1 count2 transform.
    unfold chooseSwapExtent, bind. simpl. fold size. now rewrite Hsize.
  - reflexivity.
Qed.

Lemma chooseSwapExtent_width_sentinel_witness :
  exists w h : Z,
    chooseSwapExtent Scenario.driver Scenario.unconstrained (Scenario.app 7)
    = mkRun (Ok (mkExtent w h)) (Scenario.app 7) []
    /\ clamped (static_cast_uint32 50) 100 4000 w
    /\ clamped (static_cast_uint32 4500) 100 4000 h.
Proof.
  apply (proj1 (proj2 (chooseSwapExtent_width_sentinel Scenario.driver
                         (Scenario.app 7) Scenario.unconstrained)));
    [reflexivity | simpl; lia | simpl; lia].
Defined.

(** A current extent whose width alone is the sentinel is not returned:
    the framebuffer size (50, 4500) is clamped instead. *)
Lemma chooseSwapExtent_not_both_sentinel :
  ~ chooseSwapExtent_both_sentinel Scenario.driver (Scenario.app 7)
      (mkCapabilities 2 0 (mkExtent UINT32_MAX 720)
         (mkExtent 100 100) (mkExtent 4000 4000) 1).
Proof.
  intros [H _]. simpl in H.
  assert (Ok (mkExtent 100 4000) = Ok (mkExtent UINT32_MAX 720)) as Habs.
  { apply H. intros [_ Hh]. discriminate Hh. }
  discriminate Habs.
Qed.

(** ** Presentation Configurator: surface format *)

Lemma isPreferredFormat_true f : isPreferredFormat f = true <-> f = preferredFormat.
Proof.
  unfold isPreferredFormat, preferredFormat. destruct f as [fmt cs]. simpl.
  rewrite andb_true_iff, !Z.eqb_eq. split.
  - intros [-> ->]. reflexivity.
  - intros [= -> ->]. done.
Qed.

Lemma chooseSwapChainFormat_for_Some formats f :
  chooseSwapChainFormat_for formats = Some f ->
  f = preferredFormat /\ f ∈ formats.
Proof.
  induction formats as [|g rest IH]; simpl; [discriminate|].
  destruct (isPreferredFormat g) eqn:Hg.
  - intros [= <-]. split; [now apply isPreferredFormat_true|]. now left.
  - intros H. destruct (IH H). split; [done|]. now right.
Qed.

Lemma chooseSwapChainFormat_for_None formats :
  chooseSwapChainFormat_for formats = None <-> preferredFormat ∉ formats.
Proof.
  induction formats as [|g rest IH]; simpl.
  - split; [intros _; apply not_elem_of_nil|done].
  - rewrite not_elem_of_cons. destruct (isPreferredFormat g) eqn:Hg.
    + apply isPreferredFormat_true in Hg. split; [discriminate|].
      intros [Hne _]. congruence.
    + rewrite IH. split; [|tauto]. intros H. split; [|done].
      intros Heq. symmetry in Heq. apply isPreferredFormat_true in Heq.
      congruence.
Qed.

(** C6: on a non-empty list of offered formats [chooseSwapChainFormat]
    returns the (BGRA 8-bit SRGB, SRGB non-linear) pair when the pair is
    somewhere in the list, and the first element of the list otherwise;
    so [X; preferred; Y] gives the preferred pair and [X; Y] gives [X]. *)
Theorem chooseSwapChainFormat_preferred (formats : list VkSurfaceFormatKHR) :
  formats <> [] ->
  (preferredFormat ∈ formats ->
   chooseSwapChainFormat formats = Some preferredFormat)
  /\ (preferredFormat ∉ formats ->
      exists first rest,
        formats = first :: rest /\ chooseSwapChainFormat formats = Some first)
  /\ (forall X Y : VkSurfaceFormatKHR,
        formats = [X; preferredFormat; Y] ->
        chooseSwapChainFormat formats = Some preferredFormat)
  /\ (forall X Y : VkSurfaceFormatKHR,
        X <> preferredFormat -> Y <> preferredFormat -> formats = [X; Y] ->
        chooseSwapChainFormat formats = Some X).
Proof.
  intros Hne.
  assert (preferredFormat ∈ formats ->
          chooseSwapChainFormat formats = Some preferredFormat) as Hin.
  { intros Hin. unfold chooseSwapChainFormat.
    destruct (chooseSwapChainFormat_for formats) as [f|] eqn:Hfor.
    - apply chooseSwapChainFormat_for_Some in Hfor as [-> _]. reflexivity.
    - apply chooseSwapChainFormat_for_None in Hfor. done. }
  assert (preferredFormat ∉ formats ->
          exists first rest,
            formats = first :: rest
            /\ chooseSwapChainFormat formats = Some first) as Hout.
  { intros Hnot. destruct formats as [|first rest]; [done|].
    exists first, rest. split; [reflexivity|].
    unfold chooseSwapChainFormat.
    apply chooseSwapChainFormat_for_None in Hnot. now rewrite Hnot. }
  split; [exact Hin|]. split; [exact Hout|]. split.
  - intros X Y ->. apply Hin. right. now left.
  - intros X Y HX HY ->.
    destruct Hout as (first & rest & [= <- <-] & Hrun); [|exact Hrun].
    rewrite !not_elem_of_cons. split; [congruence|]. split; [congruence|].
    apply not_elem_of_nil.
Qed.

Lemma chooseSwapChainFormat_preferred_witness :
  chooseSwapChainFormat [Scenario.unorm; preferredFormat; Scenario.rgba]
  = Some preferredFormat
  /\ chooseSwapChainFormat [Scenario.unorm; Scenario.rgba] = Some Scenario.unorm.
Proof.
  split.
  - apply (proj1 (proj2 (proj2
             (chooseSwapChainFormat_preferred
                [Scenario.unorm; preferredFormat; Scenario.rgba]
                ltac:(discriminate))))
             Scenario.unorm Scenario.rgba eq_refl).
  - apply (proj2 (proj2 (proj2
             (chooseSwapChainFormat_preferred
                [Scenario.unorm; Scenario.rgba] ltac:(discriminate))))
             Scenario.unorm Scenario.rgba
             ltac:(discriminate) ltac:(discriminate) eq_refl).
Defined.

(** C10: on the empty list the fallback [formats[0]] of
    [chooseSwapChainFormat] reads past the end, so the result is
    undefined (and [createSwapChain] is undefined with it); on every
    non-empty list index 0 is in bounds and the function returns one of
    the offered formats.  An adapter that [isDeviceSuitable] accepts has
    a non-empty format list for the surface, and so has the adapter that
    [pickPhysicalDevice] selects: the function is defined on it. *)
Theorem chooseSwapChainFormat_defined :
  chooseSwapChainFormat [] = None
  /\ (forall (drv : Driver) (s : RayTracingApplication),
        fst (vkGetPhysicalDeviceSurfaceCapabilitiesKHR drv (physicalDevice s)
               (surface s)) = VK_SUCCESS ->
        vkGetPhysicalDeviceSurfaceFormatsKHR drv (physicalDevice s) (surface s)
        = [] ->
        outcome (createSwapChain drv s) = Undefined)
  /\ (forall formats : list VkSurfaceFormatKHR,
        formats <> [] ->
        is_Some (formats !! 0%nat)
        /\ exists f, chooseSwapChainFormat formats = Some f /\ f ∈ formats)
  /\ (forall (drv : Driver) (s : RayTracingApplication) (dev : Z),
        outcome (isDeviceSuitable drv dev s) = Ok true ->
        exists details f,
          querySwapChainSupport drv dev s = mkRun (Ok details) s []
          /\ formats details <> []
          /\ chooseSwapChainFormat (formats details) = Some f)
  /\ (forall (drv : Driver) (s : RayTracingApplication),
        physicalDevice s = VK_NULL_HANDLE ->
        outcome (pickPhysicalDevice drv s) = Ok tt ->
        let s' := final (pickPhysicalDevice drv s) in
        exists details f,
          querySwapChainSupport drv (physicalDevice s') s'
          = mkRun (Ok details) s' []
          /\ formats details <> []
          /\ chooseSwapChainFormat (formats details) = Some f).
Proof.
  assert (forall formats : list VkSurfaceFormatKHR,
            formats <> [] ->
            is_Some (formats !! 0%nat)
            /\ exists f, chooseSwapChainFormat formats = Some f /\ f ∈ formats)
    as Hdefined.
  { intros [|first rest] Hne; [done|]. split; [by eexists|].
    unfold chooseSwapChainFormat.
    destruct (chooseSwapChainFormat_for (first :: rest)) as [f|] eqn:Hfor.
    - exists f. split; [done|].
      now apply chooseSwapChainFormat_for_Some in Hfor as [_ ?].
    - exists first. split; [done|]. now left. }
  assert (forall (drv : Driver) (s : RayTracingApplication) (dev : Z),
            outcome (isDeviceSuitable drv dev s) = Ok true ->
            exists details f,
              querySwapChainSupport drv dev s = mkRun (Ok details) s []
              /\ formats details <> []
              /\ chooseSwapChainFormat (formats details) = Some f)
    as Hsuitable.
  { intros drv s dev Hsuit.
    apply isDeviceSuitable_formats in Hsuit as [Hcaps Hf].
    destruct (Hdefined _ Hf) as (_ & f & Hchoose & _).
    eexists. exists f. rewrite querySwapChainSupport_run. cbn zeta.
    rewrite bool_decide_eq_true_2 by done.
    split; [reflexivity|]. done. }
  split; [reflexivity|]. split; [|split; [exact Hdefined|split; [exact Hsuitable|]]].
  - intros drv s Hcaps Hformats. unfold createSwapChain.
    unfold bind at 1. cbn [gets outcome final calls].
    unfold bind at 1. rewrite querySwapChainSupport_run. cbn zeta.
    rewrite bool_decide_eq_true_2 by done. cbn [outcome final calls formats].
    unfold bind at 1. rewrite Hformats. reflexivity.
  - intros drv s Hnull Hpick s'.
    destruct (pickPhysicalDevice_chosen drv s Hnull Hpick) as (d & Hsuit & Hfinal).
    subst s'. rewrite Hfinal. cbn [set_physicalDevice physicalDevice].
    apply isDeviceSuitable_formats in Hsuit as [Hcaps Hf].
    destruct (Hdefined _ Hf) as (_ & f & Hchoose & _).
    eexists. exists f. rewrite querySwapChainSupport_run. cbn zeta.
    cbn [surface]. rewrite bool_decide_eq_true_2 by done.
    split; [reflexivity|]. done.
Qed.

Lemma chooseSwapChainFormat_defined_witness :
  exists details f,
    querySwapChainSupport Scenario.driver 7 (Scenario.app 7)
    = mkRun (Ok details) (Scenario.app 7) []
    /\ formats details <> []
    /\ chooseSwapChainFormat (formats details) = Some f.
Proof.
  apply (proj1 (proj2 (proj2 (proj2 chooseSwapChainFormat_defined)))
           Scenario.driver (Scenario.app 7) 7).
  vm_compute. reflexivity.
Defined.

(** ** Swap chain: image count and sharing mode *)

Lemma createSwapChain_call drv s dev ci :
  CreateSwapchainKHR dev ci ∈ calls (createSwapChain drv s) ->
  let caps :=
    snd (vkGetPhysicalDeviceSurfaceCapabilitiesKHR drv (physicalDevice s)
           (surface s)) in
  exists ind g p,
    outcome (findQueueFamilies drv (physicalDevice s) s) = Ok ind
    /\ graphicsFamily ind = Some g
    /\ presentFamily ind = Some p
    /\ dev = device s
    /\ VkSwapchainCreateInfoKHR.minImageCount ci = imageCount caps
    /\ (VkSwapchainCreateInfoKHR.imageSharingMode ci,
        VkSwapchainCreateInfoKHR.queueFamilyIndexCount ci,
        VkSwapchainCreateInfoKHR.pQueueFamilyIndices ci)
       = if bool_decide (g = p)
         then (VK_SHARING_MODE_EXCLUSIVE, 0, None)
         else (VK_SHARING_MODE_CONCURRENT, 2, Some [g; p]).
Proof.
  intros H caps. unfold createSwapChain in H.
  in_bind H; [no_calls H|]. injection Ho as <-.
  in_bind H.
  { rewrite querySwapChainSupport_run in H. cbn zeta in H.
    destruct (bool_decide _) in H; no_calls H. }
  rewrite querySwapChainSupport_run in Ho, H. cbn zeta in Ho, H.
  destruct (bool_decide _) in Ho, H; [|done].
  injection Ho as <-. fold caps in H.
  cbn [final formats presentModes capabilities] in H.
  in_bind H.
  { destruct (chooseSwapChainFormat _) in H; no_calls H. }
  destruct (chooseSwapChainFormat _) as [fmt|] in Ho, H; [|done].
  cbn [defined ret final outcome] in Ho, H. injection Ho as <-.
  destruct (chooseSwapExtent_pure drv caps s) as [o Hext].
  in_bind H; [rewrite Hext in H; no_calls H|].
  rewrite Hext in Ho, H. cbn [outcome final] in Ho, H. subst o.
  in_bind H; [no_calls H|]. injection Ho as <-.
  destruct (findQueueFamilies_total drv (physicalDevice s) s)
    as (ind & q & Hfind & Hq).
  in_bind H.
  { rewrite Hfind in H. rewrite Forall_forall in Hq. apply Hq in H. done. }
  rewrite Hfind in Ho, H. cbn [outcome final] in Ho, H. injection Ho as <-.
  exists ind. rewrite Hfind. cbn [outcome].
  in_bind H.
  { destruct (graphicsFamily ind) in H; no_calls H. }
  destruct (graphicsFamily ind) as [g|] eqn:Hg; [|done].
  cbn [value ret final outcome] in Ho, H. injection Ho as <-.
  in_bind H.
  { destruct (presentFamily ind) in H; no_calls H. }
  destruct (presentFamily ind) as [p|] eqn:Hp; [|done].
  cbn [value ret final outcome] in Ho, H. injection Ho as <-.
  exists g, p.
  in_bind H; [no_calls H|]. injection Ho as <-.
  in_bind H.
  - apply list_elem_of_singleton in H. injection H as -> ->.
    cbn [VkSwapchainCreateInfoKHR.minImageCount
         VkSwapchainCreateInfoKHR.imageSharingMode
         VkSwapchainCreateInfoKHR.queueFamilyIndexCount
         VkSwapchainCreateInfoKHR.pQueueFamilyIndices].
    repeat (split; [reflexivity|]).
    destruct (decide (g = p)) as [->|Hne].
    + rewrite !bool_decide_eq_true_2 by done. reflexivity.
    + rewrite bool_decide_eq_false_2 by congruence.
      rewrite bool_decide_eq_false_2 by done. reflexivity.
  - exfalso. clear Ho.
    in_bind H; [now apply VK_ASSERT_calls in H|clear Ho].
    in_bind H; [no_calls H|clear Ho].
    in_bind H; [now apply VK_ASSERT_calls in H|clear Ho].
    in_bind H; [now apply VK_ASSERT_calls in H|clear Ho].
    in_bind H; [no_calls H|clear Ho].
    in_bind H; [no_calls H|clear Ho].
    no_calls H.
Qed.

Example createSwapChain_adapter7 :
  createSwapChain Scenario.driver (Scenario.app 7)
  = mkRun (Ok tt)
      (set_swapChainExtent (mkExtent 100 4000)
         (set_swapChainImageFormat VK_FORMAT_B8G8R8A8_SRGB
            (set_swapChainImages [401; 402; 403]
               (set_swapChain 300 (Scenario.app 7)))))
      [GetPhysicalDeviceSurfaceSupportKHR 7 0 5;
       GetPhysicalDeviceSurfaceSupportKHR 7 1 5;
       GetPhysicalDeviceSurfaceSupportKHR 7 2 5;
       CreateSwapchainKHR 0 Scenario.createInfo].
Proof. vm_compute. reflexivity. Qed.

Example createSwapChain_adapter8 :
  exists ci,
    calls (createSwapChain Scenario.driver (Scenario.app 8))
    = [GetPhysicalDeviceSurfaceSupportKHR 8 0 5; CreateSwapchainKHR 0 ci]
    /\ VkSwapchainCreateInfoKHR.imageSharingMode ci = VK_SHARING_MODE_EXCLUSIVE
    /\ VkSwapchainCreateInfoKHR.queueFamilyIndexCount ci = 0
    /\ VkSwapchainCreateInfoKHR.pQueueFamilyIndices ci = None.
Proof. eexists. vm_compute. repeat split. Qed.

(** C7: the image count that [createSwapChain] passes to the driver is
    [minImageCount + 1] (computed in [uint32_t]; the plain successor
    whenever [minImageCount] is below the largest [uint32_t]), except
    that when [maxImageCount] is not zero and is exceeded it is
    [maxImageCount].  A [maxImageCount] of zero never clamps: 2 and 0
    give 3, 2 and 2 give 2. *)
Theorem imageCount_clamped (caps : VkSurfaceCapabilitiesKHR) :
  let wanted := uint32 (minImageCount caps + 1) in
  is_uint32 (maxImageCount caps) ->
  (maxImageCount caps = 0 -> imageCount caps = wanted)
  /\ (maxImageCount caps <> 0 -> maxImageCount caps < wanted ->
      imageCount caps = maxImageCount caps)
  /\ (maxImageCount caps <> 0 -> wanted <= maxImageCount caps ->
      imageCount caps = wanted)
  /\ (0 <= minImageCount caps < UINT32_MAX -> wanted = minImageCount caps + 1)
  /\ (minImageCount caps = 2 -> maxImageCount caps = 0 -> imageCount caps = 3)
  /\ (minImageCount caps = 2 -> maxImageCount caps = 2 -> imageCount caps = 2)
  /\ (forall (drv : Driver) (s : RayTracingApplication) (dev : Z)
             (ci : VkSwapchainCreateInfoKHR.t),
        CreateSwapchainKHR dev ci ∈ calls (createSwapChain drv s) ->
        VkSwapchainCreateInfoKHR.minImageCount ci
        = imageCount
            (snd (vkGetPhysicalDeviceSurfaceCapabilitiesKHR drv
                    (physicalDevice s) (surface s)))).
Proof.
  intros wanted [Hlo Hhi]. unfold imageCount. fold wanted.
  repeat split.
  - intros ->. reflexivity.
  - intros Hne Hlt.
    destruct (Z.ltb_spec 0 (maxImageCount caps)); [|lia].
    destruct (Z.ltb_spec (maxImageCount caps) wanted); [|lia]. reflexivity.
  - intros Hne Hle.
    destruct (Z.ltb_spec 0 (maxImageCount caps)); [|lia].
    destruct (Z.ltb_spec (maxImageCount caps) wanted); [lia|]. reflexivity.
  - intros Hmin. subst wanted. apply uint32_small. lia.
  - intros Hmin Hmax. subst wanted. rewrite Hmin, Hmax. reflexivity.
  - intros Hmin Hmax. subst wanted. rewrite Hmin, Hmax. reflexivity.
  - intros drv s dev ci Hcall.
    destruct (createSwapChain_call drv s dev ci Hcall)
      as (_ & _ & _ & _ & _ & _ & _ & Hcount & _).
    exact Hcount.
Qed.

Lemma imageCount_clamped_witness :
  imageCount (mkCapabilities 2 2 (mkExtent 1280 720)
                (mkExtent 1 1) (mkExtent 4000 4000) 1) = 2
  /\ imageCount Scenario.unconstrained = 3.
Proof.
  split.
  - apply (imageCount_clamped
             (mkCapabilities 2 2 (mkExtent 1280 720)
                (mkExtent 1 1) (mkExtent 4000 4000) 1));
      [unfold is_uint32, UINT32_MAX; simpl; lia | reflexivity | reflexivity].
  - apply (imageCount_clamped Scenario.unconstrained);
      [unfold is_uint32, UINT32_MAX; simpl; lia | reflexivity | reflexivity].
Defined.

(** ** Logical device *)

Example createLogicalDevice_adapter7 :
  createLogicalDevice Scenario.driver (Scenario.app 7)
  = mkRun (Ok tt)
      (set_presentQueue 202
         (set_graphicsQueue 201 (set_device 100 (Scenario.app 7))))
      [GetPhysicalDeviceSurfaceSupportKHR 7 0 5;
       GetPhysicalDeviceSurfaceSupportKHR 7 1 5;
       GetPhysicalDeviceSurfaceSupportKHR 7 2 5;
       CreateDevice 7
         (VkDeviceCreateInfo.mk
            [VkDeviceQueueCreateInfo.mk 1 1; VkDeviceQueueCreateInfo.mk 2 1]
            ["VK_KHR_swapchain"; "VK_KHR_portability_subset"] []);
       GetDeviceQueue 100 1 0;
       GetDeviceQueue 100 2 0].
Proof. vm_compute. reflexivity. Qed.

(** C9: when the indices that [findQueueFamilies] resolves for the
    chosen adapter are not complete, [createLogicalDevice] throws (the
    [value()] of the empty optional) right after the scan: no
    [vkCreateDevice] call is made, and the object, its device handle
    included, is as it was. *)
Theorem createLogicalDevice_incomplete
    (drv : Driver) (s : RayTracingApplication) (ind : QueueFamilyIndicies) :
  outcome (findQueueFamilies drv (physicalDevice s) s) = Ok ind ->
  isComplete ind = false ->
  createLogicalDevice drv s
  = mkRun (Throw bad_optional_access) s
      (calls (findQueueFamilies drv (physicalDevice s) s))
  /\ (forall (phys : Z) (ci : VkDeviceCreateInfo.t),
        CreateDevice phys ci ∉ calls (createLogicalDevice drv s))
  /\ device (final (createLogicalDevice drv s)) = device s.
Proof.
  intros Hfind Hinc.
  destruct (findQueueFamilies_total drv (physicalDevice s) s)
    as (ind' & q & Hrun & Hq).
  rewrite Hrun in Hfind. injection Hfind as ->.
  assert (createLogicalDevice drv s = mkRun (Throw bad_optional_access) s q)
    as Hthrow.
  { unfold createLogicalDevice.
    erewrite bind_Ok by reflexivity. cbn [gets outcome final calls app].
    erewrite bind_Ok by (rewrite Hrun; reflexivity).
    rewrite Hrun. cbn [outcome final calls].
    unfold isComplete in Hinc.
    destruct (graphicsFamily ind) as [g|].
    - destruct (presentFamily ind) as [p|]; [discriminate Hinc|].
      erewrite bind_Ok by reflexivity. cbn [value ret outcome final calls].
      erewrite bind_Throw by reflexivity. cbn [value throw outcome final calls].
      now rewrite !app_nil_r.
    - erewrite bind_Throw by reflexivity. cbn [value throw outcome final calls].
      now rewrite !app_nil_r. }
  rewrite Hthrow, Hrun. cbn [final calls]. split; [reflexivity|].
  split; [|reflexivity].
  intros phys ci Hin. rewrite Forall_forall in Hq.
  apply Hq in Hin. discriminate Hin.
Qed.

Lemma createLogicalDevice_incomplete_witness :
  createLogicalDevice Scenario.driver (Scenario.app 9)
  = mkRun (Throw bad_optional_access) (Scenario.app 9)
      (calls (findQueueFamilies Scenario.driver 9 (Scenario.app 9)))
  /\ (forall (phys : Z) (ci : VkDeviceCreateInfo.t),
        CreateDevice phys ci
        ∉ calls (createLogicalDevice Scenario.driver (Scenario.app 9)))
  /\ device (final (createLogicalDevice Scenario.driver (Scenario.app 9)))
     = device (Scenario.app 9).
Proof.
  apply (createLogicalDevice_incomplete Scenario.driver (Scenario.app 9)
           (mkIndicies (Some 0) None)); reflexivity.
Defined.

(** ** Teardown *)

Lemma cleanup_for_run dev views s :
  cleanup_for dev views s = mkRun (Ok tt) s (DestroyImageView dev <$> views).
Proof.
  induction views as [|v views IH]; [reflexivity|].
  simpl. unfold bind. simpl. now rewrite IH.
Qed.

Lemma cleanup_run drv s :
  cleanup drv s
  = mkRun (Ok tt) s
      ((DestroyImageView (device s) <$> swapChainImageViews s)
       ++ teardownTail drv s).
Proof.
  unfold cleanup, teardownTail.
  erewrite bind_Ok by reflexivity. cbn [gets outcome final calls app].
  erewrite bind_Ok by reflexivity. cbn [gets outcome final calls app].
  erewrite bind_Ok by (rewrite cleanup_for_run; reflexivity).
  rewrite cleanup_for_run. cbn [outcome final calls].
  repeat (erewrite bind_Ok by reflexivity;
          cbn [gets call outcome final calls app]).
  destruct (enableValidationLayers s);
    [destruct (hasDestroyDebugUtilsMessengerEXT drv (instance s))|];
    repeat (erewrite bind_Ok by reflexivity;
            cbn [gets call ret outcome final calls app]);
    reflexivity.
Qed.

Lemma releasedBefore_tail (V T : list Call) a b :
  a ∉ V -> b ∉ V -> releasedBefore a b T -> releasedBefore a b (V ++ T).
Proof.
  intros Ha Hb (Hina & Hinb & Hord).
  split; [apply elem_of_app; now right|].
  split; [apply elem_of_app; now right|].
  intros i j Hi Hj.
  apply lookup_app_Some in Hi as [Hi|[Hil Hi]];
    [apply list_elem_of_lookup_2 in Hi; done|].
  apply lookup_app_Some in Hj as [Hj|[Hjl Hj]];
    [apply list_elem_of_lookup_2 in Hj; done|].
  specialize (Hord _ _ Hi Hj). lia.
Qed.

Lemma releasedBefore_head (V T : list Call) a b :
  a ∈ V -> a ∉ T -> b ∉ V -> b ∈ T -> releasedBefore a b (V ++ T).
Proof.
  intros HaV HaT HbV HbT.
  split; [apply elem_of_app; now left|].
  split; [apply elem_of_app; now right|].
  intros i j Hi Hj.
  apply lookup_app_Some in Hi as [Hi|[Hil Hi]];
    [|apply list_elem_of_lookup_2 in Hi; done].
  apply lookup_app_Some in Hj as [Hj|[Hjl Hj]];
    [apply list_elem_of_lookup_2 in Hj; done|].
  apply lookup_lt_Some in Hi. lia.
Qed.

(** Decides the order of two releases in a list that is written out. *)
Ltac order_in_list :=
  split; [set_solver|]; split; [set_solver|];
  let i := fresh "i" in
  let j := fresh "j" in
  intros i j;
  do 8 (try destruct i as [|i]); do 8 (try destruct j as [|j]);
  simpl; intros; try discriminate; try lia.

Lemma not_view c dev (views : list Z) :
  (forall v, c <> DestroyImageView dev v) -> c ∉ DestroyImageView dev <$> views.
Proof.
  intros Hc Hin. apply list_elem_of_fmap in Hin as (v & -> & _). now apply (Hc v).
Qed.

Example cleanup_started :
  cleanup Scenario.driver Scenario.started
  = mkRun (Ok tt) Scenario.started
      [DestroyImageView 100 501; DestroyImageView 100 502;
       DestroyImageView 100 503; DestroySwapchainKHR 100 300;
       DestroyDevice 100; DestroyDebugUtilsMessengerEXT 2 3;
       DestroySurfaceKHR 2 5; DestroyInstance 2; glfwDestroyWindow 1;
       glfwTerminate].
Proof. reflexivity. Qed.

(** C3: [cleanup] returns and releases, in this order: every
    swap-chain image view, then the swap chain, then the logical device,
    then the debug messenger (only with validation layers enabled and the
    destroy function found), then the surface, then the instance, then
    the window; each strictly before the next. *)
Theorem cleanup_order (drv : Driver) (s : RayTracingApplication) :
  let t := calls (cleanup drv s) in
  let view := DestroyImageView (device s) in
  let chain := DestroySwapchainKHR (device s) (swapChain s) in
  let dev := DestroyDevice (device s) in
  let messenger := DestroyDebugUtilsMessengerEXT (instance s) (debugMessenger s) in
  let surf := DestroySurfaceKHR (instance s) (surface s) in
  let inst := DestroyInstance (instance s) in
  let win := glfwDestroyWindow (window s) in
  outcome (cleanup drv s) = Ok tt
  /\ (forall v : Z, v ∈ swapChainImageViews s -> releasedBefore (view v) chain t)
  /\ releasedBefore chain dev t
  /\ releasedBefore dev surf t
  /\ releasedBefore surf inst t
  /\ releasedBefore inst win t
  /\ releasedBefore dev inst t
  /\ (messenger ∈ t <->
      enableValidationLayers s = true
      /\ hasDestroyDebugUtilsMessengerEXT drv (instance s) = true)
  /\ (messenger ∈ t ->
      releasedBefore dev messenger t /\ releasedBefore messenger surf t).
Proof.
  intros t view chain dev messenger surf inst win. subst t.
  rewrite cleanup_run. cbn [outcome calls]. split; [reflexivity|].
  assert (forall c, (forall v, c <> view v) -> c ∉ view <$> swapChainImageViews s)
    as Hnv by (intros c Hc; now apply not_view).
  unfold teardownTail. fold chain dev messenger surf inst win.
  destruct (enableValidationLayers s);
    [destruct (hasDestroyDebugUtilsMessengerEXT drv (instance s))|];
    cbn [app].
  all: split;
    [intros v Hv; apply releasedBefore_head;
       [now apply list_elem_of_fmap_2
       |rewrite !elem_of_cons, elem_of_nil; intros H;
        repeat (destruct H as [H|H]; [discriminate H|]); exact H
       |now apply Hnv
       |now left]|].
  all: repeat
         (split;
          [apply releasedBefore_tail;
           [now apply Hnv|now apply Hnv|order_in_list]|]).
  all: split.
  all: try (intros _;
            split; apply releasedBefore_tail;
              [now apply Hnv|now apply Hnv|order_in_list
              |now apply Hnv|now apply Hnv|order_in_list]).
  - split; [done|]. intros _. apply elem_of_app. right. set_solver.
  - split; [|intros [_ [=]]]. intros H.
    apply elem_of_app in H as [H|H]; [now apply Hnv in H|].
    rewrite !elem_of_cons, elem_of_nil in H.
    repeat (destruct H as [H|H]; [discriminate H|]). done.
  - intros H. exfalso.
    apply elem_of_app in H as [H|H]; [now apply Hnv in H|].
    rewrite !elem_of_cons, elem_of_nil in H.
    repeat (destruct H as [H|H]; [discriminate H|]). done.
  - split; [|intros [[=] _]]. intros H.
    apply elem_of_app in H as [H|H]; [now apply Hnv in H|].
    rewrite !elem_of_cons, elem_of_nil in H.
    repeat (destruct H as [H|H]; [discriminate H|]). done.
  - intros H. exfalso.
    apply elem_of_app in H as [H|H]; [now apply Hnv in H|].
    rewrite !elem_of_cons, elem_of_nil in H.
    repeat (destruct H as [H|H]; [discriminate H|]). done.
Qed.

Lemma cleanup_order_witness :
  releasedBefore (DestroyImageView 100 502) (DestroySwapchainKHR 100 300)
    (calls (cleanup Scenario.driver Scenario.started)).
Proof.
  apply (proj1 (proj2 (cleanup_order Scenario.driver Scenario.started)) 502).
  apply list_elem_of_In. simpl. right. left. reflexivity.
Defined.

(** ** Logical device and swap chain: what is asked of the driver *)

Lemma std_set_iter_pair (g p : Z) :
  std_set_iter {[ g; p ]}
  = if bool_decide (g = p) then [g] else [Z.min g p; Z.max g p].
Proof.
  unfold std_set_iter. case_bool_decide as Hgp.
  - subst p. replace ({[g; g]} : gset Z) with ({[g]} : gset Z)
      by (apply leibniz_equiv; symmetry; apply union_idemp).
    rewrite elements_singleton. reflexivity.
  - assert (merge_sort Z.le (elements ({[g; p]} : gset Z)) ≡ₚ [g; p]) as Hperm.
    { rewrite merge_sort_Permutation.
      rewrite elements_union_singleton
        by (rewrite elem_of_singleton; congruence).
      now rewrite elements_singleton. }
    assert (Sorted Z.le (merge_sort Z.le (elements ({[g; p]} : gset Z)))) as Hsort
      by apply (Sorted_merge_sort Z.le).
    destruct (merge_sort Z.le (elements ({[g; p]} : gset Z))) as [|a [|b [|c l]]].
    + apply Permutation_length in Hperm. discriminate.
    + apply Permutation_length in Hperm. discriminate.
    + apply Sorted_inv in Hsort as [_ Hab]. apply HdRel_inv in Hab.
      assert (a ∈ [g; p]) as Ha by (rewrite <- Hperm; now left).
      assert (b ∈ [g; p]) as Hb by (rewrite <- Hperm; right; now left).
      assert (g ∈ [a; b]) as Hg by (rewrite Hperm; now left).
      assert (p ∈ [a; b]) as Hp by (rewrite Hperm; right; now left).
      rewrite !elem_of_cons, elem_of_nil in Ha, Hb, Hg, Hp.
      f_equal; [|f_equal]; lia.
    + apply Permutation_length in Hperm. discriminate.
Qed.

Lemma bind_with {A B} (m : M A) (k : A -> M B) s r :
  m s = r ->
  bind m k s =
  match outcome r with
  | Ok a =>
      mkRun (outcome (k a (final r))) (final (k a (final r)))
        (calls r ++ calls (k a (final r)))
  | Throw e => mkRun (Throw e) (final r) (calls r)
  | Undefined => mkRun Undefined (final r) (calls r)
  end.
Proof. intros <-. reflexivity. Qed.

Lemma VK_ASSERT_run res msg s :
  VK_ASSERT res msg s
  = if bool_decide (res = VK_SUCCESS) then mkRun (Ok tt) s []
    else mkRun (Throw (runtime_error msg)) s [].
Proof. unfold VK_ASSERT. destruct (bool_decide _); reflexivity. Qed.

Lemma createLogicalDevice_run drv s ind q g p :
  findQueueFamilies drv (physicalDevice s) s = mkRun (Ok ind) s q ->
  graphicsFamily ind = Some g ->
  presentFamily ind = Some p ->
  createLogicalDevice drv s =
  let enum := vkEnumerateDeviceExtensionProperties drv (physicalDevice s) in
  let ci := deviceCreateInfoFor s g p (snd enum) in
  let r := vkCreateDevice drv (physicalDevice s) ci in
  if bool_decide (fst enum = VK_SUCCESS) then
    if bool_decide (fst r = VK_SUCCESS) then
      mkRun (Ok tt)
        (set_presentQueue (vkGetDeviceQueue drv (snd r) p 0)
           (set_graphicsQueue (vkGetDeviceQueue drv (snd r) g 0)
              (set_device (snd r) s)))
        (q ++ [CreateDevice (physicalDevice s) ci;
               GetDeviceQueue (snd r) g 0; GetDeviceQueue (snd r) p 0])
    else
      mkRun (Throw (runtime_error "Could not create logical device!")) s
        (q ++ [CreateDevice (physicalDevice s) ci])
  else mkRun (Throw (runtime_error "Could not enumerate Device Extensions!")) s q.
Proof.
  intros Hfind Hg Hp. cbn zeta. unfold createLogicalDevice.
  erewrite bind_Ok by reflexivity. cbn [gets outcome final calls app].
  erewrite bind_Ok by (rewrite Hfind; reflexivity).
  rewrite Hfind. cbn [outcome final calls]. rewrite Hg, Hp.
  erewrite bind_Ok by reflexivity. cbn [value ret outcome final calls app].
  erewrite bind_Ok by reflexivity. cbn [value ret outcome final calls app].
  erewrite bind_with by apply enumerateDeviceExtensions_run. cbn zeta.
  destruct (bool_decide (fst (vkEnumerateDeviceExtensionProperties drv
                                (physicalDevice s)) = VK_SUCCESS));
    cbn [outcome final calls app]; [|now rewrite app_nil_r].
  do 3 (erewrite bind_Ok by reflexivity; cbn [gets outcome final calls app]).
  fold (deviceCreateInfoFor s g p
          (snd (vkEnumerateDeviceExtensionProperties drv (physicalDevice s)))).
  erewrite bind_Ok by reflexivity. cbn [call outcome final calls app].
  erewrite bind_with by apply VK_ASSERT_run.
  destruct (bool_decide (fst (vkCreateDevice drv (physicalDevice s) _) = VK_SUCCESS));
    cbn [outcome final calls app]; [|reflexivity].
  repeat (erewrite bind_Ok by reflexivity;
          cbn [gets modify call value ret outcome final calls app
               set_device set_graphicsQueue device]).
  cbn [modify outcome final calls]. reflexivity.
Qed.

Lemma createLogicalDevice_run_incomplete drv s ind q :
  findQueueFamilies drv (physicalDevice s) s = mkRun (Ok ind) s q ->
  isComplete ind = false ->
  createLogicalDevice drv s = mkRun (Throw bad_optional_access) s q.
Proof.
  intros Hrun Hinc. unfold createLogicalDevice.
  erewrite bind_Ok by reflexivity. cbn [gets outcome final calls app].
  erewrite bind_Ok by (rewrite Hrun; reflexivity).
  rewrite Hrun. cbn [outcome final calls].
  unfold isComplete in Hinc.
  destruct (graphicsFamily ind) as [g|].
  - destruct (presentFamily ind) as [p|]; [discriminate Hinc|].
    erewrite bind_Ok by reflexivity. cbn [value ret outcome final calls].
    erewrite bind_Throw by reflexivity. cbn [value throw outcome final calls].
    now rewrite !app_nil_r.
  - erewrite bind_Throw by reflexivity. cbn [value throw outcome final calls].
    now rewrite !app_nil_r.
Qed.

Lemma not_query_in (q : list Call) (c : Call) :
  Forall (fun c => isSurfaceQuery c = true) q -> isSurfaceQuery c = false -> c ∉ q.
Proof.
  intros Hq Hc Hin. rewrite Forall_forall in Hq. apply Hq in Hin. congruence.
Qed.

(** X1: createLogicalDevice either returns or throws, and never has an
    undefined result.  When it returns, findQueueFamilies on the chosen
    adapter found a graphics family [g] and a present family [p],
    vkCreateDevice was called on the chosen adapter and succeeded with a
    handle [h]; [h] is stored in [device], the two queues stored are those
    of [h] at index 0 for [g] and for [p], and the logged calls are those
    of findQueueFamilies followed by exactly the creation, the fetch of
    the queue of [g] and the fetch of the queue of [p], in this order, so
    every vkGetDeviceQueue call is on [h], at index 0, for one of these
    two families.  When it throws,
    no queue was fetched and the two queue fields are as before; if
    vkCreateDevice was not reached the whole object is as before, and if
    it was reached it is what failed, with the message
    "Could not create logical device!". *)
Theorem createLogicalDevice_outcomes (drv : Driver) (s : RayTracingApplication) :
  let r := createLogicalDevice drv s in
  (exists (ci : VkDeviceCreateInfo.t) (h g p : Z)
          (ind : QueueFamilyIndicies) (q : list Call),
     outcome r = Ok tt
     /\ findQueueFamilies drv (physicalDevice s) s = mkRun (Ok ind) s q
     /\ graphicsFamily ind = Some g
     /\ presentFamily ind = Some p
     /\ vkCreateDevice drv (physicalDevice s) ci = (VK_SUCCESS, h)
     /\ calls r
        = q ++ [CreateDevice (physicalDevice s) ci;
                GetDeviceQueue h g 0; GetDeviceQueue h p 0]
     /\ CreateDevice (physicalDevice s) ci ∈ calls r
     /\ final r
        = set_presentQueue (vkGetDeviceQueue drv h p 0)
            (set_graphicsQueue (vkGetDeviceQueue drv h g 0) (set_device h s))
     /\ (forall d f i : Z,
           GetDeviceQueue d f i ∈ calls r -> d = h /\ i = 0 /\ (f = g \/ f = p)))
  \/ (exists e : Exception,
        outcome r = Throw e
        /\ graphicsQueue (final r) = graphicsQueue s
        /\ presentQueue (final r) = presentQueue s
        /\ (forall d f i : Z, GetDeviceQueue d f i ∉ calls r)
        /\ ((forall (phys : Z) (ci : VkDeviceCreateInfo.t),
               CreateDevice phys ci ∉ calls r) ->
            final r = s)
        /\ forall (phys : Z) (ci : VkDeviceCreateInfo.t),
             CreateDevice phys ci ∈ calls r ->
             e = runtime_error "Could not create logical device!"
             /\ fst (vkCreateDevice drv phys ci) <> VK_SUCCESS).
Proof.
  intros r. subst r.
  destruct (findQueueFamilies_total drv (physicalDevice s) s)
    as (ind & q & Hfind & Hq).
  destruct (isComplete ind) eqn:Hc.
  2:{ right. rewrite (createLogicalDevice_run_incomplete drv s ind q Hfind Hc).
      eexists. cbn [outcome final calls].
      split; [reflexivity|]. split; [reflexivity|]. split; [reflexivity|].
      split; [intros d f i; now apply not_query_in|].
      split; [reflexivity|].
      intros phys ci Hin. exfalso. revert Hin. now apply not_query_in. }
  unfold isComplete in Hc.
  destruct (graphicsFamily ind) as [g|] eqn:Hg; [|discriminate Hc].
  destruct (presentFamily ind) as [p|] eqn:Hp; [|discriminate Hc].
  rewrite (createLogicalDevice_run drv s ind q g p Hfind Hg Hp). cbn zeta.
  destruct (bool_decide (fst (vkEnumerateDeviceExtensionProperties drv
                                (physicalDevice s)) = VK_SUCCESS)).
  2:{ right. eexists. cbn [outcome final calls].
      split; [reflexivity|]. split; [reflexivity|]. split; [reflexivity|].
      split; [intros d f i; now apply not_query_in|].
      split; [reflexivity|].
      intros phys ci Hin. exfalso. revert Hin. now apply not_query_in. }
  destruct (bool_decide (fst (vkCreateDevice drv (physicalDevice s) _)
                         = VK_SUCCESS)) eqn:Hcreate.
  - left. apply bool_decide_eq_true in Hcreate.
    eexists. exists (snd (vkCreateDevice drv (physicalDevice s)
                        (deviceCreateInfoFor s g p
                           (snd (vkEnumerateDeviceExtensionProperties drv
                                   (physicalDevice s)))))), g, p, ind, q.
    cbn [outcome final calls].
    split; [reflexivity|]. split; [exact Hfind|].
    split; [exact Hg|]. split; [exact Hp|]. split.
    { rewrite <- Hcreate. apply surjective_pairing. }
    split; [reflexivity|].
    split; [apply elem_of_app; right; now left|].
    split; [reflexivity|].
    intros d f i Hin. apply elem_of_app in Hin as [Hin|Hin].
    { exfalso. revert Hin. now apply not_query_in. }
    rewrite !elem_of_cons, elem_of_nil in Hin.
    destruct Hin as [[=]|[[= -> -> ->]|[[= -> -> ->]|[]]]]; auto.
  - right. apply bool_decide_eq_false in Hcreate.
    eexists. cbn [outcome final calls].
    split; [reflexivity|]. split; [reflexivity|]. split; [reflexivity|].
    split.
    { intros d f i Hin. apply elem_of_app in Hin as [Hin|Hin].
      { revert Hin. now apply not_query_in. }
      apply list_elem_of_singleton in Hin. discriminate Hin. }
    split; [reflexivity|].
    intros phys ci Hin. apply elem_of_app in Hin as [Hin|Hin].
    { exfalso. revert Hin. now apply not_query_in. }
    apply list_elem_of_singleton in Hin. injection Hin as -> ->. done.
Qed.

Lemma createLogicalDevice_call drv s phys ci :
  CreateDevice phys ci ∈ calls (createLogicalDevice drv s) ->
  exists ind g p,
    outcome (findQueueFamilies drv (physicalDevice s) s) = Ok ind
    /\ graphicsFamily ind = Some g
    /\ presentFamily ind = Some p
    /\ fst (vkEnumerateDeviceExtensionProperties drv (physicalDevice s)) = VK_SUCCESS
    /\ phys = physicalDevice s
    /\ ci = deviceCreateInfoFor s g p
              (snd (vkEnumerateDeviceExtensionProperties drv (physicalDevice s))).
Proof.
  destruct (findQueueFamilies_total drv (physicalDevice s) s)
    as (ind & q & Hfind & Hq).
  destruct (isComplete ind) eqn:Hc.
  2:{ rewrite (createLogicalDevice_run_incomplete drv s ind q Hfind Hc).
      intros Hin. exfalso. revert Hin. now apply not_query_in. }
  unfold isComplete in Hc.
  destruct (graphicsFamily ind) as [g|] eqn:Hg; [|discriminate Hc].
  destruct (presentFamily ind) as [p|] eqn:Hp; [|discriminate Hc].
  rewrite (createLogicalDevice_run drv s ind q g p Hfind Hg Hp). cbn zeta.
  rewrite Hfind. cbn [outcome].
  destruct (bool_decide (fst (vkEnumerateDeviceExtensionProperties drv
                                (physicalDevice s)) = VK_SUCCESS)) eqn:Henum.
  2:{ intros Hin. exfalso. revert Hin. now apply not_query_in. }
  apply bool_decide_eq_true in Henum.
  assert (forall l,
            CreateDevice phys ci
            ∈ q ++ CreateDevice (physicalDevice s)
                     (deviceCreateInfoFor s g p
                        (snd (vkEnumerateDeviceExtensionProperties drv
                                (physicalDevice s)))) :: l ->
            (forall c, c ∈ l -> forall a b, c <> CreateDevice a b) ->
            phys = physicalDevice s
            /\ ci = deviceCreateInfoFor s g p
                      (snd (vkEnumerateDeviceExtensionProperties drv
                              (physicalDevice s)))) as Hfound.
  { intros l Hin Hl. apply elem_of_app in Hin as [Hin|Hin].
    { exfalso. revert Hin. now apply not_query_in. }
    apply elem_of_cons in Hin as [[= -> ->]|Hin]; [done|].
    exfalso. now apply (Hl _ Hin phys ci). }
  intros Hin. exists ind, g, p.
  split; [reflexivity|]. split; [done|]. split; [done|]. split; [done|].
  destruct (bool_decide (fst (vkCreateDevice drv (physicalDevice s) _)
                         = VK_SUCCESS)); cbn [calls] in Hin.
  - apply (Hfound _ Hin). intros c Hc' a b.
    rewrite !elem_of_cons, elem_of_nil in Hc'.
    destruct Hc' as [->|[->|[]]]; discriminate.
  - apply (Hfound _ Hin). intros c Hc'. now apply elem_of_nil in Hc'.
Qed.

(** X2: the create-info that createLogicalDevice hands to
    vkCreateDevice asks for one queue of each distinct family among the
    graphics and the present family of findQueueFamilies: one entry when
    the two families coincide, else the smaller then the larger index,
    never a family twice and no other family. *)
Theorem createLogicalDevice_queues
    (drv : Driver) (s : RayTracingApplication) (phys : Z)
    (ci : VkDeviceCreateInfo.t) :
  CreateDevice phys ci ∈ calls (createLogicalDevice drv s) ->
  exists (ind : QueueFamilyIndicies) (g p : Z),
    outcome (findQueueFamilies drv (physicalDevice s) s) = Ok ind
    /\ graphicsFamily ind = Some g
    /\ presentFamily ind = Some p
    /\ requestedFamilies ci
       = (if bool_decide (g = p) then [g] else [Z.min g p; Z.max g p])
    /\ NoDup (requestedFamilies ci)
    /\ (forall f : Z, f ∈ requestedFamilies ci <-> f = g \/ f = p)
    /\ Forall (fun qci => VkDeviceQueueCreateInfo.queueCount qci = 1)
         (VkDeviceCreateInfo.pQueueCreateInfos ci).
Proof.
  intros Hin.
  destruct (createLogicalDevice_call drv s phys ci Hin)
    as (ind & g & p & Hfind & Hg & Hp & _ & _ & ->).
  exists ind, g, p. split; [done|]. split; [done|]. split; [done|].
  unfold requestedFamilies, deviceCreateInfoFor.
  cbn [VkDeviceCreateInfo.pQueueCreateInfos].
  rewrite std_set_iter_pair.
  case_bool_decide as Hgp;
    cbn [map fmap list_fmap VkDeviceQueueCreateInfo.queueFamilyIndex].
  - subst p. split; [reflexivity|]. split; [apply NoDup_singleton|].
    split; [|repeat constructor].
    intros f. rewrite list_elem_of_singleton. tauto.
  - split; [reflexivity|]. split.
    { apply NoDup_cons. split; [|apply NoDup_singleton].
      intros Heq%list_elem_of_singleton. lia. }
    split; [|repeat constructor].
    intros f. rewrite !elem_of_cons, elem_of_nil. lia.
Qed.

Lemma createLogicalDevice_queues_witness :
  exists (ind : QueueFamilyIndicies) (g p : Z),
    outcome (findQueueFamilies Scenario.driver
               (physicalDevice (Scenario.app 7)) (Scenario.app 7)) = Ok ind
    /\ graphicsFamily ind = Some g
    /\ presentFamily ind = Some p
    /\ requestedFamilies
         (deviceCreateInfoFor (Scenario.app 7) 1 2
            (snd (vkEnumerateDeviceExtensionProperties Scenario.driver 7)))
       = (if bool_decide (g = p) then [g] else [Z.min g p; Z.max g p])
    /\ NoDup (requestedFamilies
                (deviceCreateInfoFor (Scenario.app 7) 1 2
                   (snd (vkEnumerateDeviceExtensionProperties Scenario.driver 7))))
    /\ (forall f : Z,
          f ∈ requestedFamilies
                (deviceCreateInfoFor (Scenario.app 7) 1 2
                   (snd (vkEnumerateDeviceExtensionProperties Scenario.driver 7)))
          <-> f = g \/ f = p)
    /\ Forall (fun qci => VkDeviceQueueCreateInfo.queueCount qci = 1)
         (VkDeviceCreateInfo.pQueueCreateInfos
            (deviceCreateInfoFor (Scenario.app 7) 1 2
               (snd (vkEnumerateDeviceExtensionProperties Scenario.driver 7)))).
Proof.
  apply (createLogicalDevice_queues Scenario.driver (Scenario.app 7) 7).
  apply (list_elem_of_lookup_2 _ 3%nat). vm_compute. reflexivity.
Defined.

(** X3: the extensions that createLogicalDevice enables are the
    required device extensions, and VK_KHR_portability_subset exactly
    when the adapter lists it (when it is not itself required); the
    layers are the validation layers when validation is enabled and none
    otherwise. *)
Theorem createLogicalDevice_extensions
    (drv : Driver) (s : RayTracingApplication) (phys : Z)
    (ci : VkDeviceCreateInfo.t) :
  CreateDevice phys ci ∈ calls (createLogicalDevice drv s) ->
  let available :=
    extensionName <$> snd (vkEnumerateDeviceExtensionProperties drv (physicalDevice s)) in
  let enabled := VkDeviceCreateInfo.ppEnabledExtensionNames ci in
  (forall name : string, name ∈ deviceExtensions s -> name ∈ enabled)
  /\ (forall name : string,
        name ∈ enabled ->
        name ∈ deviceExtensions s
        \/ (name = "VK_KHR_portability_subset" /\ name ∈ available))
  /\ ("VK_KHR_portability_subset" ∈ available ->
      "VK_KHR_portability_subset" ∈ enabled)
  /\ VkDeviceCreateInfo.ppEnabledLayerNames ci
     = (if enableValidationLayers s then validationLayers s else []).
Proof.
  intros Hin available enabled.
  destruct (createLogicalDevice_call drv s phys ci Hin)
    as (ind & g & p & _ & _ & _ & _ & _ & ->).
  subst available enabled. unfold deviceCreateInfoFor.
  cbn [VkDeviceCreateInfo.ppEnabledExtensionNames
       VkDeviceCreateInfo.ppEnabledLayerNames].
  set (avail := snd (vkEnumerateDeviceExtensionProperties drv (physicalDevice s))).
  assert (forall name : string,
            name ∈ flat_map
                     (fun ext =>
                        if bool_decide
                             (extensionName ext = "VK_KHR_portability_subset")
                        then ["VK_KHR_portability_subset"] else []) avail
            <-> name = "VK_KHR_portability_subset"
                /\ name ∈ extensionName <$> avail) as Hflat.
  { intros name. induction avail as [|ext avail IH]; cbn [flat_map fmap list_fmap].
    - split; [intros H|intros [_ H]]; now apply elem_of_nil in H.
    - rewrite elem_of_app, IH, elem_of_cons. case_bool_decide as Hext.
      + rewrite list_elem_of_singleton. split.
        * intros [->|[-> ?]]; split; auto.
        * intros [-> [_|?]]; auto.
      + rewrite elem_of_nil. split.
        * intros [[]|[-> ?]]; split; auto.
        * intros [-> [?|?]]; [congruence|auto].  }
  split; [intros name Hname; apply elem_of_app; now left|].
  split; [intros name Hname; apply elem_of_app in Hname as [?|Hname];
          [now left|right; now apply Hflat]|].
  split; [|reflexivity].
  intros Hav. apply elem_of_app. right. now apply Hflat.
Qed.

Lemma createLogicalDevice_extensions_witness :
  (forall name : string,
     name ∈ deviceExtensions (Scenario.app 7) ->
     name ∈ VkDeviceCreateInfo.ppEnabledExtensionNames
              (deviceCreateInfoFor (Scenario.app 7) 1 2
                 (snd (vkEnumerateDeviceExtensionProperties Scenario.driver 7))))
  /\ (forall name : string,
        name ∈ VkDeviceCreateInfo.ppEnabledExtensionNames
                 (deviceCreateInfoFor (Scenario.app 7) 1 2
                    (snd (vkEnumerateDeviceExtensionProperties Scenario.driver 7))) ->
        name ∈ deviceExtensions (Scenario.app 7)
        \/ (name = "VK_KHR_portability_subset"
            /\ name ∈ extensionName
                      <$> snd (vkEnumerateDeviceExtensionProperties Scenario.driver
                                 (physicalDevice (Scenario.app 7)))))
  /\ ("VK_KHR_portability_subset"
      ∈ extensionName
        <$> snd (vkEnumerateDeviceExtensionProperties Scenario.driver
                   (physicalDevice (Scenario.app 7))) ->
      "VK_KHR_portability_subset"
      ∈ VkDeviceCreateInfo.ppEnabledExtensionNames
          (deviceCreateInfoFor (Scenario.app 7) 1 2
             (snd (vkEnumerateDeviceExtensionProperties Scenario.driver 7))))
  /\ VkDeviceCreateInfo.ppEnabledLayerNames
       (deviceCreateInfoFor (Scenario.app 7) 1 2
          (snd (vkEnumerateDeviceExtensionProperties Scenario.driver 7)))
     = (if enableValidationLayers (Scenario.app 7)
        then validationLayers (Scenario.app 7) else []).
Proof.
  apply (createLogicalDevice_extensions Scenario.driver (Scenario.app 7) 7).
  apply (list_elem_of_lookup_2 _ 3%nat). vm_compute. reflexivity.
Defined.

Lemma createSwapChain_run drv s fmt extent ind q g p :
  let support := supportOf drv (physicalDevice s) (surface s) in
  fst (vkGetPhysicalDeviceSurfaceCapabilitiesKHR drv (physicalDevice s) (surface s))
  = VK_SUCCESS ->
  chooseSwapChainFormat (formats support) = Some fmt ->
  chooseSwapExtent drv (capabilities support) s = mkRun (Ok extent) s [] ->
  findQueueFamilies drv (physicalDevice s) s = mkRun (Ok ind) s q ->
  graphicsFamily ind = Some g ->
  presentFamily ind = Some p ->
  createSwapChain drv s =
  let ci := swapchainCreateInfoFor s support fmt extent g p in
  let r := vkCreateSwapchainKHR drv (device s) ci in
  let images := vkGetSwapchainImagesKHR drv (device s) (snd r) in
  if bool_decide (fst r = VK_SUCCESS) then
    if bool_decide (fst images = VK_SUCCESS) then
      mkRun (Ok tt)
        (set_swapChainExtent extent
           (set_swapChainImageFormat (format fmt)
              (set_swapChainImages (snd images) (set_swapChain (snd r) s))))
        (q ++ [CreateSwapchainKHR (device s) ci])
    else
      mkRun (Throw (runtime_error "Could not get Swapchain Images!"))
        (set_swapChain (snd r) s) (q ++ [CreateSwapchainKHR (device s) ci])
  else
    mkRun (Throw (runtime_error "Could not create Swapchain!")) s
      (q ++ [CreateSwapchainKHR (device s) ci]).
Proof.
  intros support Hcaps Hfmt Hext Hfind Hg Hp. cbn zeta. unfold createSwapChain.
  erewrite bind_Ok by reflexivity. cbn [gets outcome final calls app].
  erewrite bind_with by apply querySwapChainSupport_run. cbn zeta.
  rewrite bool_decide_eq_true_2 by done. fold (supportOf drv (physicalDevice s) (surface s)).
  fold support. cbn [outcome final calls app]. rewrite Hfmt.
  erewrite bind_Ok by reflexivity. cbn [defined ret outcome final calls app].
  erewrite bind_with by exact Hext. cbn [outcome final calls app].
  erewrite bind_Ok by reflexivity. cbn [gets outcome final calls app].
  erewrite bind_with by exact Hfind. cbn [outcome final calls app].
  rewrite Hg, Hp.
  do 3 (erewrite bind_Ok by reflexivity;
        cbn [gets value ret outcome final calls app]).
  replace (bool_decide (Some g = Some p)) with (bool_decide (g = p))
    by (apply bool_decide_ext; split; congruence).
  fold (swapchainCreateInfoFor s support fmt extent g p).
  erewrite bind_Ok by reflexivity. cbn [call outcome final calls app].
  erewrite bind_with by apply VK_ASSERT_run.
  destruct (bool_decide (fst (vkCreateSwapchainKHR drv (device s) _) = VK_SUCCESS));
    cbn [outcome final calls app]; [|reflexivity].
  erewrite bind_Ok by reflexivity.
  cbn [modify outcome final calls app].
  erewrite bind_with by apply VK_ASSERT_run.
  destruct (bool_decide (fst (vkGetSwapchainImagesKHR drv (device s) _) = VK_SUCCESS))
    eqn:Himages; cbn [outcome final calls app]; [|reflexivity].
  erewrite bind_with by apply VK_ASSERT_run.
  rewrite Himages. cbn [outcome final calls app].
  repeat (erewrite bind_Ok by reflexivity;
          cbn [modify outcome final calls app]).
  cbn [modify outcome final calls]. reflexivity.
Qed.

(** Runs the first part of a bind that is a primitive of the monad. *)
Ltac step :=
  erewrite bind_with by reflexivity;
  cbn [gets modify call ret throw undefined value defined
       outcome final calls app].

Lemma createSwapChain_cases drv s :
  let support := supportOf drv (physicalDevice s) (surface s) in
  (exists o q,
     createSwapChain drv s = mkRun o s q
     /\ o <> Ok tt
     /\ Forall (fun c => isSurfaceQuery c = true) q)
  \/ (exists fmt extent ind q g p,
        fst (vkGetPhysicalDeviceSurfaceCapabilitiesKHR drv (physicalDevice s)
               (surface s)) = VK_SUCCESS
        /\ chooseSwapChainFormat (formats support) = Some fmt
        /\ chooseSwapExtent drv (capabilities support) s = mkRun (Ok extent) s []
        /\ findQueueFamilies drv (physicalDevice s) s = mkRun (Ok ind) s q
        /\ graphicsFamily ind = Some g
        /\ presentFamily ind = Some p
        /\ Forall (fun c => isSurfaceQuery c = true) q).
Proof.
  intros support.
  destruct (bool_decide (fst (vkGetPhysicalDeviceSurfaceCapabilitiesKHR drv
                                (physicalDevice s) (surface s)) = VK_SUCCESS))
    eqn:Hcaps.
  2:{ left. unfold createSwapChain. step.
      erewrite bind_with by apply querySwapChainSupport_run. cbn zeta.
      rewrite Hcaps. cbn [outcome final calls].
      eexists _, _. split; [reflexivity|]. split; [discriminate|constructor]. }
  destruct (chooseSwapChainFormat (formats support)) as [fmt|] eqn:Hfmt.
  2:{ left. unfold createSwapChain. step.
      erewrite bind_with by apply querySwapChainSupport_run. cbn zeta.
      rewrite Hcaps. cbn [outcome final calls app formats].
      fold (supportOf drv (physicalDevice s) (surface s)) in Hfmt.
      unfold support, supportOf in Hfmt. cbn [formats] in Hfmt. rewrite Hfmt.
      step.
      eexists _, _. split; [reflexivity|]. split; [discriminate|constructor]. }
  destruct (chooseSwapExtent_pure drv (capabilities support) s) as [o Hext].
  destruct (findQueueFamilies_total drv (physicalDevice s) s)
    as (ind & q & Hfind & Hq).
  assert (exists o' q',
            (forall extent, o = Ok extent -> graphicsFamily ind <> None ->
                            presentFamily ind <> None -> False)
            -> createSwapChain drv s = mkRun o' s q'
               /\ o' <> Ok tt
               /\ Forall (fun c => isSurfaceQuery c = true) q') as (o' & q' & Hearly).
  { unfold createSwapChain.
    unfold support, supportOf in Hfmt, Hext. cbn [formats capabilities] in Hfmt, Hext.
    step.
    erewrite bind_with by apply querySwapChainSupport_run. cbn zeta.
    rewrite Hcaps. cbn [outcome final calls app formats capabilities].
    rewrite Hfmt. step.
    erewrite bind_with by exact Hext. cbn [outcome final calls app].
    destruct o as [extent| |].
    2,3: eexists _, _; intros _;
         (split; [reflexivity|]); split; [discriminate|constructor].
    step. erewrite bind_with by exact Hfind. cbn [outcome final calls app].
    destruct (graphicsFamily ind) as [g|].
    2:{ step. rewrite app_nil_r. eexists _, _. intros _.
        split; [reflexivity|]. split; [discriminate|exact Hq]. }
    step.
    destruct (presentFamily ind) as [p|].
    2:{ step. rewrite !app_nil_r. eexists _, _. intros _.
        split; [reflexivity|]. split; [discriminate|exact Hq]. }
    exists Undefined, []. intros Habs. exfalso. now apply (Habs extent). }
  destruct o as [extent| |];
    [|left; exists o', q'; apply Hearly; discriminate
     |left; exists o', q'; apply Hearly; discriminate].
  destruct (graphicsFamily ind) as [g|] eqn:Hg;
    [|left; exists o', q'; apply Hearly; intros ? _ Hn _; exact (Hn eq_refl)].
  destruct (presentFamily ind) as [p|] eqn:Hp;
    [|left; exists o', q'; apply Hearly; intros ? _ _ Hn; exact (Hn eq_refl)].
  right. apply bool_decide_eq_true in Hcaps.
  exists fmt, extent, ind, q, g, p. done.
Qed.

(** C8: [createSwapChain] attempts the creation of the swap chain, once
    and on the object's device, as soon as the capability query has
    succeeded, a surface format has been taken, the extent is chosen and
    both queue family indices are resolved; when the two indices differ
    the sharing mode is concurrent and exactly the two indices are
    listed, when they are equal the mode is exclusive, the count is zero
    and the index pointer is null.  Conversely every creation that is
    attempted is made with both indices resolved and in the mode that
    the two indices call for, and exclusive mode never comes with a
    listed family. *)
Theorem createSwapChain_sharing (drv : Driver) (s : RayTracingApplication) :
  let caps :=
    vkGetPhysicalDeviceSurfaceCapabilitiesKHR drv (physicalDevice s) (surface s) in
  let offered :=
    vkGetPhysicalDeviceSurfaceFormatsKHR drv (physicalDevice s) (surface s) in
  let found := findQueueFamilies drv (physicalDevice s) s in
  (forall (fmt : VkSurfaceFormatKHR) (extent : VkExtent2D)
          (ind : QueueFamilyIndicies) (g p : Z),
     fst caps = VK_SUCCESS ->
     chooseSwapChainFormat offered = Some fmt ->
     outcome (chooseSwapExtent drv (snd caps) s) = Ok extent ->
     outcome found = Ok ind ->
     graphicsFamily ind = Some g ->
     presentFamily ind = Some p ->
     exists ci : VkSwapchainCreateInfoKHR.t,
       calls (createSwapChain drv s)
       = calls found ++ [CreateSwapchainKHR (device s) ci]
       /\ (g <> p ->
           VkSwapchainCreateInfoKHR.imageSharingMode ci = VK_SHARING_MODE_CONCURRENT
           /\ VkSwapchainCreateInfoKHR.queueFamilyIndexCount ci = 2
           /\ VkSwapchainCreateInfoKHR.pQueueFamilyIndices ci = Some [g; p]
           /\ VkSwapchainCreateInfoKHR.listedFamilies ci = [g; p])
       /\ (g = p ->
           VkSwapchainCreateInfoKHR.imageSharingMode ci = VK_SHARING_MODE_EXCLUSIVE
           /\ VkSwapchainCreateInfoKHR.queueFamilyIndexCount ci = 0
           /\ VkSwapchainCreateInfoKHR.pQueueFamilyIndices ci = None
           /\ VkSwapchainCreateInfoKHR.listedFamilies ci = []))
  /\ (forall (dev : Z) (ci : VkSwapchainCreateInfoKHR.t),
        CreateSwapchainKHR dev ci ∈ calls (createSwapChain drv s) ->
        exists (ind : QueueFamilyIndicies) (g p : Z),
          outcome found = Ok ind
          /\ graphicsFamily ind = Some g
          /\ presentFamily ind = Some p
          /\ (g <> p ->
              VkSwapchainCreateInfoKHR.imageSharingMode ci
              = VK_SHARING_MODE_CONCURRENT
              /\ VkSwapchainCreateInfoKHR.queueFamilyIndexCount ci = 2
              /\ VkSwapchainCreateInfoKHR.listedFamilies ci = [g; p])
          /\ (g = p ->
              VkSwapchainCreateInfoKHR.imageSharingMode ci
              = VK_SHARING_MODE_EXCLUSIVE
              /\ VkSwapchainCreateInfoKHR.queueFamilyIndexCount ci = 0
              /\ VkSwapchainCreateInfoKHR.pQueueFamilyIndices ci = None
              /\ VkSwapchainCreateInfoKHR.listedFamilies ci = [])
          /\ (VkSwapchainCreateInfoKHR.imageSharingMode ci
              = VK_SHARING_MODE_EXCLUSIVE ->
              VkSwapchainCreateInfoKHR.listedFamilies ci = [])).
Proof.
  intros caps offered found. split.
  - intros fmt extent ind g p Hcaps Hfmt Hext Hfind Hg Hp.
    destruct (chooseSwapExtent_pure drv (snd caps) s) as [o Hext'].
    rewrite Hext' in Hext. cbn [outcome] in Hext. subst o.
    destruct (findQueueFamilies_total drv (physicalDevice s) s)
      as (ind' & q & Hfind' & _).
    subst found. rewrite Hfind' in Hfind |- *. cbn [outcome calls] in Hfind |- *.
    injection Hfind as ->.
    rewrite (createSwapChain_run drv s fmt extent ind q g p
               Hcaps Hfmt Hext' Hfind' Hg Hp).
    cbn zeta.
    exists (swapchainCreateInfoFor s
              (supportOf drv (physicalDevice s) (surface s)) fmt extent g p).
    split.
    { destruct (bool_decide (fst (vkCreateSwapchainKHR drv (device s) _)
                             = VK_SUCCESS)); [|reflexivity].
      destruct (bool_decide (fst (vkGetSwapchainImagesKHR drv (device s) _)
                             = VK_SUCCESS)); reflexivity. }
    unfold swapchainCreateInfoFor, VkSwapchainCreateInfoKHR.listedFamilies.
    cbn [VkSwapchainCreateInfoKHR.imageSharingMode
         VkSwapchainCreateInfoKHR.queueFamilyIndexCount
         VkSwapchainCreateInfoKHR.pQueueFamilyIndices].
    destruct (decide (g = p)) as [Heq|Hne].
    + rewrite bool_decide_eq_true_2 by done. split; [done|].
      intros _. repeat split.
    + rewrite bool_decide_eq_false_2 by done. split; [|done].
      intros _. repeat split.
  - intros dev ci Hcall.
    destruct (createSwapChain_call drv s dev ci Hcall)
      as (ind & g & p & Hfind & Hg & Hp & _ & _ & Hshare).
    exists ind, g, p. split; [exact Hfind|]. split; [exact Hg|]. split; [exact Hp|].
    unfold VkSwapchainCreateInfoKHR.listedFamilies.
    destruct (decide (g = p)) as [Heq|Hne].
    + rewrite bool_decide_eq_true_2 in Hshare by done.
      injection Hshare as -> -> ->. split; [done|]. split; done.
    + rewrite bool_decide_eq_false_2 in Hshare by done.
      injection Hshare as -> -> ->. split; [done|]. split; done.
Qed.

Lemma createSwapChain_sharing_witness :
  (exists ci : VkSwapchainCreateInfoKHR.t,
     calls (createSwapChain Scenario.driver (Scenario.app 7))
     = calls (findQueueFamilies Scenario.driver 7 (Scenario.app 7))
       ++ [CreateSwapchainKHR 0 ci]
     /\ VkSwapchainCreateInfoKHR.imageSharingMode ci = VK_SHARING_MODE_CONCURRENT
     /\ VkSwapchainCreateInfoKHR.listedFamilies ci = [1; 2])
  /\ (exists ci : VkSwapchainCreateInfoKHR.t,
        calls (createSwapChain Scenario.driver (Scenario.app 8))
        = calls (findQueueFamilies Scenario.driver 8 (Scenario.app 8))
          ++ [CreateSwapchainKHR 0 ci]
        /\ VkSwapchainCreateInfoKHR.imageSharingMode ci = VK_SHARING_MODE_EXCLUSIVE
        /\ VkSwapchainCreateInfoKHR.listedFamilies ci = []).
Proof.
  split.
  - destruct (proj1 (createSwapChain_sharing Scenario.driver (Scenario.app 7))
                (mkSurfaceFormat VK_FORMAT_B8G8R8A8_SRGB
                   VK_COLOR_SPACE_SRGB_NONLINEAR_KHR)
                (mkExtent 100 4000) (mkIndicies (Some 1) (Some 2)) 1 2)
      as (ci & Hcalls & Hdiff & _);
      [reflexivity|reflexivity|reflexivity|reflexivity|reflexivity|reflexivity|].
    exists ci. split; [exact Hcalls|].
    destruct Hdiff as (Hmode & _ & _ & Hlist); [lia|]. split; assumption.
  - destruct (proj1 (createSwapChain_sharing Scenario.driver (Scenario.app 8))
                (mkSurfaceFormat VK_FORMAT_B8G8R8A8_SRGB
                   VK_COLOR_SPACE_SRGB_NONLINEAR_KHR)
                (mkExtent 100 4000) (mkIndicies (Some 0) (Some 0)) 0 0)
      as (ci & Hcalls & _ & Hsame);
      [reflexivity|reflexivity|reflexivity|reflexivity|reflexivity|reflexivity|].
    exists ci. split; [exact Hcalls|].
    destruct Hsame as (Hmode & _ & _ & Hlist); [reflexivity|]. split; assumption.
Defined.

Lemma createSwapChain_call_info drv s dev ci :
  CreateSwapchainKHR dev ci ∈ calls (createSwapChain drv s) ->
  let support := supportOf drv (physicalDevice s) (surface s) in
  exists fmt extent ind g p,
    chooseSwapChainFormat (formats support) = Some fmt
    /\ chooseSwapExtent drv (capabilities support) s = mkRun (Ok extent) s []
    /\ outcome (findQueueFamilies drv (physicalDevice s) s) = Ok ind
    /\ graphicsFamily ind = Some g
    /\ presentFamily ind = Some p
    /\ dev = device s
    /\ ci = swapchainCreateInfoFor s support fmt extent g p.
Proof.
  intros Hin support.
  destruct (createSwapChain_cases drv s)
    as [(o & q & Hrun & _ & Hq)
       |(fmt & extent & ind & q & g & p & Hcaps & Hfmt & Hext & Hfind & Hg & Hp & Hq)].
  { rewrite Hrun in Hin. exfalso. revert Hin. now apply not_query_in. }
  rewrite (createSwapChain_run drv s fmt extent ind q g p
             Hcaps Hfmt Hext Hfind Hg Hp) in Hin.
  cbn zeta in Hin.
  exists fmt, extent, ind, g, p. rewrite Hfind.
  do 5 (split; [done|]).
  assert (CreateSwapchainKHR dev ci
          ∈ q ++ [CreateSwapchainKHR (device s)
                    (swapchainCreateInfoFor s support fmt extent g p)]) as Hin'.
  { destruct (bool_decide _) in Hin; [destruct (bool_decide _) in Hin|];
      exact Hin. }
  apply elem_of_app in Hin' as [Hin'|Hin'].
  { exfalso. revert Hin'. now apply not_query_in. }
  apply list_elem_of_singleton in Hin'. injection Hin' as -> ->. done.
Qed.

Lemma chooseSwapChainFormat_in formats f :
  chooseSwapChainFormat formats = Some f -> f ∈ formats.
Proof.
  unfold chooseSwapChainFormat.
  destruct (chooseSwapChainFormat_for formats) as [f'|] eqn:Hfor.
  - intros [= <-]. apply chooseSwapChainFormat_for_Some in Hfor as [_ Hin].
    exact Hin.
  - intros H. apply list_elem_of_lookup. eauto.
Qed.

Lemma chooseSwapChainPresent_cases presentModes :
  (VK_PRESENT_MODE_MAILBOX_KHR ∈ presentModes
   /\ chooseSwapChainPresent presentModes = VK_PRESENT_MODE_MAILBOX_KHR)
  \/ ((VK_PRESENT_MODE_MAILBOX_KHR ∉ presentModes)
      /\ chooseSwapChainPresent presentModes = VK_PRESENT_MODE_FIFO_KHR).
Proof.
  induction presentModes as [|m rest IH]; cbn [chooseSwapChainPresent].
  - right. split; [apply not_elem_of_nil|reflexivity].
  - destruct (Z.eqb_spec m VK_PRESENT_MODE_MAILBOX_KHR) as [->|Hne].
    + left. split; [now left|reflexivity].
    + destruct IH as [[Hin Hres]|[Hnot Hres]].
      * left. split; [now right|exact Hres].
      * right. split; [|exact Hres].
        rewrite not_elem_of_cons. split; [congruence|exact Hnot].
Qed.

Lemma std_clamp_Some v lo hi r :
  std_clamp v lo hi = Some r -> lo <= hi /\ clamped v lo hi r.
Proof.
  unfold std_clamp, clamped. destruct (Z.ltb_spec hi lo); [discriminate|].
  intros [= <-]. destruct (Z.ltb_spec v lo), (Z.ltb_spec hi v); lia.
Qed.

Lemma chooseSwapExtent_Ok drv caps s extent :
  outcome (chooseSwapExtent drv caps s) = Ok extent ->
  (width (currentExtent caps) <> UINT32_MAX /\ extent = currentExtent caps)
  \/ (width (currentExtent caps) = UINT32_MAX
      /\ clamped (static_cast_uint32 (fst (glfwGetFramebufferSize drv (window s))))
           (width (minImageExtent caps)) (width (maxImageExtent caps))
           (width extent)
      /\ clamped (static_cast_uint32 (snd (glfwGetFramebufferSize drv (window s))))
           (height (minImageExtent caps)) (height (maxImageExtent caps))
           (height extent)).
Proof.
  unfold chooseSwapExtent.
  destruct (Z.eqb_spec (width (currentExtent caps)) UINT32_MAX) as [Hw|Hw];
    cbn [negb].
  2:{ cbn [ret outcome]. intros [= <-]. now left. }
  step.
  destruct (std_clamp (width _) _ _) as [w|] eqn:Ew; [|step; discriminate].
  step.
  destruct (std_clamp (height _) _ _) as [h|] eqn:Eh; [|step; discriminate].
  step. cbn [ret outcome]. intros [= <-]. right.
  apply std_clamp_Some in Ew as [_ Ew]. apply std_clamp_Some in Eh as [_ Eh].
  done.
Qed.

(** X4: chooseSwapChainPresent answers MAILBOX when the surface offers
    it and FIFO otherwise, also when FIFO is not among the offered modes:
    with neither mode offered the answer is a mode the surface did not
    offer. *)
Theorem chooseSwapChainPresent_mailbox (presentModes : list Z) :
  (VK_PRESENT_MODE_MAILBOX_KHR ∈ presentModes ->
   chooseSwapChainPresent presentModes = VK_PRESENT_MODE_MAILBOX_KHR)
  /\ ((VK_PRESENT_MODE_MAILBOX_KHR ∉ presentModes) ->
      chooseSwapChainPresent presentModes = VK_PRESENT_MODE_FIFO_KHR)
  /\ ((VK_PRESENT_MODE_FIFO_KHR ∉ presentModes) ->
      (VK_PRESENT_MODE_MAILBOX_KHR ∉ presentModes) ->
      chooseSwapChainPresent presentModes ∉ presentModes).
Proof.
  destruct (chooseSwapChainPresent_cases presentModes) as [[Hin ->]|[Hnot ->]].
  - split; [done|]. split; intros; done.
  - split; [done|]. split; intros; done.
Qed.

(** X5: whenever createSwapChain calls vkCreateSwapchainKHR, it is on
    the object's device and surface, with a format and colour space that
    the surface offers as a pair, with MAILBOX if offered and FIFO if
    not, with the surface's current extent unless its width is the
    sentinel (then, the surface's minimum being at most its maximum in
    width and in height, an extent within these bounds; with the bounds
    out of order std::clamp has no defined result and nothing is said of
    the extent), with the surface's current transform and with no old
    swap chain. *)
Theorem createSwapChain_offered
    (drv : Driver) (s : RayTracingApplication) (dev : Z)
    (ci : VkSwapchainCreateInfoKHR.t) :
  CreateSwapchainKHR dev ci ∈ calls (createSwapChain drv s) ->
  let caps :=
    snd (vkGetPhysicalDeviceSurfaceCapabilitiesKHR drv (physicalDevice s) (surface s)) in
  let offered :=
    vkGetPhysicalDeviceSurfaceFormatsKHR drv (physicalDevice s) (surface s) in
  let modes :=
    vkGetPhysicalDeviceSurfacePresentModesKHR drv (physicalDevice s) (surface s) in
  let extent := VkSwapchainCreateInfoKHR.imageExtent ci in
  dev = device s
  /\ VkSwapchainCreateInfoKHR.surface ci = surface s
  /\ mkSurfaceFormat (VkSwapchainCreateInfoKHR.imageFormat ci)
       (VkSwapchainCreateInfoKHR.imageColorSpace ci) ∈ offered
  /\ ((VkSwapchainCreateInfoKHR.presentMode ci = VK_PRESENT_MODE_MAILBOX_KHR
       /\ VK_PRESENT_MODE_MAILBOX_KHR ∈ modes)
      \/ (VkSwapchainCreateInfoKHR.presentMode ci = VK_PRESENT_MODE_FIFO_KHR
          /\ VK_PRESENT_MODE_MAILBOX_KHR ∉ modes))
  /\ (width (currentExtent caps) <> UINT32_MAX -> extent = currentExtent caps)
  /\ (width (currentExtent caps) = UINT32_MAX ->
      width (minImageExtent caps) <= width (maxImageExtent caps) ->
      height (minImageExtent caps) <= height (maxImageExtent caps) ->
      width (minImageExtent caps) <= width extent <= width (maxImageExtent caps)
      /\ height (minImageExtent caps) <= height extent
         <= height (maxImageExtent caps))
  /\ VkSwapchainCreateInfoKHR.preTransform ci = currentTransform caps
  /\ VkSwapchainCreateInfoKHR.oldSwapchain ci = VK_NULL_HANDLE.
Proof.
  intros Hin caps offered modes extent.
  destruct (createSwapChain_call_info drv s dev ci Hin)
    as (fmt & extent' & ind & g & p & Hfmt & Hext & _ & _ & _ & -> & ->).
  subst extent. unfold swapchainCreateInfoFor, supportOf in *.
  cbn [VkSwapchainCreateInfoKHR.surface VkSwapchainCreateInfoKHR.imageFormat
       VkSwapchainCreateInfoKHR.imageColorSpace
       VkSwapchainCreateInfoKHR.presentMode VkSwapchainCreateInfoKHR.imageExtent
       VkSwapchainCreateInfoKHR.preTransform VkSwapchainCreateInfoKHR.oldSwapchain
       formats presentModes capabilities] in *.
  fold caps offered modes in Hfmt, Hext |- *.
  split; [reflexivity|]. split; [reflexivity|]. split.
  { apply chooseSwapChainFormat_in in Hfmt. now destruct fmt. }
  split.
  { destruct (chooseSwapChainPresent_cases modes) as [[? ->]|[? ->]]; auto. }
  assert (outcome (chooseSwapExtent drv caps s) = Ok extent') as Hext'
    by now rewrite Hext.
  apply chooseSwapExtent_Ok in Hext'.
  split; [|split; [|split; reflexivity]].
  - intros Hw. destruct Hext' as [[_ ->]|[Hw' _]]; [reflexivity|done].
  - intros Hw _ _. destruct Hext' as [[Hw' _]|(_ & Hcw & Hch)]; [done|].
    destruct Hcw as [Hcw _], Hch as [Hch _]. done.
Qed.

Lemma createSwapChain_offered_witness :
  0 = device (Scenario.app 7)
  /\ VkSwapchainCreateInfoKHR.surface Scenario.createInfo = surface (Scenario.app 7)
  /\ mkSurfaceFormat (VkSwapchainCreateInfoKHR.imageFormat Scenario.createInfo)
       (VkSwapchainCreateInfoKHR.imageColorSpace Scenario.createInfo)
     ∈ vkGetPhysicalDeviceSurfaceFormatsKHR Scenario.driver 7 5
  /\ ((VkSwapchainCreateInfoKHR.presentMode Scenario.createInfo
       = VK_PRESENT_MODE_MAILBOX_KHR
       /\ VK_PRESENT_MODE_MAILBOX_KHR
          ∈ vkGetPhysicalDeviceSurfacePresentModesKHR Scenario.driver 7 5)
      \/ (VkSwapchainCreateInfoKHR.presentMode Scenario.createInfo
          = VK_PRESENT_MODE_FIFO_KHR
          /\ VK_PRESENT_MODE_MAILBOX_KHR
             ∉ vkGetPhysicalDeviceSurfacePresentModesKHR Scenario.driver 7 5))
  /\ (width (currentExtent Scenario.unconstrained) <> UINT32_MAX ->
      VkSwapchainCreateInfoKHR.imageExtent Scenario.createInfo
      = currentExtent Scenario.unconstrained)
  /\ (width (currentExtent Scenario.unconstrained) = UINT32_MAX ->
      width (minImageExtent Scenario.unconstrained)
      <= width (maxImageExtent Scenario.unconstrained) ->
      height (minImageExtent Scenario.unconstrained)
      <= height (maxImageExtent Scenario.unconstrained) ->
      width (minImageExtent Scenario.unconstrained)
      <= width (VkSwapchainCreateInfoKHR.imageExtent Scenario.createInfo)
      <= width (maxImageExtent Scenario.unconstrained)
      /\ height (minImageExtent Scenario.unconstrained)
         <= height (VkSwapchainCreateInfoKHR.imageExtent Scenario.createInfo)
         <= height (maxImageExtent Scenario.unconstrained))
  /\ VkSwapchainCreateInfoKHR.preTransform Scenario.createInfo
     = currentTransform Scenario.unconstrained
  /\ VkSwapchainCreateInfoKHR.oldSwapchain Scenario.createInfo = VK_NULL_HANDLE.
Proof.
  apply (createSwapChain_offered Scenario.driver (Scenario.app 7) 0
           Scenario.createInfo).
  apply (list_elem_of_lookup_2 _ 3%nat). vm_compute. reflexivity.
Defined.

(** X6: when createSwapChain returns, both the creation and the image
    query succeeded, and the object holds the new handle, the images the
    driver lists for it, and the very format and extent that were asked
    for in the create-info. *)
Theorem createSwapChain_stored (drv : Driver) (s : RayTracingApplication) :
  outcome (createSwapChain drv s) = Ok tt ->
  exists ci : VkSwapchainCreateInfoKHR.t,
    let r := vkCreateSwapchainKHR drv (device s) ci in
    let images := vkGetSwapchainImagesKHR drv (device s) (snd r) in
    CreateSwapchainKHR (device s) ci ∈ calls (createSwapChain drv s)
    /\ fst r = VK_SUCCESS
    /\ fst images = VK_SUCCESS
    /\ final (createSwapChain drv s)
       = set_swapChainExtent (VkSwapchainCreateInfoKHR.imageExtent ci)
           (set_swapChainImageFormat (VkSwapchainCreateInfoKHR.imageFormat ci)
              (set_swapChainImages (snd images) (set_swapChain (snd r) s))).
Proof.
  destruct (createSwapChain_cases drv s)
    as [(o & q & Hrun & Ho & Hq)
       |(fmt & extent & ind & q & g & p & Hcaps & Hfmt & Hext & Hfind & Hg & Hp & Hq)].
  { rewrite Hrun. cbn [outcome]. intros ->. done. }
  rewrite (createSwapChain_run drv s fmt extent ind q g p
             Hcaps Hfmt Hext Hfind Hg Hp).
  cbn zeta.
  set (ci := swapchainCreateInfoFor s _ fmt extent g p).
  destruct (bool_decide (fst (vkCreateSwapchainKHR drv (device s) ci) = VK_SUCCESS))
    eqn:Hcreate; [|discriminate].
  destruct (bool_decide (fst (vkGetSwapchainImagesKHR drv (device s) _) = VK_SUCCESS))
    eqn:Himages; [|discriminate].
  intros _. exists ci. cbn zeta. cbn [final calls].
  apply bool_decide_eq_true in Hcreate, Himages.
  split; [apply elem_of_app; right; now left|]. done.
Qed.

Lemma createSwapChain_stored_witness :
  exists ci : VkSwapchainCreateInfoKHR.t,
    CreateSwapchainKHR (device (Scenario.app 7)) ci
    ∈ calls (createSwapChain Scenario.driver (Scenario.app 7))
    /\ fst (vkCreateSwapchainKHR Scenario.driver (device (Scenario.app 7)) ci)
       = VK_SUCCESS
    /\ fst (vkGetSwapchainImagesKHR Scenario.driver (device (Scenario.app 7))
              (snd (vkCreateSwapchainKHR Scenario.driver
                      (device (Scenario.app 7)) ci)))
       = VK_SUCCESS
    /\ final (createSwapChain Scenario.driver (Scenario.app 7))
       = set_swapChainExtent (VkSwapchainCreateInfoKHR.imageExtent ci)
           (set_swapChainImageFormat (VkSwapchainCreateInfoKHR.imageFormat ci)
              (set_swapChainImages
                 (snd (vkGetSwapchainImagesKHR Scenario.driver
                         (device (Scenario.app 7))
                         (snd (vkCreateSwapchainKHR Scenario.driver
                                 (device (Scenario.app 7)) ci))))
                 (set_swapChain
                    (snd (vkCreateSwapchainKHR Scenario.driver
                            (device (Scenario.app 7)) ci))
                    (Scenario.app 7)))).
Proof.
  apply (createSwapChain_stored Scenario.driver (Scenario.app 7)).
  vm_compute. reflexivity.
Defined.

(** X7: when createSwapChain does not return normally, the stored image
    format and extent are as before; if vkCreateSwapchainKHR was never
    called the whole object is as before; and if it was called, either it
    failed ("Could not create Swapchain!") or it succeeded, its handle is
    stored, and the image query failed ("Could not get Swapchain
    Images!"). *)
Theorem createSwapChain_failure (drv : Driver) (s : RayTracingApplication) :
  let r := createSwapChain drv s in
  outcome r <> Ok tt ->
  swapChainImageFormat (final r) = swapChainImageFormat s
  /\ swapChainExtent (final r) = swapChainExtent s
  /\ ((forall (dev : Z) (ci : VkSwapchainCreateInfoKHR.t),
         CreateSwapchainKHR dev ci ∉ calls r) ->
      final r = s)
  /\ forall (dev : Z) (ci : VkSwapchainCreateInfoKHR.t),
       CreateSwapchainKHR dev ci ∈ calls r ->
       (fst (vkCreateSwapchainKHR drv dev ci) <> VK_SUCCESS
        /\ outcome r = Throw (runtime_error "Could not create Swapchain!"))
       \/ (fst (vkCreateSwapchainKHR drv dev ci) = VK_SUCCESS
           /\ fst (vkGetSwapchainImagesKHR drv dev
                     (snd (vkCreateSwapchainKHR drv dev ci))) <> VK_SUCCESS
           /\ swapChain (final r) = snd (vkCreateSwapchainKHR drv dev ci)
           /\ outcome r = Throw (runtime_error "Could not get Swapchain Images!")).
Proof.
  cbn zeta.
  destruct (createSwapChain_cases drv s)
    as [(o & q & Hrun & Ho & Hq)
       |(fmt & extent & ind & q & g & p & Hcaps & Hfmt & Hext & Hfind & Hg & Hp & Hq)].
  { rewrite Hrun. cbn [outcome final calls]. intros _.
    split; [reflexivity|]. split; [reflexivity|]. split; [reflexivity|].
    intros dev ci Hin. exfalso. revert Hin. now apply not_query_in. }
  rewrite (createSwapChain_run drv s fmt extent ind q g p
             Hcaps Hfmt Hext Hfind Hg Hp).
  cbn zeta.
  set (ci := swapchainCreateInfoFor s _ fmt extent g p).
  destruct (bool_decide (fst (vkCreateSwapchainKHR drv (device s) ci) = VK_SUCCESS))
    eqn:Hcreate.
  2:{ apply bool_decide_eq_false in Hcreate. cbn [outcome final calls]. intros _.
      split; [reflexivity|]. split; [reflexivity|]. split; [reflexivity|].
      intros dev ci' Hin. apply elem_of_app in Hin as [Hin|Hin].
      { exfalso. revert Hin. now apply not_query_in. }
      apply list_elem_of_singleton in Hin. injection Hin as -> ->. now left. }
  destruct (bool_decide (fst (vkGetSwapchainImagesKHR drv (device s) _) = VK_SUCCESS))
    eqn:Himages; [intros H; now contradiction H|].
  apply bool_decide_eq_true in Hcreate. apply bool_decide_eq_false in Himages.
  cbn [outcome final calls]. intros _.
  split; [reflexivity|]. split; [reflexivity|]. split.
  { intros Hnone. exfalso. apply (Hnone (device s) ci).
    apply elem_of_app. right. now left. }
  intros dev ci' Hin. apply elem_of_app in Hin as [Hin|Hin].
  { exfalso. revert Hin. now apply not_query_in. }
  apply list_elem_of_singleton in Hin. injection Hin as -> ->. right. done.
Qed.

Lemma createSwapChain_failure_witness :
  outcome (createSwapChain Boot.chainless (Scenario.app 7))
  = Throw (runtime_error "Could not create Swapchain!")
  /\ swapChainImageFormat (final (createSwapChain Boot.chainless (Scenario.app 7)))
     = swapChainImageFormat (Scenario.app 7)
  /\ swapChainExtent (final (createSwapChain Boot.chainless (Scenario.app 7)))
     = swapChainExtent (Scenario.app 7).
Proof.
  split; [vm_compute; reflexivity|].
  assert (Hfail : outcome (createSwapChain Boot.chainless (Scenario.app 7)) <> Ok tt)
    by (vm_compute; discriminate).
  destruct (createSwapChain_failure Boot.chainless (Scenario.app 7) Hfail)
    as (Hformat & Hextent & _).
  split; [exact Hformat|exact Hextent].
Defined.

Lemma findQueueFamilies_for_uniform drv dev surf rest :
  forall i ind,
  exists ind' q,
    forall s, findQueueFamilies_for drv dev surf rest i ind s = mkRun (Ok ind') s q.
Proof.
  induction rest as [|prop rest IH]; intros i ind.
  - exists ind, []. reflexivity.
  - pose (ps := vkGetPhysicalDeviceSurfaceSupportKHR drv dev i surf).
    pose (ind1 := if graphicsBit prop
                  then mkIndicies (Some i) (presentFamily ind) else ind).
    pose (ind2 := if ps then mkIndicies (graphicsFamily ind1) (Some i) else ind1).
    destruct (isComplete ind2) eqn:Hc.
    + exists ind2, [GetPhysicalDeviceSurfaceSupportKHR dev i surf]. intros s.
      cbn [findQueueFamilies_for]. unfold getSurfaceSupport. do 2 step.
      match goal with
      | |- context [isComplete ?q] =>
          assert (isComplete q = true) as -> by exact Hc
      end.
      reflexivity.
    + destruct (IH (uint32 (i + 1)) ind2) as (ind' & calls' & Hrest).
      exists ind', (GetPhysicalDeviceSurfaceSupportKHR dev i surf :: calls').
      intros s.
      cbn [findQueueFamilies_for]. unfold getSurfaceSupport. do 2 step.
      match goal with
      | |- context [isComplete ?q] =>
          assert (isComplete q = false) as -> by exact Hc;
          change q with ind2
      end.
      rewrite Hrest. reflexivity.
Qed.

Lemma findQueueFamilies_state drv dev s s' :
  surface s' = surface s ->
  outcome (findQueueFamilies drv dev s') = outcome (findQueueFamilies drv dev s)
  /\ calls (findQueueFamilies drv dev s') = calls (findQueueFamilies drv dev s).
Proof.
  intros Hsurf.
  destruct (findQueueFamilies_for_uniform drv dev (surface s)
              (vkGetPhysicalDeviceQueueFamilyProperties drv dev) 0
              (mkIndicies None None)) as (ind & q & Hrun).
  unfold findQueueFamilies. do 2 step. rewrite Hsurf, !Hrun. done.
Qed.

(** X8: createSwapChain run after a successful createLogicalDevice
    creates the swap chain on the device that vkCreateDevice returned, and
    the queue families it lists for sharing are among the families the
    device was created with queues for. *)
Theorem createSwapChain_after_createLogicalDevice
    (drv : Driver) (s : RayTracingApplication)
    (phys dev : Z) (dci : VkDeviceCreateInfo.t) (sci : VkSwapchainCreateInfoKHR.t) :
  outcome (createLogicalDevice drv s) = Ok tt ->
  CreateDevice phys dci ∈ calls (createLogicalDevice drv s) ->
  CreateSwapchainKHR dev sci
  ∈ calls (createSwapChain drv (final (createLogicalDevice drv s))) ->
  dev = snd (vkCreateDevice drv phys dci)
  /\ fst (vkCreateDevice drv phys dci) = VK_SUCCESS
  /\ forall f : Z,
       f ∈ VkSwapchainCreateInfoKHR.listedFamilies sci -> f ∈ requestedFamilies dci.
Proof.
  intros Hok Hdev Hchain.
  destruct (createLogicalDevice_call drv s phys dci Hdev)
    as (ind & g & p & Hfind & Hg & Hp & Henum & -> & ->).
  destruct (findQueueFamilies_total drv (physicalDevice s) s)
    as (ind' & q & Hrun & Hq).
  rewrite Hrun in Hfind. injection Hfind as ->.
  rewrite (createLogicalDevice_run drv s ind q g p Hrun Hg Hp) in Hok, Hchain.
  cbn zeta in Hok, Hchain.
  rewrite bool_decide_eq_true_2 in Hok, Hchain by done.
  set (dci := deviceCreateInfoFor s g p _) in *.
  destruct (bool_decide (fst (vkCreateDevice drv (physicalDevice s) dci)
                         = VK_SUCCESS)) eqn:Hcreate; [|discriminate Hok].
  apply bool_decide_eq_true in Hcreate. cbn [final] in Hchain.
  set (s1 := set_presentQueue _ _) in Hchain.
  destruct (createSwapChain_call_info drv s1 dev sci Hchain)
    as (fmt & extent & ind1 & g1 & p1 & _ & _ & Hfind1 & Hg1 & Hp1 & -> & ->).
  destruct (findQueueFamilies_state drv (physicalDevice s) s s1 eq_refl)
    as [Hsame _].
  change (physicalDevice s1) with (physicalDevice s) in Hfind1.
  rewrite Hsame, Hrun in Hfind1. injection Hfind1 as <-.
  rewrite Hg in Hg1. rewrite Hp in Hp1. injection Hg1 as <-. injection Hp1 as <-.
  split; [reflexivity|]. split; [exact Hcreate|].
  intros f. unfold VkSwapchainCreateInfoKHR.listedFamilies, swapchainCreateInfoFor.
  cbn [VkSwapchainCreateInfoKHR.pQueueFamilyIndices
       VkSwapchainCreateInfoKHR.queueFamilyIndexCount].
  unfold requestedFamilies, dci, deviceCreateInfoFor.
  cbn [VkDeviceCreateInfo.pQueueCreateInfos].
  rewrite std_set_iter_pair.
  case_bool_decide as Hgp; cbn [negb fst snd].
  - intros Hf. now apply elem_of_nil in Hf.
  - cbn [Z.to_nat Pos.to_nat Pos.iter_op Nat.add take map fmap list_fmap
         VkDeviceQueueCreateInfo.queueFamilyIndex].
    change (take (Z.to_nat 2) [g; p]) with [g; p].
    rewrite !elem_of_cons, !elem_of_nil. lia.
Qed.

Lemma createSwapChain_after_createLogicalDevice_witness :
  100 = snd (vkCreateDevice Scenario.driver 7
               (deviceCreateInfoFor (Scenario.app 7) 1 2
                  (snd (vkEnumerateDeviceExtensionProperties Scenario.driver 7))))
  /\ fst (vkCreateDevice Scenario.driver 7
            (deviceCreateInfoFor (Scenario.app 7) 1 2
               (snd (vkEnumerateDeviceExtensionProperties Scenario.driver 7))))
     = VK_SUCCESS
  /\ forall f : Z,
       f ∈ VkSwapchainCreateInfoKHR.listedFamilies Scenario.createInfo ->
       f ∈ requestedFamilies
             (deviceCreateInfoFor (Scenario.app 7) 1 2
                (snd (vkEnumerateDeviceExtensionProperties Scenario.driver 7))).
Proof.
  apply (createSwapChain_after_createLogicalDevice Scenario.driver (Scenario.app 7)).
  - vm_compute. reflexivity.
  - apply (list_elem_of_lookup_2 _ 3%nat). vm_compute. reflexivity.
  - apply (list_elem_of_lookup_2 _ 3%nat). vm_compute. reflexivity.
Defined.

(** ** Adapter selection *)

Lemma pickPhysicalDevice_for_none drv devices s :
  (forall d, d ∈ devices -> outcome (isDeviceSuitable drv d s) = Ok false) ->
  outcome (pickPhysicalDevice_for drv devices s) = Ok tt
  /\ final (pickPhysicalDevice_for drv devices s) = s.
Proof.
  induction devices as [|d rest IH]; intros Hall; [done|].
  cbn [pickPhysicalDevice_for].
  erewrite bind_Ok by (apply Hall; now left).
  rewrite isDeviceSuitable_final. cbn [outcome final].
  apply IH. intros d' Hd'. apply Hall. now right.
Qed.

Lemma pickPhysicalDevice_for_first drv devices s :
  outcome (pickPhysicalDevice_for drv devices s) = Ok tt ->
  (final (pickPhysicalDevice_for drv devices s) = s
   /\ forall d, d ∈ devices -> outcome (isDeviceSuitable drv d s) = Ok false)
  \/ exists (k : nat) (d : Z),
       devices !! k = Some d
       /\ outcome (isDeviceSuitable drv d s) = Ok true
       /\ (forall (k' : nat) (d' : Z),
             (k' < k)%nat -> devices !! k' = Some d' ->
             outcome (isDeviceSuitable drv d' s) = Ok false)
       /\ final (pickPhysicalDevice_for drv devices s) = set_physicalDevice d s.
Proof.
  induction devices as [|d rest IH].
  { intros _. left. split; [reflexivity|]. intros d Hd. now apply elem_of_nil in Hd. }
  cbn [pickPhysicalDevice_for]. intros H.
  apply bind_Ok_inv in H as (b & Hsuit & H & ->).
  rewrite isDeviceSuitable_final in *.
  destruct b.
  - right. exists 0%nat, d. split; [reflexivity|]. split; [exact Hsuit|].
    split; [intros k' d' Hk'; lia|reflexivity].
  - destruct (IH H) as [[Hfinal Hall]|(k & d' & Hk & Hs & Hbefore & Hfinal)].
    + left. split; [exact Hfinal|]. intros d' Hd'.
      apply elem_of_cons in Hd' as [->|Hd']; [exact Hsuit|now apply Hall].
    + right. exists (S k), d'. split; [exact Hk|]. split; [exact Hs|].
      split; [|exact Hfinal].
      intros [|k'] d'' Hlt Hlook.
      * injection Hlook as <-. exact Hsuit.
      * apply (Hbefore k'); [lia|exact Hlook].
Qed.

Lemma pickPhysicalDevice_for_run drv devices s k d :
  devices !! k = Some d ->
  outcome (isDeviceSuitable drv d s) = Ok true ->
  (forall (k' : nat) (d' : Z),
     (k' < k)%nat -> devices !! k' = Some d' ->
     outcome (isDeviceSuitable drv d' s) = Ok false) ->
  outcome (pickPhysicalDevice_for drv devices s) = Ok tt
  /\ final (pickPhysicalDevice_for drv devices s) = set_physicalDevice d s.
Proof.
  revert k. induction devices as [|d0 rest IH]; intros k Hk Hs Hbefore; [done|].
  cbn [pickPhysicalDevice_for]. destruct k as [|k].
  - injection Hk as ->. erewrite bind_Ok by exact Hs.
    rewrite isDeviceSuitable_final. done.
  - erewrite bind_Ok by (apply (Hbefore 0%nat); [lia|reflexivity]).
    rewrite isDeviceSuitable_final. cbn [outcome final].
    apply (IH k); [exact Hk|exact Hs|].
    intros k' d' Hlt Hlook. apply (Hbefore (S k')); [lia|exact Hlook].
Qed.

Lemma isDeviceSuitable_queries drv dev s :
  Forall (fun c => isSurfaceQuery c = true) (calls (isDeviceSuitable drv dev s)).
Proof.
  apply Forall_forall. intros c Hin. unfold isDeviceSuitable in Hin.
  destruct (findQueueFamilies_total drv dev s) as (ind & q & Hfind & Hq).
  in_bind Hin.
  { rewrite Hfind in Hin. rewrite Forall_forall in Hq. now apply Hq. }
  rewrite Hfind in Hin. cbn [final] in Hin. clear Ho.
  in_bind Hin.
  { rewrite checkDeviceExtensionSupport_run in Hin. cbn zeta in Hin.
    destruct (bool_decide _) in Hin; no_calls Hin. }
  rewrite checkDeviceExtensionSupport_run in Hin. cbn zeta in Hin.
  assert (c ∈ calls ((fun swapAdequate => ret (isComplete ind && swapAdequate)) true s)
          -> False) as _ by (cbn [ret calls]; apply not_elem_of_nil).
  in_bind Hin; [|no_calls Hin].
  destruct a0; [|no_calls Hin].
  in_bind Hin; [|no_calls Hin].
  destruct (bool_decide _) in Hin; cbn [final] in Hin;
    rewrite querySwapChainSupport_run in Hin; cbn zeta in Hin;
    destruct (bool_decide _) in Hin; no_calls Hin.
Qed.

Lemma pickPhysicalDevice_for_queries drv devices s :
  Forall (fun c => isSurfaceQuery c = true) (calls (pickPhysicalDevice_for drv devices s)).
Proof.
  induction devices as [|d rest IH]; [constructor|].
  apply Forall_forall. intros c Hin. cbn [pickPhysicalDevice_for] in Hin.
  in_bind Hin.
  { pose proof (isDeviceSuitable_queries drv d s) as Hq.
    rewrite Forall_forall in Hq. now apply Hq. }
  rewrite isDeviceSuitable_final in Hin.
  destruct a; [no_calls Hin|].
  rewrite Forall_forall in IH. now apply IH.
Qed.

(** The steps of [pickPhysicalDevice] around its loop. *)
Lemma pickPhysicalDevice_run drv s :
  pickPhysicalDevice drv s =
  let r := vkEnumeratePhysicalDevices drv (instance s) in
  let loop := pickPhysicalDevice_for drv (snd r) s in
  if bool_decide (fst r = VK_SUCCESS) then
    if bool_decide (length (snd r) = 0%nat) then
      mkRun (Throw (runtime_error "Could not enumerate physical devices!")) s []
    else
      match outcome loop with
      | Ok _ =>
          if bool_decide (physicalDevice (final loop) = VK_NULL_HANDLE)
          then mkRun (Throw (runtime_error
                               "Could not find any suitable physical device"))
                 (final loop) (calls loop)
          else mkRun (Ok tt) (final loop) (calls loop)
      | Throw e => mkRun (Throw e) (final loop) (calls loop)
      | Undefined => mkRun Undefined (final loop) (calls loop)
      end
  else mkRun (Throw (runtime_error "Could not enumerate physical devices")) s [].
Proof.
  cbn zeta. unfold pickPhysicalDevice. step.
  erewrite bind_with by apply VK_ASSERT_run.
  destruct (bool_decide (fst (vkEnumeratePhysicalDevices drv (instance s))
                         = VK_SUCCESS)) eqn:Henum;
    cbn [outcome final calls app]; [|reflexivity].
  destruct (bool_decide (length (snd (vkEnumeratePhysicalDevices drv (instance s)))
                         = 0%nat)); [step; reflexivity|].
  step. erewrite bind_with by apply VK_ASSERT_run. rewrite Henum.
  cbn [outcome final calls app].
  erewrite bind_with by reflexivity.
  destruct (outcome (pickPhysicalDevice_for drv _ s)); [|reflexivity|reflexivity].
  step.
  destruct (bool_decide (physicalDevice _ = VK_NULL_HANDLE));
    cbn [throw ret outcome final calls]; rewrite ?app_nil_r; reflexivity.
Qed.

(** X9: on a fresh object (no adapter chosen), pickPhysicalDevice
    returns only by choosing the first adapter of the enumeration that
    isDeviceSuitable accepts: every adapter before it was rejected, the
    chosen one is not the null handle, only [physicalDevice] changes, and
    the only platform calls logged are surface-support queries. *)
Theorem pickPhysicalDevice_first_suitable (drv : Driver) (s : RayTracingApplication) :
  physicalDevice s = VK_NULL_HANDLE ->
  outcome (pickPhysicalDevice drv s) = Ok tt ->
  exists (k : nat) (d : Z),
    snd (vkEnumeratePhysicalDevices drv (instance s)) !! k = Some d
    /\ d <> VK_NULL_HANDLE
    /\ outcome (isDeviceSuitable drv d s) = Ok true
    /\ (forall (k' : nat) (d' : Z),
          (k' < k)%nat ->
          snd (vkEnumeratePhysicalDevices drv (instance s)) !! k' = Some d' ->
          outcome (isDeviceSuitable drv d' s) = Ok false)
    /\ final (pickPhysicalDevice drv s) = set_physicalDevice d s
    /\ Forall (fun c => isSurfaceQuery c = true) (calls (pickPhysicalDevice drv s)).
Proof.
  intros Hnull. rewrite pickPhysicalDevice_run. cbn zeta.
  destruct (bool_decide (fst _ = VK_SUCCESS)); [|discriminate].
  destruct (bool_decide (length _ = 0%nat)); [discriminate|].
  pose proof (pickPhysicalDevice_for_queries drv
                (snd (vkEnumeratePhysicalDevices drv (instance s))) s) as Hq.
  destruct (outcome (pickPhysicalDevice_for drv _ s)) as [[]| |] eqn:Hloop;
    [|discriminate|discriminate].
  destruct (pickPhysicalDevice_for_first _ _ _ Hloop)
    as [[Hfinal _]|(k & d & Hk & Hs & Hbefore & Hfinal)]; rewrite Hfinal.
  - rewrite bool_decide_eq_true_2 by done. discriminate.
  - cbn [set_physicalDevice physicalDevice]. case_bool_decide as Hd; [discriminate|].
    intros _. exists k, d. cbn [final calls]. done.
Qed.

Lemma pickPhysicalDevice_first_suitable_witness :
  exists (k : nat) (d : Z),
    snd (vkEnumeratePhysicalDevices Scenario.driver
           (instance (Scenario.app VK_NULL_HANDLE))) !! k = Some d
    /\ d <> VK_NULL_HANDLE
    /\ outcome (isDeviceSuitable Scenario.driver d (Scenario.app VK_NULL_HANDLE))
       = Ok true
    /\ (forall (k' : nat) (d' : Z),
          (k' < k)%nat ->
          snd (vkEnumeratePhysicalDevices Scenario.driver
                 (instance (Scenario.app VK_NULL_HANDLE))) !! k' = Some d' ->
          outcome (isDeviceSuitable Scenario.driver d' (Scenario.app VK_NULL_HANDLE))
          = Ok false)
    /\ final (pickPhysicalDevice Scenario.driver (Scenario.app VK_NULL_HANDLE))
       = set_physicalDevice d (Scenario.app VK_NULL_HANDLE)
    /\ Forall (fun c => isSurfaceQuery c = true)
         (calls (pickPhysicalDevice Scenario.driver (Scenario.app VK_NULL_HANDLE))).
Proof.
  apply (pickPhysicalDevice_first_suitable Scenario.driver
           (Scenario.app VK_NULL_HANDLE)).
  - reflexivity.
  - vm_compute. reflexivity.
Defined.

(** X10: pickPhysicalDevice throws "Could not enumerate physical
    devices" when the enumeration fails, the same message with a final
    "!" when it succeeds with no adapter, and, on a fresh object whose
    adapters are all rejected, "Could not find any suitable physical
    device" with the object unchanged. *)
Theorem pickPhysicalDevice_throws (drv : Driver) (s : RayTracingApplication) :
  let r := vkEnumeratePhysicalDevices drv (instance s) in
  (fst r <> VK_SUCCESS ->
   pickPhysicalDevice drv s
   = mkRun (Throw (runtime_error "Could not enumerate physical devices")) s [])
  /\ (fst r = VK_SUCCESS -> snd r = [] ->
      pickPhysicalDevice drv s
      = mkRun (Throw (runtime_error "Could not enumerate physical devices!")) s [])
  /\ (fst r = VK_SUCCESS -> snd r <> [] ->
      physicalDevice s = VK_NULL_HANDLE ->
      (forall d : Z, d ∈ snd r -> outcome (isDeviceSuitable drv d s) = Ok false) ->
      outcome (pickPhysicalDevice drv s)
      = Throw (runtime_error "Could not find any suitable physical device")
      /\ final (pickPhysicalDevice drv s) = s).
Proof.
  intros r. subst r. rewrite pickPhysicalDevice_run. cbn zeta.
  split; [|split].
  - intros Hr. now rewrite bool_decide_eq_false_2.
  - intros Hr Hnil. rewrite bool_decide_eq_true_2 by done.
    rewrite Hnil. reflexivity.
  - intros Hr Hne Hnull Hall. rewrite bool_decide_eq_true_2 by done.
    rewrite bool_decide_eq_false_2
      by (destruct (snd (vkEnumeratePhysicalDevices drv (instance s))); done).
    destruct (pickPhysicalDevice_for_none drv _ s Hall) as [-> ->].
    rewrite bool_decide_eq_true_2 by done. done.
Qed.

(** X11: the converse of the selection: if the enumeration succeeds, the
    adapter at position [k] is suitable and not the null handle, and every
    adapter before it is rejected, then pickPhysicalDevice returns and
    stores exactly that adapter. *)
Theorem pickPhysicalDevice_selects
    (drv : Driver) (s : RayTracingApplication) (k : nat) (d : Z) :
  let r := vkEnumeratePhysicalDevices drv (instance s) in
  fst r = VK_SUCCESS ->
  snd r !! k = Some d ->
  d <> VK_NULL_HANDLE ->
  outcome (isDeviceSuitable drv d s) = Ok true ->
  (forall (k' : nat) (d' : Z),
     (k' < k)%nat -> snd r !! k' = Some d' ->
     outcome (isDeviceSuitable drv d' s) = Ok false) ->
  outcome (pickPhysicalDevice drv s) = Ok tt
  /\ final (pickPhysicalDevice drv s) = set_physicalDevice d s.
Proof.
  intros r Hr Hk Hd Hs Hbefore. subst r.
  rewrite pickPhysicalDevice_run. cbn zeta.
  rewrite bool_decide_eq_true_2 by done.
  rewrite bool_decide_eq_false_2.
  2:{ intros Hlen. apply nil_length_inv in Hlen. rewrite Hlen in Hk. done. }
  destruct (pickPhysicalDevice_for_run drv _ s k d Hk Hs Hbefore) as [-> ->].
  cbn [set_physicalDevice physicalDevice].
  rewrite bool_decide_eq_false_2 by done. done.
Qed.

Lemma pickPhysicalDevice_selects_witness :
  outcome (pickPhysicalDevice Scenario.driver (Scenario.app VK_NULL_HANDLE)) = Ok tt
  /\ final (pickPhysicalDevice Scenario.driver (Scenario.app VK_NULL_HANDLE))
     = set_physicalDevice 7 (Scenario.app VK_NULL_HANDLE).
Proof.
  apply (pickPhysicalDevice_selects Scenario.driver (Scenario.app VK_NULL_HANDLE)
           1%nat 7).
  - reflexivity.
  - reflexivity.
  - discriminate.
  - vm_compute. reflexivity.
  - intros [|k'] d' Hlt Hlook; [|lia].
    injection Hlook as <-. vm_compute. reflexivity.
Defined.

Lemma exists_last (Q : nat -> bool) (n : nat) :
  (exists k : nat, (k < n)%nat /\ Q k = true) ->
  exists k : nat,
    (k < n)%nat /\ Q k = true /\ forall k' : nat, (k < k' < n)%nat -> Q k' = false.
Proof.
  induction n as [|n IH]; intros (k & Hk & HQ); [lia|].
  destruct (Q n) eqn:Hn.
  - exists n. split; [lia|]. split; [done|]. intros k' ?; lia.
  - destruct IH as (k0 & Hk0 & HQ0 & Hlast).
    { exists k. split; [|done].
      destruct (decide (k = n)) as [->|]; [congruence|lia]. }
    exists k0. split; [lia|]. split; [done|]. intros k' Hk'.
    destruct (decide (k' = n)) as [->|]; [done|]. apply Hlast. lia.
Qed.

Lemma findQueueFamilies_last drv s dev :
  let props := vkGetPhysicalDeviceQueueFamilyProperties drv dev in
  Z.of_nat (length props) <= UINT32_MAX ->
  exists (n : nat) ind q,
    findQueueFamilies drv dev s = mkRun (Ok ind) s q
    /\ (n <= length props)%nat
    /\ ((n < length props)%nat -> isComplete ind = true)
    /\ last_among (advertisesGraphics drv dev) n (graphicsFamily ind)
    /\ last_among (canPresent drv dev (surface s)) n (presentFamily ind).
Proof.
  intros props Hlen.
  destruct (findQueueFamilies_for_spec drv dev (surface s)
              (advertisesGraphics drv dev) (canPresent drv dev (surface s))
              (fun k => eq_refl) props 0%nat (mkIndicies None None) s)
    as (n & ind & Hrun & Hn & _ & HlG & HlP & Hcomp & _).
  - intros k prop Hk. unfold advertisesGraphics. fold props. simpl. now rewrite Hk.
  - simpl. lia.
  - done.
  - exists n, ind. eexists. split.
    { unfold findQueueFamilies. step. fold props.
      change 0 with (Z.of_nat 0). rewrite Hrun. reflexivity. }
    split; [lia|]. split; [intros; apply Hcomp; lia|].
    split; now apply last_hit_None.
Qed.

(** X12: the indices findQueueFamilies returns are real: a graphics family
    is the index of a listed family whose flags have the graphics bit, and
    a present family is an index below the family count for which the
    surface-support query answers true. *)
Theorem findQueueFamilies_sound
    (drv : Driver) (s : RayTracingApplication) (dev : Z) (ind : QueueFamilyIndicies) :
  let props := vkGetPhysicalDeviceQueueFamilyProperties drv dev in
  Z.of_nat (length props) <= UINT32_MAX ->
  outcome (findQueueFamilies drv dev s) = Ok ind ->
  (forall j : Z,
     graphicsFamily ind = Some j ->
     0 <= j < Z.of_nat (length props)
     /\ exists prop,
          props !! Z.to_nat j = Some prop
          /\ Z.land (queueFlags prop) VK_QUEUE_GRAPHICS_BIT <> 0)
  /\ (forall j : Z,
        presentFamily ind = Some j ->
        0 <= j < Z.of_nat (length props)
        /\ vkGetPhysicalDeviceSurfaceSupportKHR drv dev j (surface s) = true).
Proof.
  intros props Hlen Hout.
  destruct (findQueueFamilies_last drv s dev Hlen)
    as (n & ind' & q & Hrun & Hn & _ & HG & HP).
  rewrite Hrun in Hout. injection Hout as ->. fold props in Hn.
  split; intros j Hj.
  - apply HG in Hj as (k & -> & Hk & HQ & _). split; [lia|].
    rewrite Nat2Z.id. unfold advertisesGraphics in HQ. fold props in HQ.
    destruct (props !! k) as [prop|]; [|discriminate].
    exists prop. split; [reflexivity|].
    unfold graphicsBit in HQ. apply negb_true_iff, Z.eqb_neq in HQ. exact HQ.
  - apply HP in Hj as (k & -> & Hk & HQ & _). split; [lia|exact HQ].
Qed.

Lemma findQueueFamilies_sound_witness :
  (forall j : Z,
     graphicsFamily (mkIndicies (Some 1) (Some 2)) = Some j ->
     0 <= j < Z.of_nat (length (vkGetPhysicalDeviceQueueFamilyProperties
                                  Scenario.driver 7))
     /\ exists prop,
          vkGetPhysicalDeviceQueueFamilyProperties Scenario.driver 7 !! Z.to_nat j
          = Some prop
          /\ Z.land (queueFlags prop) VK_QUEUE_GRAPHICS_BIT <> 0)
  /\ (forall j : Z,
        presentFamily (mkIndicies (Some 1) (Some 2)) = Some j ->
        0 <= j < Z.of_nat (length (vkGetPhysicalDeviceQueueFamilyProperties
                                     Scenario.driver 7))
        /\ vkGetPhysicalDeviceSurfaceSupportKHR Scenario.driver 7 j
             (surface (Scenario.app 7)) = true).
Proof.
  apply (findQueueFamilies_sound Scenario.driver (Scenario.app 7) 7
           (mkIndicies (Some 1) (Some 2))).
  - vm_compute. discriminate.
  - vm_compute. reflexivity.
Defined.

(** X13: findQueueFamilies returns complete indices exactly when the
    adapter has some family with the graphics bit and some family that can
    present to the surface (not necessarily the same one). *)
Theorem findQueueFamilies_complete_iff
    (drv : Driver) (s : RayTracingApplication) (dev : Z) (ind : QueueFamilyIndicies) :
  let count := length (vkGetPhysicalDeviceQueueFamilyProperties drv dev) in
  Z.of_nat count <= UINT32_MAX ->
  outcome (findQueueFamilies drv dev s) = Ok ind ->
  isComplete ind = true
  <-> (exists k : nat, (k < count)%nat /\ advertisesGraphics drv dev k = true)
      /\ (exists k : nat, (k < count)%nat /\ canPresent drv dev (surface s) k = true).
Proof.
  intros count Hlen Hout.
  destruct (findQueueFamilies_last drv s dev Hlen)
    as (n & ind' & q & Hrun & Hn & Hstop & HG & HP).
  rewrite Hrun in Hout. injection Hout as ->. fold count in Hn, Hstop.
  split.
  - intros Hc. unfold isComplete in Hc. apply andb_true_iff in Hc as [Hg Hp].
    destruct (last_among_has_value _ _ _ HG Hg) as (k & Hk & HQ).
    destruct (last_among_has_value _ _ _ HP Hp) as (k' & Hk' & HQ').
    split; [exists k|exists k']; split; (lia || done).
  - intros [Hg Hp].
    destruct (decide (n < count)%nat) as [Hlt|Hge]; [now apply Hstop|].
    assert (n = count) as -> by lia.
    apply exists_last in Hg as (k & Hk & HQ & Hl).
    apply exists_last in Hp as (k' & Hk' & HQ' & Hl').
    unfold isComplete.
    rewrite (proj2 (HG (Z.of_nat k))) by (exists k; done).
    rewrite (proj2 (HP (Z.of_nat k'))) by (exists k'; done).
    reflexivity.
Qed.

Lemma findQueueFamilies_complete_iff_witness :
  isComplete (mkIndicies (Some 0) None) = true
  <-> (exists k : nat,
         (k < length (vkGetPhysicalDeviceQueueFamilyProperties Scenario.driver 9))%nat
         /\ advertisesGraphics Scenario.driver 9 k = true)
      /\ (exists k : nat,
            (k < length (vkGetPhysicalDeviceQueueFamilyProperties Scenario.driver 9))%nat
            /\ canPresent Scenario.driver 9 (surface (Scenario.app 9)) k = true).
Proof.
  apply (findQueueFamilies_complete_iff Scenario.driver (Scenario.app 9) 9
           (mkIndicies (Some 0) None)).
  - vm_compute. discriminate.
  - vm_compute. reflexivity.
Defined.

(** ** Instance bootstrap *)

(** Proves that the names of a concrete list fit the name arrays. *)
Ltac fits :=
  repeat (constructor; [unfold fitsNameArray; simpl; lia|]); constructor.

Lemma strncmp_refl s n : strncmp s s n = 0.
Proof.
  revert s. induction n as [|n IH]; intros [|c s]; cbn [strncmp]; try reflexivity.
  rewrite Ascii.eqb_refl. apply IH.
Qed.

Lemma strncmp_short_l a b n :
  (String.length a < n)%nat -> strncmp a b n = 0 -> a = b.
Proof.
  revert a b. induction n as [|n IH]; intros a b Hlen; [lia|].
  destruct a as [|c1 a], b as [|c2 b]; cbn [strncmp]; try done.
  destruct (Ascii.eqb_spec c1 c2) as [->|Hne].
  - intros H. f_equal. apply IH; [cbn [String.length] in Hlen; lia|exact H].
  - destruct (_ <? _)%nat; discriminate.
Qed.

Lemma strncmp_short_r a b n :
  (String.length b < n)%nat -> strncmp a b n = 0 -> a = b.
Proof.
  revert a b. induction n as [|n IH]; intros a b Hlen; [lia|].
  destruct a as [|c1 a], b as [|c2 b]; cbn [strncmp]; try done.
  destruct (Ascii.eqb_spec c1 c2) as [->|Hne].
  - intros H. f_equal. apply IH; [cbn [String.length] in Hlen; lia|exact H].
  - destruct (_ <? _)%nat; discriminate.
Qed.

Lemma checkValidationLayerSupport_found_iff name layers :
  Forall (fun layer => fitsNameArray (layerName layer)) layers ->
  checkValidationLayerSupport_found name layers = true
  <-> name ∈ layerName <$> layers.
Proof.
  induction 1 as [|layer layers Hfit _ IH]; cbn [checkValidationLayerSupport_found].
  - split; [discriminate|]. intros H. now apply elem_of_nil in H.
  - cbn [fmap list_fmap]. rewrite elem_of_cons.
    destruct (Z.eqb_spec (strncmp name (layerName layer) 256) 0) as [Hz|Hnz].
    + split; [|done]. intros _. left. now apply (strncmp_short_r _ _ 256).
    + rewrite IH. split; [now right|]. intros [->|?]; [|done].
      now rewrite strncmp_refl in Hnz.
Qed.

Lemma checkValidationLayerSupport_for_iff requested layers :
  Forall (fun layer => fitsNameArray (layerName layer)) layers ->
  checkValidationLayerSupport_for requested layers = true
  <-> forall name, name ∈ requested -> name ∈ layerName <$> layers.
Proof.
  intros Hfit. induction requested as [|name rest IH];
    cbn [checkValidationLayerSupport_for].
  - split; [|done]. intros _ name H. now apply elem_of_nil in H.
  - destruct (checkValidationLayerSupport_found name layers) eqn:Hfound; cbn [negb].
    + apply checkValidationLayerSupport_found_iff in Hfound; [|done].
      rewrite IH. split.
      * intros H x Hx. apply elem_of_cons in Hx as [->|Hx]; auto.
      * intros H x Hx. apply H. now right.
    + split; [discriminate|]. intros H.
      assert (name ∈ layerName <$> layers) as Hin by (apply H; now left).
      apply checkValidationLayerSupport_found_iff in Hin; [|done]. congruence.
Qed.

Lemma checkValidationLayerSupport_run bs s :
  checkValidationLayerSupport bs s =
  let r := vkEnumerateInstanceLayerProperties bs in
  if bool_decide (fst r = VK_SUCCESS)
  then mkRun (Ok (checkValidationLayerSupport_for (validationLayers s) (snd r))) s []
  else mkRun (Throw (runtime_error "Failed to enumerate Layer Properties")) s [].
Proof.
  cbn zeta. unfold checkValidationLayerSupport.
  erewrite bind_with by apply VK_ASSERT_run.
  destruct (bool_decide (fst (vkEnumerateInstanceLayerProperties bs) = VK_SUCCESS))
    eqn:Hr; cbn [outcome final calls app]; [|reflexivity].
  erewrite bind_with by apply VK_ASSERT_run. rewrite Hr.
  cbn [outcome final calls app]. step. reflexivity.
Qed.

(** X14: checkValidationLayerSupport throws "Failed to enumerate Layer
    Properties" when the enumeration fails; otherwise it returns, leaving
    the object alone, and its answer is true exactly when every requested
    validation layer is among the available layer names (names that fit
    the 256-byte name arrays of the API). *)
Theorem checkValidationLayerSupport_all (bs : Bootstrap) (s : RayTracingApplication) :
  let r := vkEnumerateInstanceLayerProperties bs in
  (fst r <> VK_SUCCESS ->
   checkValidationLayerSupport bs s
   = mkRun (Throw (runtime_error "Failed to enumerate Layer Properties")) s [])
  /\ (fst r = VK_SUCCESS ->
      Forall (fun layer => fitsNameArray (layerName layer)) (snd r) ->
      exists b : bool,
        checkValidationLayerSupport bs s = mkRun (Ok b) s []
        /\ (b = true <->
            forall name : string,
              name ∈ validationLayers s -> name ∈ layerName <$> snd r)).
Proof.
  intros r. subst r. rewrite checkValidationLayerSupport_run. cbn zeta. split.
  - intros Hr. now rewrite bool_decide_eq_false_2.
  - intros Hr Hfit. rewrite bool_decide_eq_true_2 by done.
    eexists. split; [reflexivity|]. now apply checkValidationLayerSupport_for_iff.
Qed.

Lemma checkAndAddInstanceExtensionSupport_found_iff reqExt extensions :
  Forall (fun ext => fitsNameArray (extensionName ext)) extensions ->
  checkAndAddInstanceExtensionSupport_found reqExt extensions = true
  <-> reqExt ∈ extensionName <$> extensions.
Proof.
  induction 1 as [|ext extensions Hfit _ IH];
    cbn [checkAndAddInstanceExtensionSupport_found].
  - split; [discriminate|]. intros H. now apply elem_of_nil in H.
  - cbn [fmap list_fmap]. rewrite elem_of_cons.
    destruct (Z.eqb_spec (strncmp (extensionName ext) reqExt 256) 0) as [Hz|Hnz].
    + split; [|done]. intros _. left. symmetry.
      now apply (strncmp_short_l _ _ 256).
    + rewrite IH. split; [now right|]. intros [->|?]; [|done].
      now rewrite strncmp_refl in Hnz.
Qed.

Lemma checkAndAddInstanceExtensionSupport_add_spec extensions :
  Forall (fun ext => fitsNameArray (extensionName ext)) extensions ->
  checkAndAddInstanceExtensionSupport_add extensions
  = if bool_decide (VK_KHR_GET_PHYSICAL_DEVICE_PROPERTIES_2_EXTENSION_NAME
                    ∈ extensionName <$> extensions)
    then [VK_KHR_GET_PHYSICAL_DEVICE_PROPERTIES_2_EXTENSION_NAME] else [].
Proof.
  induction 1 as [|ext extensions Hfit _ IH];
    cbn [checkAndAddInstanceExtensionSupport_add]; [reflexivity|].
  cbn [fmap list_fmap].
  destruct (Z.eqb_spec
              (strncmp (extensionName ext)
                 VK_KHR_GET_PHYSICAL_DEVICE_PROPERTIES_2_EXTENSION_NAME 256) 0)
    as [Hz|Hnz].
  - apply (strncmp_short_l _ _ 256) in Hz; [|exact Hfit].
    rewrite bool_decide_eq_true_2; [reflexivity|]. rewrite Hz. now left.
  - rewrite IH. apply (f_equal (fun b : bool => if b then _ else _)).
    apply bool_decide_ext. rewrite elem_of_cons. split; [now right|].
    intros [Heq|?]; [|done]. rewrite <- Heq, strncmp_refl in Hnz. done.
Qed.

Lemma checkAndAddInstanceExtensionSupport_for_found required extensions s :
  (forall reqExt, reqExt ∈ required ->
                  checkAndAddInstanceExtensionSupport_found reqExt extensions = true) ->
  checkAndAddInstanceExtensionSupport_for required extensions s = mkRun (Ok tt) s [].
Proof.
  induction required as [|reqExt rest IH]; intros Hall; [reflexivity|].
  cbn [checkAndAddInstanceExtensionSupport_for].
  rewrite (Hall reqExt) by now left. cbn [negb].
  apply IH. intros x Hx. apply Hall. now right.
Qed.

Lemma checkAndAddInstanceExtensionSupport_for_missing pre missing post extensions s :
  (forall reqExt, reqExt ∈ pre ->
                  checkAndAddInstanceExtensionSupport_found reqExt extensions = true) ->
  checkAndAddInstanceExtensionSupport_found missing extensions = false ->
  checkAndAddInstanceExtensionSupport_for (pre ++ missing :: post) extensions s
  = mkRun (Throw (runtime_error
                    ("Could not find required GLFW Extension: " +:+ missing))) s [].
Proof.
  induction pre as [|reqExt rest IH]; intros Hall Hmiss;
    cbn [app checkAndAddInstanceExtensionSupport_for].
  - rewrite Hmiss. reflexivity.
  - rewrite (Hall reqExt) by now left. cbn [negb].
    apply IH; [|exact Hmiss]. intros x Hx. apply Hall. now right.
Qed.

Lemma checkAndAddInstanceExtensionSupport_for_cases required extensions s :
  ((forall reqExt, reqExt ∈ required ->
                   checkAndAddInstanceExtensionSupport_found reqExt extensions = true)
   /\ checkAndAddInstanceExtensionSupport_for required extensions s
      = mkRun (Ok tt) s [])
  \/ exists pre missing post,
       required = pre ++ missing :: post
       /\ (forall reqExt, reqExt ∈ pre ->
             checkAndAddInstanceExtensionSupport_found reqExt extensions = true)
       /\ checkAndAddInstanceExtensionSupport_found missing extensions = false
       /\ checkAndAddInstanceExtensionSupport_for required extensions s
          = mkRun (Throw (runtime_error
                            ("Could not find required GLFW Extension: "
                             +:+ missing))) s [].
Proof.
  induction required as [|reqExt rest IH].
  - left. split; [|reflexivity]. intros x Hx. now apply elem_of_nil in Hx.
  - destruct (checkAndAddInstanceExtensionSupport_found reqExt extensions) eqn:Hfound.
    + destruct IH as [[Hall Hrun]|(pre & missing & post & -> & Hall & Hmiss & Hrun)].
      * left. split.
        { intros x Hx. apply elem_of_cons in Hx as [->|Hx]; auto. }
        cbn [checkAndAddInstanceExtensionSupport_for]. rewrite Hfound. exact Hrun.
      * right. exists (reqExt :: pre), missing, post. split; [reflexivity|].
        split.
        { intros x Hx. apply elem_of_cons in Hx as [->|Hx]; auto. }
        split; [exact Hmiss|].
        cbn [checkAndAddInstanceExtensionSupport_for]. rewrite Hfound. exact Hrun.
    + right. exists [], reqExt, rest. split; [reflexivity|].
      split; [intros x Hx; now apply elem_of_nil in Hx|]. split; [exact Hfound|].
      cbn [checkAndAddInstanceExtensionSupport_for]. now rewrite Hfound.
Qed.

Lemma checkAndAddInstanceExtensionSupport_run bs required s :
  checkAndAddInstanceExtensionSupport bs required s =
  let r := vkEnumerateInstanceExtensionProperties bs in
  if bool_decide (fst r = VK_SUCCESS) then
    match outcome (checkAndAddInstanceExtensionSupport_for required (snd r) s) with
    | Ok _ =>
        mkRun (Ok (required ++ checkAndAddInstanceExtensionSupport_add (snd r))) s []
    | Throw e => mkRun (Throw e) s []
    | Undefined => mkRun Undefined s []
    end
  else mkRun (Throw (runtime_error "Failed to enumerate Instance Extensions!")) s [].
Proof.
  cbn zeta. unfold checkAndAddInstanceExtensionSupport.
  erewrite bind_with by apply VK_ASSERT_run.
  destruct (bool_decide (fst (vkEnumerateInstanceExtensionProperties bs) = VK_SUCCESS))
    eqn:Hr; cbn [outcome final calls app]; [|reflexivity].
  erewrite bind_with by apply VK_ASSERT_run. rewrite Hr.
  cbn [outcome final calls app].
  destruct (checkAndAddInstanceExtensionSupport_for_cases required
              (snd (vkEnumerateInstanceExtensionProperties bs)) s)
    as [[_ Hrun]|(pre & missing & post & _ & _ & _ & Hrun)];
    erewrite bind_with by exact Hrun; rewrite Hrun; reflexivity.
Qed.

(** X15: when every required instance extension is available,
    checkAndAddInstanceExtensionSupport returns the required extensions in
    their order, followed by VK_KHR_get_physical_device_properties2
    exactly when the loader offers it (once, however often it is
    listed); the available names fit the 256-byte name arrays. *)
Theorem checkAndAddInstanceExtensionSupport_adds
    (bs : Bootstrap) (s : RayTracingApplication) (required : list string) :
  let r := vkEnumerateInstanceExtensionProperties bs in
  let available := extensionName <$> snd r in
  fst r = VK_SUCCESS ->
  Forall (fun ext => fitsNameArray (extensionName ext)) (snd r) ->
  (forall reqExt : string, reqExt ∈ required -> reqExt ∈ available) ->
  checkAndAddInstanceExtensionSupport bs required s
  = mkRun
      (Ok (required ++
           if bool_decide (VK_KHR_GET_PHYSICAL_DEVICE_PROPERTIES_2_EXTENSION_NAME
                           ∈ available)
           then [VK_KHR_GET_PHYSICAL_DEVICE_PROPERTIES_2_EXTENSION_NAME] else []))
      s [].
Proof.
  intros r available Hr Hfit Hall. subst r available.
  rewrite checkAndAddInstanceExtensionSupport_run. cbn zeta.
  rewrite bool_decide_eq_true_2 by done.
  rewrite checkAndAddInstanceExtensionSupport_for_found.
  2:{ intros x Hx. apply checkAndAddInstanceExtensionSupport_found_iff; auto. }
  cbn [outcome]. now rewrite checkAndAddInstanceExtensionSupport_add_spec.
Qed.

Lemma checkAndAddInstanceExtensionSupport_adds_witness :
  checkAndAddInstanceExtensionSupport Boot.loader
    ["VK_KHR_surface"; "VK_KHR_xcb_surface"] (Boot.fresh true)
  = mkRun
      (Ok (["VK_KHR_surface"; "VK_KHR_xcb_surface"] ++
           if bool_decide
                (VK_KHR_GET_PHYSICAL_DEVICE_PROPERTIES_2_EXTENSION_NAME
                 ∈ extensionName
                   <$> snd (vkEnumerateInstanceExtensionProperties Boot.loader))
           then [VK_KHR_GET_PHYSICAL_DEVICE_PROPERTIES_2_EXTENSION_NAME] else []))
      (Boot.fresh true) [].
Proof.
  apply (checkAndAddInstanceExtensionSupport_adds Boot.loader (Boot.fresh true)).
  - reflexivity.
  - fits.
  - apply Forall_forall. repeat constructor.
Defined.

(** X16: checkAndAddInstanceExtensionSupport throws at the first
    required extension that is not available, naming it in the message,
    and leaves the object unchanged (available names fitting the 256-byte
    name arrays). *)
Theorem checkAndAddInstanceExtensionSupport_missing
    (bs : Bootstrap) (s : RayTracingApplication)
    (pre post : list string) (missing : string) :
  let r := vkEnumerateInstanceExtensionProperties bs in
  let available := extensionName <$> snd r in
  fst r = VK_SUCCESS ->
  Forall (fun ext => fitsNameArray (extensionName ext)) (snd r) ->
  (forall reqExt : string, reqExt ∈ pre -> reqExt ∈ available) ->
  missing ∉ available ->
  checkAndAddInstanceExtensionSupport bs (pre ++ missing :: post) s
  = mkRun (Throw (runtime_error
                    ("Could not find required GLFW Extension: " +:+ missing))) s [].
Proof.
  intros r available Hr Hfit Hall Hmiss. subst r available.
  rewrite checkAndAddInstanceExtensionSupport_run. cbn zeta.
  rewrite bool_decide_eq_true_2 by done.
  rewrite checkAndAddInstanceExtensionSupport_for_missing; [reflexivity| |].
  - intros x Hx. apply checkAndAddInstanceExtensionSupport_found_iff; auto.
  - apply not_true_is_false. intros Hfound.
    apply checkAndAddInstanceExtensionSupport_found_iff in Hfound; done.
Qed.

Lemma checkAndAddInstanceExtensionSupport_missing_witness :
  checkAndAddInstanceExtensionSupport Boot.headless
    (["VK_KHR_surface"] ++ "VK_KHR_xcb_surface"
                           :: ["VK_KHR_portability_enumeration"])
    (Boot.fresh false)
  = mkRun (Throw (runtime_error
                    ("Could not find required GLFW Extension: "
                     +:+ "VK_KHR_xcb_surface"))) (Boot.fresh false) [].
Proof.
  apply (checkAndAddInstanceExtensionSupport_missing Boot.headless (Boot.fresh false)).
  - reflexivity.
  - fits.
  - apply Forall_forall. repeat constructor.
  - apply (bool_decide_unpack _). vm_compute. exact I.
Defined.

Lemma checkAndAddInstanceExtensionSupport_pure bs required s :
  final (checkAndAddInstanceExtensionSupport bs required s) = s
  /\ calls (checkAndAddInstanceExtensionSupport bs required s) = [].
Proof.
  rewrite checkAndAddInstanceExtensionSupport_run. cbn zeta.
  destruct (bool_decide _); [|now split].
  destruct (outcome _); now split.
Qed.

Lemma getRequiredExtensions_run bs s :
  getRequiredExtensions bs s
  = mkRun
      (Ok ((if enableValidationLayers s
            then glfwGetRequiredInstanceExtensions bs
                 ++ [VK_EXT_DEBUG_UTILS_EXTENSION_NAME]
            else glfwGetRequiredInstanceExtensions bs)
           ++ [VK_KHR_PORTABILITY_ENUMERATION_EXTENSION_NAME])) s [].
Proof. unfold getRequiredExtensions. step. reflexivity. Qed.

(** The validation-layer guard at the head of [createInstance]. *)
Lemma createInstance_guard_run bs s :
  (if enableValidationLayers s then
     bind (checkValidationLayerSupport bs)
       (fun supported =>
          if negb supported
          then throw (runtime_error "Validation Layer requested, but not available!")
          else ret tt)
   else ret tt) s
  = if enableValidationLayers s then
      let r := vkEnumerateInstanceLayerProperties bs in
      if bool_decide (fst r = VK_SUCCESS) then
        if checkValidationLayerSupport_for (validationLayers s) (snd r)
        then mkRun (Ok tt) s []
        else mkRun (Throw (runtime_error
                             "Validation Layer requested, but not available!")) s []
      else mkRun (Throw (runtime_error "Failed to enumerate Layer Properties")) s []
    else mkRun (Ok tt) s [].
Proof.
  destruct (enableValidationLayers s); [|reflexivity].
  erewrite bind_with by apply checkValidationLayerSupport_run. cbn zeta.
  destruct (bool_decide _); cbn [outcome final calls app]; [|reflexivity].
  destruct (checkValidationLayerSupport_for _ _); reflexivity.
Qed.

Lemma createInstance_run bs s :
  createInstance bs s =
  let layers := vkEnumerateInstanceLayerProperties bs in
  let required :=
    (if enableValidationLayers s
     then glfwGetRequiredInstanceExtensions bs ++ [VK_EXT_DEBUG_UTILS_EXTENSION_NAME]
     else glfwGetRequiredInstanceExtensions bs)
    ++ [VK_KHR_PORTABILITY_ENUMERATION_EXTENSION_NAME] in
  let guard :=
    if enableValidationLayers s then
      if bool_decide (fst layers = VK_SUCCESS) then
        if checkValidationLayerSupport_for (validationLayers s) (snd layers)
        then mkRun (Ok tt) s []
        else mkRun (Throw (runtime_error
                             "Validation Layer requested, but not available!")) s []
      else mkRun (Throw (runtime_error "Failed to enumerate Layer Properties")) s []
    else mkRun (Ok tt) s [] in
  match outcome guard with
  | Ok _ =>
      match outcome (checkAndAddInstanceExtensionSupport bs required s) with
      | Ok enabled =>
          if enableValidationLayers s then mkRun Undefined s []
          else
            let ci :=
              VkInstanceCreateInfo.mk
                (VkApplicationInfo.mk "Vulkan Raytracing" "No Engine"
                   (VK_MAKE_VERSION 0 0 1) VK_API_VERSION_1_0 (VK_MAKE_VERSION 0 0 1))
                (Z.lor 0 VK_INSTANCE_CREATE_ENUMERATE_PORTABILITY_BIT_KHR)
                enabled [] nullptr in
            if bool_decide (fst (vkCreateInstance bs ci) = VK_SUCCESS)
            then mkRun (Ok tt) (set_instance (snd (vkCreateInstance bs ci)) s) []
            else mkRun (Throw (runtime_error "Failed to initialize Vulkan Instance!"))
                   s []
      | Throw e => mkRun (Throw e) s []
      | Undefined => mkRun Undefined s []
      end
  | Throw e => mkRun (Throw e) s []
  | Undefined => mkRun Undefined s []
  end.
Proof.
  cbn zeta. unfold createInstance. step.
  erewrite bind_with by apply createInstance_guard_run. cbn zeta.
  destruct (enableValidationLayers s) eqn:Hen.
  - destruct (bool_decide (fst (vkEnumerateInstanceLayerProperties bs) = VK_SUCCESS));
      cbn [outcome final calls app]; [|reflexivity].
    destruct (checkValidationLayerSupport_for _ _);
      cbn [outcome final calls app]; [|reflexivity].
    erewrite bind_with by apply getRequiredExtensions_run. rewrite Hen.
    cbn [outcome final calls app].
    destruct (checkAndAddInstanceExtensionSupport_pure bs
                ((glfwGetRequiredInstanceExtensions bs
                  ++ [VK_EXT_DEBUG_UTILS_EXTENSION_NAME])
                 ++ [VK_KHR_PORTABILITY_ENUMERATION_EXTENSION_NAME]) s)
      as [Hfinal Hcalls].
    erewrite bind_with by reflexivity. rewrite Hfinal, Hcalls.
    destruct (outcome (checkAndAddInstanceExtensionSupport bs _ s));
      cbn [outcome final calls app]; [|reflexivity|reflexivity].
    step. erewrite bind_with by reflexivity.
    cbn [vkCreateInstance_reads VkInstanceCreateInfo.pNext msgCreateInfo_after_block
         undefined outcome final calls app].
    reflexivity.
  - cbn [outcome final calls app].
    erewrite bind_with by apply getRequiredExtensions_run. rewrite Hen.
    cbn [outcome final calls app].
    destruct (checkAndAddInstanceExtensionSupport_pure bs
                (glfwGetRequiredInstanceExtensions bs
                 ++ [VK_KHR_PORTABILITY_ENUMERATION_EXTENSION_NAME]) s)
      as [Hfinal Hcalls].
    erewrite bind_with by reflexivity. rewrite Hfinal, Hcalls.
    destruct (outcome (checkAndAddInstanceExtensionSupport bs _ s));
      cbn [outcome final calls app]; [|reflexivity|reflexivity].
    step. erewrite bind_with by reflexivity.
    cbn [vkCreateInstance_reads VkInstanceCreateInfo.pNext ret
         outcome final calls app].
    erewrite bind_with by apply VK_ASSERT_run. cbn zeta.
    destruct (bool_decide (fst (vkCreateInstance bs _) = VK_SUCCESS));
      cbn [outcome final calls app modify]; reflexivity.
Qed.

Lemma checkAndAddInstanceExtensionSupport_Ok_inv bs required s enabled :
  outcome (checkAndAddInstanceExtensionSupport bs required s) = Ok enabled ->
  let r := vkEnumerateInstanceExtensionProperties bs in
  fst r = VK_SUCCESS
  /\ enabled = required ++ checkAndAddInstanceExtensionSupport_add (snd r)
  /\ forall reqExt, reqExt ∈ required ->
       checkAndAddInstanceExtensionSupport_found reqExt (snd r) = true.
Proof.
  rewrite checkAndAddInstanceExtensionSupport_run. cbn zeta.
  destruct (bool_decide (fst (vkEnumerateInstanceExtensionProperties bs) = VK_SUCCESS))
    eqn:Hr; [|discriminate].
  apply bool_decide_eq_true_1 in Hr.
  destruct (checkAndAddInstanceExtensionSupport_for_cases required
              (snd (vkEnumerateInstanceExtensionProperties bs)) s)
    as [[Hall Hrun]|(pre & missing & post & _ & _ & _ & Hrun)]; rewrite Hrun;
    cbn [outcome]; [|discriminate].
  intros [= <-]. auto.
Qed.

Lemma createInstance_Ok_inv bs s :
  outcome (createInstance bs s) = Ok tt ->
  enableValidationLayers s = false
  /\ exists enabled : list string,
       let ci :=
         VkInstanceCreateInfo.mk
           (VkApplicationInfo.mk "Vulkan Raytracing" "No Engine"
              (VK_MAKE_VERSION 0 0 1) VK_API_VERSION_1_0 (VK_MAKE_VERSION 0 0 1))
           (Z.lor 0 VK_INSTANCE_CREATE_ENUMERATE_PORTABILITY_BIT_KHR)
           enabled [] nullptr in
       outcome (checkAndAddInstanceExtensionSupport bs
                  ((if enableValidationLayers s
                    then glfwGetRequiredInstanceExtensions bs
                         ++ [VK_EXT_DEBUG_UTILS_EXTENSION_NAME]
                    else glfwGetRequiredInstanceExtensions bs)
                   ++ [VK_KHR_PORTABILITY_ENUMERATION_EXTENSION_NAME]) s) = Ok enabled
       /\ fst (vkCreateInstance bs ci) = VK_SUCCESS
       /\ final (createInstance bs s) = set_instance (snd (vkCreateInstance bs ci)) s.
Proof.
  rewrite createInstance_run. cbn zeta.
  destruct (enableValidationLayers s).
  { destruct (bool_decide _); [|discriminate].
    destruct (checkValidationLayerSupport_for _ _); [|discriminate].
    cbn [outcome].
    destruct (outcome (checkAndAddInstanceExtensionSupport bs _ s)); discriminate. }
  cbn [outcome]. intros H. split; [reflexivity|].
  destruct (outcome (checkAndAddInstanceExtensionSupport bs _ s)) as [enabled|e|];
    [|discriminate|discriminate].
  exists enabled. cbn zeta. split; [reflexivity|].
  destruct (bool_decide (fst (vkCreateInstance bs _) = VK_SUCCESS)) eqn:Hci;
    [|discriminate].
  apply bool_decide_eq_true_1 in Hci. auto.
Qed.

(** X17: when createInstance returns, vkCreateInstance succeeded on a
    create-info whose enabled extensions are all available, include every
    extension GLFW requires and VK_KHR_portability_enumeration, include
    VK_EXT_debug_utils exactly when validation is enabled (or GLFW asks for
    it), include VK_KHR_get_physical_device_properties2 when available, and
    whose flags carry the portability-enumeration bit; the handle returned
    is stored in [instance] and nothing else changes (available names
    fitting the 256-byte name arrays). *)
Theorem createInstance_enabled (bs : Bootstrap) (s : RayTracingApplication) :
  let available := extensionName <$> snd (vkEnumerateInstanceExtensionProperties bs) in
  outcome (createInstance bs s) = Ok tt ->
  Forall (fun ext => fitsNameArray (extensionName ext))
    (snd (vkEnumerateInstanceExtensionProperties bs)) ->
  exists ci : VkInstanceCreateInfo.t,
    let enabled := VkInstanceCreateInfo.ppEnabledExtensionNames ci in
    fst (vkCreateInstance bs ci) = VK_SUCCESS
    /\ final (createInstance bs s) = set_instance (snd (vkCreateInstance bs ci)) s
    /\ (forall name : string, name ∈ enabled -> name ∈ available)
    /\ (forall name : string,
          name ∈ glfwGetRequiredInstanceExtensions bs -> name ∈ enabled)
    /\ VK_KHR_PORTABILITY_ENUMERATION_EXTENSION_NAME ∈ enabled
    /\ (VK_EXT_DEBUG_UTILS_EXTENSION_NAME ∈ enabled <->
        enableValidationLayers s = true
        \/ VK_EXT_DEBUG_UTILS_EXTENSION_NAME ∈ glfwGetRequiredInstanceExtensions bs)
    /\ (VK_KHR_GET_PHYSICAL_DEVICE_PROPERTIES_2_EXTENSION_NAME ∈ available ->
        VK_KHR_GET_PHYSICAL_DEVICE_PROPERTIES_2_EXTENSION_NAME ∈ enabled)
    /\ Z.land (VkInstanceCreateInfo.flags ci)
         VK_INSTANCE_CREATE_ENUMERATE_PORTABILITY_BIT_KHR
       = VK_INSTANCE_CREATE_ENUMERATE_PORTABILITY_BIT_KHR.
Proof.
  intros available Hok Hfit. subst available.
  destruct (createInstance_Ok_inv bs s Hok) as (_ & enabled & Hen & Hci & Hfinal).
  cbn zeta in Hen, Hci, Hfinal.
  eexists. cbn zeta. split; [exact Hci|]. split; [exact Hfinal|].
  cbn [VkInstanceCreateInfo.ppEnabledExtensionNames VkInstanceCreateInfo.flags].
  apply checkAndAddInstanceExtensionSupport_Ok_inv in Hen as (_ & -> & Hall).
  rewrite checkAndAddInstanceExtensionSupport_add_spec by exact Hfit.
  assert (Hport : VK_KHR_PORTABILITY_ENUMERATION_EXTENSION_NAME
                  <> VK_KHR_GET_PHYSICAL_DEVICE_PROPERTIES_2_EXTENSION_NAME)
    by discriminate.
  assert (Hdbg : VK_EXT_DEBUG_UTILS_EXTENSION_NAME
                 <> VK_KHR_GET_PHYSICAL_DEVICE_PROPERTIES_2_EXTENSION_NAME)
    by discriminate.
  assert (Hdp : VK_EXT_DEBUG_UTILS_EXTENSION_NAME
                <> VK_KHR_PORTABILITY_ENUMERATION_EXTENSION_NAME)
    by discriminate.
  repeat split.
  - intros name Hin. apply elem_of_app in Hin as [Hin|Hin].
    + apply checkAndAddInstanceExtensionSupport_found_iff; [exact Hfit|].
      now apply Hall.
    + destruct (bool_decide _) eqn:Hb in Hin.
      * apply bool_decide_eq_true_1 in Hb.
        apply list_elem_of_singleton in Hin as ->. exact Hb.
      * now apply elem_of_nil in Hin.
  - intros name Hin. rewrite !elem_of_app. left. left.
    destruct (enableValidationLayers s); [rewrite elem_of_app|]; auto.
  - rewrite !elem_of_app. left. right. now left.
  - rewrite !elem_of_app. intros [[Hin|Hin]|Hin].
    + destruct (enableValidationLayers s); [|now right].
      apply elem_of_app in Hin as [Hin|Hin]; [now right|now left].
    + apply list_elem_of_singleton in Hin. done.
    + destruct (bool_decide _); [|now apply elem_of_nil in Hin].
      apply list_elem_of_singleton in Hin. done.
  - intros [Hv|Hin]; rewrite !elem_of_app; left; left.
    + rewrite Hv. rewrite elem_of_app. right. now left.
    + destruct (enableValidationLayers s); [rewrite elem_of_app|]; auto.
  - intros Hin. rewrite elem_of_app. right.
    rewrite bool_decide_eq_true_2 by exact Hin. now left.
Qed.

Lemma createInstance_enabled_witness :
  exists ci : VkInstanceCreateInfo.t,
    fst (vkCreateInstance Boot.loader ci) = VK_SUCCESS
    /\ final (createInstance Boot.loader (Boot.fresh false))
       = set_instance (snd (vkCreateInstance Boot.loader ci)) (Boot.fresh false)
    /\ (forall name : string,
          name ∈ VkInstanceCreateInfo.ppEnabledExtensionNames ci ->
          name ∈ extensionName
                 <$> snd (vkEnumerateInstanceExtensionProperties Boot.loader))
    /\ (forall name : string,
          name ∈ glfwGetRequiredInstanceExtensions Boot.loader ->
          name ∈ VkInstanceCreateInfo.ppEnabledExtensionNames ci)
    /\ VK_KHR_PORTABILITY_ENUMERATION_EXTENSION_NAME
       ∈ VkInstanceCreateInfo.ppEnabledExtensionNames ci
    /\ (VK_EXT_DEBUG_UTILS_EXTENSION_NAME
        ∈ VkInstanceCreateInfo.ppEnabledExtensionNames ci <->
        enableValidationLayers (Boot.fresh false) = true
        \/ VK_EXT_DEBUG_UTILS_EXTENSION_NAME
           ∈ glfwGetRequiredInstanceExtensions Boot.loader)
    /\ (VK_KHR_GET_PHYSICAL_DEVICE_PROPERTIES_2_EXTENSION_NAME
        ∈ extensionName
          <$> snd (vkEnumerateInstanceExtensionProperties Boot.loader) ->
        VK_KHR_GET_PHYSICAL_DEVICE_PROPERTIES_2_EXTENSION_NAME
        ∈ VkInstanceCreateInfo.ppEnabledExtensionNames ci)
    /\ Z.land (VkInstanceCreateInfo.flags ci)
         VK_INSTANCE_CREATE_ENUMERATE_PORTABILITY_BIT_KHR
       = VK_INSTANCE_CREATE_ENUMERATE_PORTABILITY_BIT_KHR.
Proof.
  apply (createInstance_enabled Boot.loader (Boot.fresh false)).
  - vm_compute. reflexivity.
  - fits.
Defined.

Lemma checkAndAddInstanceExtensionSupport_defined bs required s :
  outcome (checkAndAddInstanceExtensionSupport bs required s) <> Undefined.
Proof.
  rewrite checkAndAddInstanceExtensionSupport_run. cbn zeta.
  destruct (bool_decide _); [|discriminate].
  destruct (checkAndAddInstanceExtensionSupport_for_cases required
              (snd (vkEnumerateInstanceExtensionProperties bs)) s)
    as [[_ Hrun]|(pre & missing & post & _ & _ & _ & Hrun)]; rewrite Hrun;
    discriminate.
Qed.

Lemma checkAndAddInstanceExtensionSupport_Ok_iff bs required s :
  Forall (fun ext => fitsNameArray (extensionName ext))
    (snd (vkEnumerateInstanceExtensionProperties bs)) ->
  (exists enabled, outcome (checkAndAddInstanceExtensionSupport bs required s)
                   = Ok enabled)
  <-> fst (vkEnumerateInstanceExtensionProperties bs) = VK_SUCCESS
      /\ forall reqExt, reqExt ∈ required ->
           reqExt ∈ extensionName <$> snd (vkEnumerateInstanceExtensionProperties bs).
Proof.
  intros Hfit. split.
  - intros [enabled Hok].
    apply checkAndAddInstanceExtensionSupport_Ok_inv in Hok as (Hr & _ & Hall).
    split; [exact Hr|]. intros reqExt Hin.
    apply checkAndAddInstanceExtensionSupport_found_iff; [exact Hfit|]. now apply Hall.
  - intros [Hr Hall]. rewrite checkAndAddInstanceExtensionSupport_run. cbn zeta.
    rewrite bool_decide_eq_true_2 by exact Hr.
    rewrite checkAndAddInstanceExtensionSupport_for_found; [eexists; reflexivity|].
    intros reqExt Hin.
    apply checkAndAddInstanceExtensionSupport_found_iff; [exact Hfit|]. now apply Hall.
Qed.

(** X18: the debug-messenger chain of createInstance.  With validation
    enabled, [pNext] is left pointing to [msgCreateInfo], a local of the
    [if] block that is dead when vkCreateInstance runs.  createInstance
    then never returns normally: it throws when a check before the call
    fails, and its behaviour is undefined exactly when the layer and the
    extension checks pass (names fitting the 256-byte name arrays).  With
    validation disabled its behaviour is never undefined, and when it
    returns the instance was created with no layer and a null chain. *)
Theorem createInstance_chain (bs : Bootstrap) (s : RayTracingApplication) :
  let layers := vkEnumerateInstanceLayerProperties bs in
  let extensions := vkEnumerateInstanceExtensionProperties bs in
  let r := createInstance bs s in
  (enableValidationLayers s = true ->
   outcome r <> Ok tt
   /\ (Forall (fun layer => fitsNameArray (layerName layer)) (snd layers) ->
       Forall (fun ext => fitsNameArray (extensionName ext)) (snd extensions) ->
       outcome r = Undefined
       <-> fst layers = VK_SUCCESS
           /\ (forall name : string,
                 name ∈ validationLayers s -> name ∈ layerName <$> snd layers)
           /\ fst extensions = VK_SUCCESS
           /\ (forall name : string,
                 name ∈ glfwGetRequiredInstanceExtensions bs
                        ++ [VK_EXT_DEBUG_UTILS_EXTENSION_NAME;
                            VK_KHR_PORTABILITY_ENUMERATION_EXTENSION_NAME] ->
                 name ∈ extensionName <$> snd extensions)))
  /\ (enableValidationLayers s = false ->
      outcome r <> Undefined
      /\ (outcome r = Ok tt ->
          exists ci : VkInstanceCreateInfo.t,
            fst (vkCreateInstance bs ci) = VK_SUCCESS
            /\ final r = set_instance (snd (vkCreateInstance bs ci)) s
            /\ VkInstanceCreateInfo.ppEnabledLayerNames ci = []
            /\ VkInstanceCreateInfo.pNext ci = nullptr)).
Proof.
  cbn zeta. split.
  - intros Hen. split.
    { intros Hok. destruct (createInstance_Ok_inv bs s Hok) as [Hoff _]. congruence. }
    intros Hlayers Hexts. rewrite createInstance_run. cbn zeta. rewrite Hen.
    pose proof (checkAndAddInstanceExtensionSupport_defined bs
                  ((glfwGetRequiredInstanceExtensions bs
                    ++ [VK_EXT_DEBUG_UTILS_EXTENSION_NAME])
                   ++ [VK_KHR_PORTABILITY_ENUMERATION_EXTENSION_NAME]) s) as Hdef.
    pose proof (checkAndAddInstanceExtensionSupport_Ok_iff bs
                  ((glfwGetRequiredInstanceExtensions bs
                    ++ [VK_EXT_DEBUG_UTILS_EXTENSION_NAME])
                   ++ [VK_KHR_PORTABILITY_ENUMERATION_EXTENSION_NAME]) s Hexts) as Hiff.
    rewrite <- app_assoc in Hdef, Hiff. cbn [app] in Hdef, Hiff.
    rewrite <- app_assoc. cbn [app].
    destruct (bool_decide (fst (vkEnumerateInstanceLayerProperties bs) = VK_SUCCESS))
      eqn:Hr.
    2:{ apply bool_decide_eq_false_1 in Hr. cbn [outcome].
        split; [discriminate|]. intros [Hr' _]. done. }
    apply bool_decide_eq_true_1 in Hr.
    destruct (checkValidationLayerSupport_for (validationLayers s) _) eqn:Hfor.
    2:{ cbn [outcome]. split; [discriminate|]. intros (_ & Hall & _).
        pose proof (proj2 (checkValidationLayerSupport_for_iff
                             (validationLayers s) _ Hlayers) Hall). congruence. }
    pose proof (proj1 (checkValidationLayerSupport_for_iff
                         (validationLayers s) _ Hlayers) Hfor) as Hall.
    cbn [outcome].
    destruct (outcome (checkAndAddInstanceExtensionSupport bs _ s))
      as [enabled|e|]; cbn [outcome].
    + split; [|reflexivity]. intros _.
      destruct (proj1 Hiff (ex_intro _ enabled eq_refl)) as [Hx Hexts']. done.
    + split; [discriminate|]. intros (_ & _ & Hx & Hexts').
      destruct (proj2 Hiff (conj Hx Hexts')) as [enabled Hok]. discriminate Hok.
    + done.
  - intros Hen. split.
    { rewrite createInstance_run. cbn zeta. rewrite Hen. cbn [outcome].
      pose proof (checkAndAddInstanceExtensionSupport_defined bs
                    (glfwGetRequiredInstanceExtensions bs
                     ++ [VK_KHR_PORTABILITY_ENUMERATION_EXTENSION_NAME]) s) as Hdef.
      destruct (outcome (checkAndAddInstanceExtensionSupport bs _ s));
        [|discriminate|done].
      cbn zeta. destruct (bool_decide _); discriminate. }
    intros Hok.
    destruct (createInstance_Ok_inv bs s Hok) as (_ & enabled & _ & Hci & Hfinal).
    cbn zeta in Hci, Hfinal.
    eexists. split; [exact Hci|]. split; [exact Hfinal|]. split; reflexivity.
Qed.

(** On the concrete loader every check passes, so with validation
    enabled the call is reached with the dead chain. *)
Example createInstance_loader :
  outcome (createInstance Boot.loader (Boot.fresh true)) = Undefined
  /\ final (createInstance Boot.loader (Boot.fresh false))
     = set_instance 2 (Boot.fresh false).
Proof. split; vm_compute; reflexivity. Qed.

(** X19: with validation disabled, createInstance does not depend on
    the layer enumeration: two loaders that differ only there give the
    same run. *)
Theorem createInstance_without_validation
    (bs bs' : Bootstrap) (s : RayTracingApplication) :
  enableValidationLayers s = false ->
  vkEnumerateInstanceExtensionProperties bs
  = vkEnumerateInstanceExtensionProperties bs' ->
  glfwGetRequiredInstanceExtensions bs = glfwGetRequiredInstanceExtensions bs' ->
  (forall ci : VkInstanceCreateInfo.t, vkCreateInstance bs ci = vkCreateInstance bs' ci) ->
  createInstance bs s = createInstance bs' s.
Proof.
  intros Hen Hext Hglfw Hcreate. rewrite !createInstance_run. cbn zeta. rewrite Hen.
  cbn [outcome]. rewrite !checkAndAddInstanceExtensionSupport_run. cbn zeta.
  rewrite <- Hext, <- Hglfw.
  destruct (bool_decide _); [|reflexivity].
  destruct (outcome _); [|reflexivity|reflexivity].
  now rewrite Hcreate.
Qed.

Lemma createInstance_without_validation_witness :
  createInstance Boot.loader (Boot.fresh false)
  = createInstance Boot.layerless (Boot.fresh false).
Proof.
  apply (createInstance_without_validation Boot.loader Boot.layerless
           (Boot.fresh false)); reflexivity.
Defined.

(** ** Image views *)

Lemma set_swapChainImageViews_id s :
  set_swapChainImageViews (swapChainImageViews s) s = s.
Proof. now destruct s. Qed.

Lemma take_S_insert {A} (l : list A) i x :
  (i < length l)%nat -> take (S i) (<[i:=x]> l) = take i l ++ [x].
Proof.
  intros Hi. rewrite insert_take_drop by exact Hi.
  rewrite take_app_ge by (rewrite length_take; lia).
  rewrite length_take. replace (S i - i `min` length l)%nat with 1%nat by lia.
  reflexivity.
Qed.

Lemma createImageViews_for_run bs count : forall i s,
  (i + count)%nat = length (swapChainImages s) ->
  length (swapChainImageViews s) = length (swapChainImages s) ->
  exists k : nat,
    (k <= count)%nat
    /\ Forall (fun image => fst (viewOf bs s image) = VK_SUCCESS)
         (take k (drop i (swapChainImages s)))
    /\ final (createImageViews_for bs count i s)
       = set_swapChainImageViews
           (take i (swapChainImageViews s)
            ++ (snd ∘ viewOf bs s <$> take k (drop i (swapChainImages s)))
            ++ drop (i + k) (swapChainImageViews s)) s
    /\ calls (createImageViews_for bs count i s) = []
    /\ ((k = count /\ outcome (createImageViews_for bs count i s) = Ok tt)
        \/ exists image : Z,
             swapChainImages s !! (i + k)%nat = Some image
             /\ fst (viewOf bs s image) <> VK_SUCCESS
             /\ outcome (createImageViews_for bs count i s)
                = Throw (runtime_error "Could not create image view!")).
Proof.
  induction count as [|count IH]; intros i s Hlen Hviews.
  - exists 0%nat. split; [lia|]. split; [constructor|].
    cbn [createImageViews_for ret final calls outcome take fmap list_fmap app].
    rewrite take_0. cbn [fmap list_fmap app].
    rewrite Nat.add_0_r, take_drop, set_swapChainImageViews_id. auto.
  - destruct (lookup_lt_is_Some_2 (swapChainImages s) i) as [image Himage]; [lia|].
    cbn [createImageViews_for]. step. rewrite Himage. step. step. step.
    erewrite bind_with by apply VK_ASSERT_run.
    fold (viewOf bs s image).
    destruct (bool_decide (fst (viewOf bs s image) = VK_SUCCESS)) eqn:Hr;
      cbn [outcome final calls app].
    + apply bool_decide_eq_true_1 in Hr. step.
      set (s' := set_swapChainImageViews _ s).
      destruct (IH (S i) s') as (k & Hk & Hall & Hfinal & Hcalls & Hout).
      { cbn. lia. }
      { subst s'. cbn [swapChainImageViews set_swapChainImageViews swapChainImages].
        now rewrite length_insert. }
      exists (S k). split; [lia|].
      rewrite (drop_S _ _ _ Himage). cbn [firstn fmap list_fmap].
      split; [constructor; [exact Hr|exact Hall]|].
      rewrite Hfinal, Hcalls. split.
      { subst s'.
        cbn [swapChainImageViews set_swapChainImageViews swapChainImages].
        rewrite take_S_insert by lia.
        rewrite drop_insert_lt by lia.
        rewrite <- app_assoc. cbn [app compose].
        replace (i + S k)%nat with (S i + k)%nat by lia. reflexivity. }
      split; [reflexivity|].
      destruct Hout as [[-> Hout]|(image' & Hat & Hfail & Hout)].
      * left. split; [reflexivity|]. exact Hout.
      * right. exists image'. replace (i + S k)%nat with (S i + k)%nat by lia.
        split; [exact Hat|]. split; [exact Hfail|exact Hout].
    + apply bool_decide_eq_false_1 in Hr.
      exists 0%nat. split; [lia|]. split; [constructor|].
      rewrite take_0. cbn [fmap list_fmap app].
      rewrite Nat.add_0_r, take_drop, set_swapChainImageViews_id.
      split; [reflexivity|]. split; [reflexivity|].
      right. exists image. auto.
Qed.

Lemma createImageViews_run bs s :
  exists k : nat,
    (k <= length (swapChainImages s))%nat
    /\ Forall (fun image => fst (viewOf bs s image) = VK_SUCCESS)
         (take k (swapChainImages s))
    /\ final (createImageViews bs s)
       = set_swapChainImageViews
           ((snd ∘ viewOf bs s <$> take k (swapChainImages s))
            ++ drop k (resize (length (swapChainImages s)) VK_NULL_HANDLE
                         (swapChainImageViews s))) s
    /\ calls (createImageViews bs s) = []
    /\ ((k = length (swapChainImages s)
         /\ outcome (createImageViews bs s) = Ok tt)
        \/ exists image : Z,
             swapChainImages s !! k = Some image
             /\ fst (viewOf bs s image) <> VK_SUCCESS
             /\ outcome (createImageViews bs s)
                = Throw (runtime_error "Could not create image view!")).
Proof.
  unfold createImageViews. step. step.
  set (s' := set_swapChainImageViews _ s).
  destruct (createImageViews_for_run bs (length (swapChainImages s)) 0 s')
    as (k & Hk & Hall & Hfinal & Hcalls & Hout).
  { reflexivity. }
  { subst s'. cbn [swapChainImageViews set_swapChainImageViews swapChainImages].
    now rewrite length_resize. }
  assert (Hcount : length (swapChainImageViews s') = length (swapChainImages s)).
  { subst s'. cbn [swapChainImageViews set_swapChainImageViews].
    now rewrite length_resize. }
  rewrite Hcount.
  change (viewOf bs s') with (viewOf bs s) in *.
  change (swapChainImages s') with (swapChainImages s) in *.
  change (drop 0 (swapChainImages s)) with (swapChainImages s) in *.
  exists k. split; [exact Hk|]. split; [exact Hall|].
  rewrite Hfinal, Hcalls. split; [reflexivity|]. split; [reflexivity|].
  exact Hout.
Qed.

(** X20: createImageViews never has an undefined result (no index is out
    of range), leaves the swap-chain images alone, and leaves exactly one
    view slot per image, whether it returns or throws. *)
Theorem createImageViews_size (bs : Bootstrap) (s : RayTracingApplication) :
  let r := createImageViews bs s in
  outcome r <> Undefined
  /\ swapChainImages (final r) = swapChainImages s
  /\ length (swapChainImageViews (final r)) = length (swapChainImages s).
Proof.
  cbn zeta.
  destruct (createImageViews_run bs s) as (k & Hk & _ & Hfinal & _ & Hout).
  split.
  { destruct Hout as [[_ ->]|(image & _ & _ & ->)]; discriminate. }
  rewrite Hfinal. cbn [swapChainImages swapChainImageViews set_swapChainImageViews].
  split; [reflexivity|].
  rewrite length_app, length_fmap, length_take, length_drop, length_resize. lia.
Qed.

(** X21: createImageViews returns exactly when every view creation
    succeeds, and then the stored views are, image by image and in order,
    the handles created for the images with the stored image format. *)
Theorem createImageViews_all (bs : Bootstrap) (s : RayTracingApplication) :
  let r := createImageViews bs s in
  (outcome r = Ok tt <->
   Forall (fun image => fst (viewOf bs s image) = VK_SUCCESS) (swapChainImages s))
  /\ (outcome r = Ok tt ->
      swapChainImageViews (final r) = (snd ∘ viewOf bs s <$> swapChainImages s)).
Proof.
  cbn zeta.
  destruct (createImageViews_run bs s) as (k & Hk & Hall & Hfinal & _ & Hout).
  destruct Hout as [[-> Hout]|(image & Hat & Hfail & Hout)].
  - rewrite firstn_all in Hall, Hfinal. split; [split; auto|].
    intros _. rewrite Hfinal.
    cbn [swapChainImageViews set_swapChainImageViews].
    rewrite drop_ge by (rewrite length_resize; lia). apply app_nil_r.
  - rewrite Hout. split; [split|]; try discriminate.
    intros Hforall. exfalso. apply Hfail.
    rewrite Forall_lookup in Hforall. exact (Hforall k image Hat).
Qed.

(** X22: createImageViews stops at the first image whose view cannot be
    created, with "Could not create image view!"; the views of the images
    before it are stored. *)
Theorem createImageViews_first_failure
    (bs : Bootstrap) (s : RayTracingApplication) (k : nat) (image : Z) :
  swapChainImages s !! k = Some image ->
  fst (viewOf bs s image) <> VK_SUCCESS ->
  Forall (fun image => fst (viewOf bs s image) = VK_SUCCESS)
    (take k (swapChainImages s)) ->
  let r := createImageViews bs s in
  outcome r = Throw (runtime_error "Could not create image view!")
  /\ take k (swapChainImageViews (final r))
     = (snd ∘ viewOf bs s <$> take k (swapChainImages s)).
Proof.
  intros Hat Hfail Hearlier. cbn zeta.
  destruct (createImageViews_run bs s) as (k0 & Hk & Hall & Hfinal & _ & Hout).
  assert (Hlt : (k < length (swapChainImages s))%nat)
    by (apply lookup_lt_is_Some; eauto).
  assert (Hk0 : k0 = k).
  { destruct (Nat.lt_trichotomy k0 k) as [Hlt0|[Heq|Hgt]]; [|exact Heq|].
    - exfalso. destruct Hout as [[-> _]|(image0 & Hat0 & Hfail0 & _)]; [lia|].
      apply Hfail0. rewrite Forall_lookup in Hearlier.
      apply (Hearlier k0). rewrite lookup_take_lt by exact Hlt0. exact Hat0.
    - exfalso. apply Hfail. rewrite Forall_lookup in Hall.
      apply (Hall k). rewrite lookup_take_lt by exact Hgt. exact Hat. }
  subst k0. split.
  - destruct Hout as [[-> _]|(image0 & _ & _ & Hout)]; [lia|exact Hout].
  - rewrite Hfinal. cbn [swapChainImageViews set_swapChainImageViews].
    rewrite take_app_length'; [reflexivity|].
    rewrite length_fmap, length_take. lia.
Qed.

Lemma createImageViews_first_failure_witness :
  outcome (createImageViews Boot.viewless Boot.chained)
  = Throw (runtime_error "Could not create image view!")
  /\ take 1 (swapChainImageViews (final (createImageViews Boot.viewless Boot.chained)))
     = (snd ∘ viewOf Boot.viewless Boot.chained
        <$> take 1 (swapChainImages Boot.chained)).
Proof.
  apply (createImageViews_first_failure Boot.viewless Boot.chained 1%nat 402).
  - reflexivity.
  - vm_compute. discriminate.
  - repeat constructor.
Defined.

(** X23: cleanup after a successful createImageViews destroys, first and
    in image order, exactly the views that were created, each on the
    object's device, and no view afterwards. *)
Theorem cleanup_after_createImageViews
    (drv : Driver) (bs : Bootstrap) (s : RayTracingApplication) :
  outcome (createImageViews bs s) = Ok tt ->
  exists rest : list Call,
    calls (cleanup drv (final (createImageViews bs s)))
    = (DestroyImageView (device s) ∘ snd ∘ viewOf bs s <$> swapChainImages s) ++ rest
    /\ forall d v : Z, DestroyImageView d v ∉ rest.
Proof.
  intros Hok.
  destruct (createImageViews_run bs s) as (k & Hk & Hall & Hfinal & _ & Hout).
  destruct Hout as [[-> _]|(image & _ & _ & Hout)]; [|congruence].
  rewrite firstn_all in Hfinal.
  rewrite drop_ge in Hfinal by (rewrite length_resize; lia).
  rewrite app_nil_r in Hfinal.
  rewrite cleanup_run, Hfinal. cbn [calls].
  eexists. split.
  - cbn [device swapChainImageViews set_swapChainImageViews].
    rewrite <- list_fmap_compose. reflexivity.
  - intros d v Hin. unfold teardownTail in Hin.
    rewrite !elem_of_app in Hin.
    destruct Hin as [Hin|[Hin|Hin]].
    + repeat (apply elem_of_cons in Hin as [Hin|Hin]; [discriminate|]).
      now apply elem_of_nil in Hin.
    + destruct (enableValidationLayers _);
        [destruct (hasDestroyDebugUtilsMessengerEXT _ _)|];
        repeat (apply elem_of_cons in Hin as [Hin|Hin]; [discriminate|]);
        now apply elem_of_nil in Hin.
    + repeat (apply elem_of_cons in Hin as [Hin|Hin]; [discriminate|]).
      now apply elem_of_nil in Hin.
Qed.

Lemma cleanup_after_createImageViews_witness :
  exists rest : list Call,
    calls (cleanup Scenario.driver (final (createImageViews Boot.loader Boot.chained)))
    = (DestroyImageView (device Boot.chained) ∘ snd ∘ viewOf Boot.loader Boot.chained
       <$> swapChainImages Boot.chained) ++ rest
    /\ forall d v : Z, DestroyImageView d v ∉ rest.
Proof.
  apply (cleanup_after_createImageViews Scenario.driver Boot.loader Boot.chained).
  vm_compute. reflexivity.
Defined.

(** ** Start-up *)

Lemma setupDebugMessenger_run bs s :
  setupDebugMessenger bs s =
  if enableValidationLayers s then
    match vkCreateDebugUtilsMessengerEXT bs (instance s) with
    | Some func =>
        if bool_decide (fst (func (instance s) populateMessenger) = VK_SUCCESS)
        then mkRun (Ok tt)
               (set_debugMessenger (snd (func (instance s) populateMessenger)) s) []
        else mkRun (Throw (runtime_error "DebugUtilsMessenger could not be created"))
               s []
    | None =>
        mkRun (Throw (runtime_error
                        "Could not find InstanceProcAddr of vkCreateDebugUtilsMessengerEXT"))
          s []
    end
  else mkRun (Ok tt) s [].
Proof.
  unfold setupDebugMessenger. step.
  destruct (enableValidationLayers s); cbn [negb]; [|reflexivity].
  step. destruct (vkCreateDebugUtilsMessengerEXT bs (instance s)) as [func|];
    [|reflexivity].
  erewrite bind_with by apply VK_ASSERT_run.
  destruct (bool_decide _); reflexivity.
Qed.

Lemma createSurface_run bs s :
  createSurface bs s =
  let r := glfwCreateWindowSurface bs (instance s) (window s) in
  if bool_decide (fst r = VK_SUCCESS)
  then mkRun (Ok tt) (set_surface (snd r) s) []
  else mkRun (Throw (runtime_error "Could not create window surface!")) s [].
Proof.
  cbn zeta. unfold createSurface. step. step.
  erewrite bind_with by apply VK_ASSERT_run.
  destruct (bool_decide _); reflexivity.
Qed.

Lemma readFile_run bs filename s :
  readFile bs filename s =
  match ifstream bs filename with
  | Some file =>
      match vector_char bs (static_cast_size_t (tellg file)) with
      | Some e => mkRun (Throw e) s []
      | None =>
          mkRun (Ok (resize (Z.to_nat (static_cast_size_t (tellg file))) 0
                       (contents file))) s []
      end
  | None => mkRun (Throw (runtime_error ("Could not open file " +:+ filename))) s []
  end.
Proof.
  unfold readFile. destruct (ifstream bs filename) as [file|]; [|reflexivity].
  cbn zeta. destruct (vector_char bs _); reflexivity.
Qed.

Lemma createGraphicsPipeline_run bs s :
  createGraphicsPipeline bs s =
  match ifstream bs "vert.spv" with
  | Some vert =>
      match vector_char bs (static_cast_size_t (tellg vert)) with
      | Some e => mkRun (Throw e) s []
      | None =>
          match ifstream bs "frag.spv" with
          | Some frag =>
              match vector_char bs (static_cast_size_t (tellg frag)) with
              | Some e => mkRun (Throw e) s []
              | None => mkRun (Ok tt) s []
              end
          | None =>
              mkRun (Throw (runtime_error "Could not open file frag.spv")) s []
          end
      end
  | None => mkRun (Throw (runtime_error "Could not open file vert.spv")) s []
  end.
Proof.
  unfold createGraphicsPipeline.
  erewrite bind_with by apply readFile_run.
  destruct (ifstream bs "vert.spv") as [vert|]; cbn [outcome final calls app];
    [|reflexivity].
  destruct (vector_char bs (static_cast_size_t (tellg vert)));
    cbn [outcome final calls app]; [reflexivity|].
  erewrite bind_with by apply readFile_run.
  destruct (ifstream bs "frag.spv") as [frag|]; [|reflexivity].
  destruct (vector_char bs (static_cast_size_t (tellg frag))); reflexivity.
Qed.

Lemma createGraphicsPipeline_pure bs s :
  final (createGraphicsPipeline bs s) = s /\ calls (createGraphicsPipeline bs s) = [].
Proof.
  rewrite createGraphicsPipeline_run.
  destruct (ifstream bs "vert.spv") as [vert|]; [|done].
  destruct (vector_char bs (static_cast_size_t (tellg vert))); [done|].
  destruct (ifstream bs "frag.spv") as [frag|]; [|done].
  destruct (vector_char bs (static_cast_size_t (tellg frag))); done.
Qed.

(** X24: createGraphicsPipeline changes nothing, calls nothing and never
    has an undefined result.  It returns exactly when both shader files
    open and the buffer for each, of the unchecked size that tellg gives,
    can be created.  It throws "Could not open file vert.spv" when that
    file does not open, and what the buffer's constructor throws when the
    file opens but the buffer cannot be created; frag.spv is read only
    after vert.spv was, with the same two failures.  For a file whose end
    position is its length readFile returns its bytes; when the end
    position cannot be determined (tellg is -1, as for a directory) it
    asks for a buffer of SIZE_MAX bytes. *)
Theorem createGraphicsPipeline_files (bs : Bootstrap) (s : RayTracingApplication) :
  let r := createGraphicsPipeline bs s in
  let size := fun file : File => static_cast_size_t (tellg file) in
  final r = s
  /\ calls r = []
  /\ outcome r <> Undefined
  /\ (outcome r = Ok tt <->
      exists vert frag : File,
        ifstream bs "vert.spv" = Some vert /\ vector_char bs (size vert) = None
        /\ ifstream bs "frag.spv" = Some frag /\ vector_char bs (size frag) = None)
  /\ (ifstream bs "vert.spv" = None ->
      outcome r = Throw (runtime_error "Could not open file vert.spv"))
  /\ (forall (vert : File) (e : Exception),
        ifstream bs "vert.spv" = Some vert -> vector_char bs (size vert) = Some e ->
        outcome r = Throw e)
  /\ (forall vert : File,
        ifstream bs "vert.spv" = Some vert -> vector_char bs (size vert) = None ->
        (ifstream bs "frag.spv" = None ->
         outcome r = Throw (runtime_error "Could not open file frag.spv"))
        /\ (forall (frag : File) (e : Exception),
              ifstream bs "frag.spv" = Some frag ->
              vector_char bs (size frag) = Some e ->
              outcome r = Throw e))
  /\ (forall (filename : string) (file : File),
        ifstream bs filename = Some file ->
        (tellg file = Z.of_nat (length (contents file)) ->
         tellg file <= SIZE_MAX ->
         vector_char bs (size file) = None ->
         readFile bs filename s = mkRun (Ok (contents file)) s [])
        /\ (tellg file = -1 -> size file = SIZE_MAX)).
Proof.
  cbn zeta. rewrite createGraphicsPipeline_run.
  split; [|split; [|split; [|split; [|split; [|split; [|split]]]]]].
  - destruct (ifstream bs "vert.spv") as [vert|]; [|done].
    destruct (vector_char bs (static_cast_size_t (tellg vert))); [done|].
    destruct (ifstream bs "frag.spv") as [frag|]; [|done].
    destruct (vector_char bs (static_cast_size_t (tellg frag))); done.
  - destruct (ifstream bs "vert.spv") as [vert|]; [|done].
    destruct (vector_char bs (static_cast_size_t (tellg vert))); [done|].
    destruct (ifstream bs "frag.spv") as [frag|]; [|done].
    destruct (vector_char bs (static_cast_size_t (tellg frag))); done.
  - destruct (ifstream bs "vert.spv") as [vert|]; [|done].
    destruct (vector_char bs (static_cast_size_t (tellg vert))); [done|].
    destruct (ifstream bs "frag.spv") as [frag|]; [|done].
    destruct (vector_char bs (static_cast_size_t (tellg frag))); done.
  - split.
    + destruct (ifstream bs "vert.spv") as [vert|]; [|done].
      destruct (vector_char bs (static_cast_size_t (tellg vert))) eqn:Hv; [done|].
      destruct (ifstream bs "frag.spv") as [frag|]; [|done].
      destruct (vector_char bs (static_cast_size_t (tellg frag))) eqn:Hf; [done|].
      intros _. exists vert, frag. done.
    + intros (vert & frag & -> & -> & -> & ->). reflexivity.
  - intros ->. reflexivity.
  - intros vert e -> ->. reflexivity.
  - intros vert -> ->. split.
    + intros ->. reflexivity.
    + intros frag e -> ->. reflexivity.
  - intros filename file Hopen. split.
    + intros Hsize Hmax Halloc. rewrite readFile_run, Hopen, Halloc.
      assert (Hfit : static_cast_size_t (tellg file) = tellg file).
      { unfold static_cast_size_t. apply Z.mod_small. unfold SIZE_MAX in *. lia. }
      rewrite Hfit, Hsize, Nat2Z.id, resize_all. reflexivity.
    + intros ->. reflexivity.
Qed.

(** A directory in the place of [vert.spv] opens, and the buffer of
    [SIZE_MAX] bytes is refused. *)
Example createGraphicsPipeline_sizeless :
  outcome (createGraphicsPipeline Boot.sizeless (Boot.fresh false))
  = Throw (length_error "cannot create std::vector larger than max_size()").
Proof. vm_compute. reflexivity. Qed.

Lemma isDeviceSuitable_state drv dev s s' :
  surface s' = surface s ->
  deviceExtensions s' = deviceExtensions s ->
  outcome (isDeviceSuitable drv dev s') = outcome (isDeviceSuitable drv dev s).
Proof.
  intros Hsurf Hext.
  destruct (findQueueFamilies_total drv dev s) as (ind & q & Hfind & _).
  destruct (findQueueFamilies_state drv dev s s' Hsurf) as [Ho _].
  rewrite Hfind in Ho. cbn [outcome] in Ho.
  rewrite (isDeviceSuitable_outcome drv dev s' ind Ho).
  rewrite (isDeviceSuitable_outcome drv dev s ind) by now rewrite Hfind.
  now rewrite Hsurf, Hext.
Qed.

Lemma pickPhysicalDevice_Ok_inv drv s :
  physicalDevice s = VK_NULL_HANDLE ->
  outcome (pickPhysicalDevice drv s) = Ok tt ->
  exists d : Z,
    d ∈ snd (vkEnumeratePhysicalDevices drv (instance s))
    /\ d <> VK_NULL_HANDLE
    /\ outcome (isDeviceSuitable drv d s) = Ok true
    /\ final (pickPhysicalDevice drv s) = set_physicalDevice d s.
Proof.
  intros Hnull. rewrite pickPhysicalDevice_run. cbn zeta.
  destruct (bool_decide (fst _ = VK_SUCCESS)); [|discriminate].
  destruct (bool_decide (length _ = 0%nat)); [discriminate|].
  destruct (outcome (pickPhysicalDevice_for drv _ s)) as [[]| |] eqn:Hloop;
    [|discriminate|discriminate].
  destruct (pickPhysicalDevice_for_first _ _ _ Hloop)
    as [[Hfinal _]|(k & d & Hk & Hs & _ & Hfinal)]; rewrite Hfinal.
  - rewrite bool_decide_eq_true_2 by done. discriminate.
  - cbn [set_physicalDevice physicalDevice]. case_bool_decide as Hd; [discriminate|].
    intros _. exists d. cbn [final].
    split; [exact (list_elem_of_lookup_2 _ _ _ Hk)|]. done.
Qed.

Lemma createLogicalDevice_Ok_inv drv s :
  outcome (createLogicalDevice drv s) = Ok tt ->
  exists (q : list Call) (g p : Z),
    let ci := deviceCreateInfoFor s g p
                (snd (vkEnumerateDeviceExtensionProperties drv (physicalDevice s))) in
    let r := vkCreateDevice drv (physicalDevice s) ci in
    Forall (fun c => isSurfaceQuery c = true) q
    /\ outcome (findQueueFamilies drv (physicalDevice s) s)
       = Ok (mkIndicies (Some g) (Some p))
    /\ fst r = VK_SUCCESS
    /\ final (createLogicalDevice drv s)
       = set_presentQueue (vkGetDeviceQueue drv (snd r) p 0)
           (set_graphicsQueue (vkGetDeviceQueue drv (snd r) g 0)
              (set_device (snd r) s))
    /\ calls (createLogicalDevice drv s)
       = q ++ [CreateDevice (physicalDevice s) ci;
               GetDeviceQueue (snd r) g 0; GetDeviceQueue (snd r) p 0].
Proof.
  destruct (findQueueFamilies_total drv (physicalDevice s) s)
    as (ind & q & Hfind & Hq).
  destruct (isComplete ind) eqn:Hc.
  2:{ rewrite (createLogicalDevice_run_incomplete drv s ind q Hfind Hc).
      discriminate. }
  unfold isComplete in Hc.
  destruct (graphicsFamily ind) as [g|] eqn:Hg; [|discriminate Hc].
  destruct (presentFamily ind) as [p|] eqn:Hp; [|discriminate Hc].
  rewrite (createLogicalDevice_run drv s ind q g p Hfind Hg Hp). cbn zeta.
  destruct (bool_decide (fst (vkEnumerateDeviceExtensionProperties drv
                                (physicalDevice s)) = VK_SUCCESS)); [|discriminate].
  destruct (bool_decide (fst (vkCreateDevice drv (physicalDevice s) _)
                         = VK_SUCCESS)) eqn:Hcreate; [|discriminate].
  apply bool_decide_eq_true in Hcreate.
  intros _. exists q, g, p. cbn [final calls].
  split; [exact Hq|]. split; [|done].
  rewrite Hfind. cbn [outcome]. destruct ind. cbn in Hg, Hp. now subst.
Qed.

Lemma createSwapChain_Ok_inv drv s :
  outcome (createSwapChain drv s) = Ok tt ->
  exists (q : list Call) (ci : VkSwapchainCreateInfoKHR.t),
    let r := vkCreateSwapchainKHR drv (device s) ci in
    let images := vkGetSwapchainImagesKHR drv (device s) (snd r) in
    Forall (fun c => isSurfaceQuery c = true) q
    /\ VkSwapchainCreateInfoKHR.surface ci = surface s
    /\ fst r = VK_SUCCESS
    /\ fst images = VK_SUCCESS
    /\ final (createSwapChain drv s)
       = set_swapChainExtent (VkSwapchainCreateInfoKHR.imageExtent ci)
           (set_swapChainImageFormat (VkSwapchainCreateInfoKHR.imageFormat ci)
              (set_swapChainImages (snd images) (set_swapChain (snd r) s)))
    /\ calls (createSwapChain drv s) = q ++ [CreateSwapchainKHR (device s) ci].
Proof.
  destruct (createSwapChain_cases drv s)
    as [(o & q & Hrun & Ho & Hq)
       |(fmt & extent & ind & q & g & p & Hcaps & Hfmt & Hext & Hfind & Hg & Hp & Hq)].
  { rewrite Hrun. cbn [outcome]. intros ->. done. }
  rewrite (createSwapChain_run drv s fmt extent ind q g p
             Hcaps Hfmt Hext Hfind Hg Hp).
  cbn zeta.
  set (ci := swapchainCreateInfoFor s _ fmt extent g p).
  destruct (bool_decide (fst (vkCreateSwapchainKHR drv (device s) ci) = VK_SUCCESS))
    eqn:Hcreate; [|discriminate].
  destruct (bool_decide (fst (vkGetSwapchainImagesKHR drv (device s) _) = VK_SUCCESS))
    eqn:Himages; [|discriminate].
  intros _. exists q, ci. cbn zeta. cbn [final calls].
  apply bool_decide_eq_true in Hcreate, Himages. done.
Qed.

Lemma setupDebugMessenger_Ok_inv bs s :
  outcome (setupDebugMessenger bs s) = Ok tt ->
  exists m : Z,
    final (setupDebugMessenger bs s) = set_debugMessenger m s
    /\ calls (setupDebugMessenger bs s) = []
    /\ (enableValidationLayers s = false -> m = debugMessenger s).
Proof.
  rewrite setupDebugMessenger_run.
  destruct (enableValidationLayers s).
  - destruct (vkCreateDebugUtilsMessengerEXT bs (instance s)) as [func|];
      [|discriminate].
    destruct (bool_decide _) eqn:Hr; [|discriminate].
    intros _. eexists. split; [reflexivity|]. split; [reflexivity|]. discriminate.
  - intros _. exists (debugMessenger s). split; [now destruct s|]. done.
Qed.

Lemma createSurface_Ok_inv bs s :
  outcome (createSurface bs s) = Ok tt ->
  exists surf : Z,
    glfwCreateWindowSurface bs (instance s) (window s) = (VK_SUCCESS, surf)
    /\ final (createSurface bs s) = set_surface surf s
    /\ calls (createSurface bs s) = [].
Proof.
  rewrite createSurface_run. cbn zeta.
  destruct (bool_decide _) eqn:Hr; [|discriminate].
  apply bool_decide_eq_true in Hr.
  intros _. eexists. split; [|split; reflexivity].
  rewrite <- Hr. apply surjective_pairing.
Qed.

Lemma createInstance_calls bs s : calls (createInstance bs s) = [].
Proof.
  rewrite createInstance_run. cbn zeta.
  destruct (enableValidationLayers s).
  - destruct (bool_decide _); [|reflexivity].
    destruct (checkValidationLayerSupport_for _ _); [|reflexivity].
    cbn [outcome].
    destruct (outcome (checkAndAddInstanceExtensionSupport bs _ s)); reflexivity.
  - cbn [outcome].
    destruct (outcome (checkAndAddInstanceExtensionSupport bs _ s));
      [cbn zeta; destruct (bool_decide _)| |]; reflexivity.
Qed.

Lemma initVulkan_stages drv bs s :
  outcome (initVulkan drv bs s) = Ok tt ->
  exists s1 s2 s3 s4 s5 s6 s7 : RayTracingApplication,
    (outcome (createInstance bs s) = Ok tt /\ s1 = final (createInstance bs s))
    /\ (outcome (setupDebugMessenger bs s1) = Ok tt
        /\ s2 = final (setupDebugMessenger bs s1))
    /\ (outcome (createSurface bs s2) = Ok tt /\ s3 = final (createSurface bs s2))
    /\ (outcome (pickPhysicalDevice drv s3) = Ok tt
        /\ s4 = final (pickPhysicalDevice drv s3))
    /\ (outcome (createLogicalDevice drv s4) = Ok tt
        /\ s5 = final (createLogicalDevice drv s4))
    /\ (outcome (createSwapChain drv s5) = Ok tt
        /\ s6 = final (createSwapChain drv s5))
    /\ (outcome (createImageViews bs s6) = Ok tt
        /\ s7 = final (createImageViews bs s6))
    /\ outcome (createGraphicsPipeline bs s7) = Ok tt
    /\ final (initVulkan drv bs s) = s7.
Proof.
  unfold initVulkan. intros Hok.
  apply bind_Ok_inv in Hok as ([] & H1 & Hok & ->).
  apply bind_Ok_inv in Hok as ([] & H2 & Hok & ->).
  apply bind_Ok_inv in Hok as ([] & H3 & Hok & ->).
  apply bind_Ok_inv in Hok as ([] & H4 & Hok & ->).
  apply bind_Ok_inv in Hok as ([] & H5 & Hok & ->).
  apply bind_Ok_inv in Hok as ([] & H6 & Hok & ->).
  apply bind_Ok_inv in Hok as ([] & H7 & Hok & ->).
  do 7 eexists. repeat (split; [split; [eassumption|reflexivity]|]).
  split; [exact Hok|].
  now destruct (createGraphicsPipeline_pure bs
                  (final (createImageViews bs
                     (final (createSwapChain drv
                        (final (createLogicalDevice drv
                           (final (pickPhysicalDevice drv
                              (final (createSurface bs
                                 (final (setupDebugMessenger bs
                                    (final (createInstance bs s))))))))))))))).
Qed.

(** X25: initVulkan returns normally only with validation disabled (with
    it enabled, createInstance hands the loader a chain to a dead local),
    and after a successful initVulkan on a fresh object the fields fit
    together: the instance is one vkCreateInstance returned for a
    create-info with no layer and a null chain, and no messenger was
    created; the surface was created for that instance and the window;
    the adapter is one of the enumeration, not null, and suitable for
    that surface; the device was created on that adapter and the two
    queues are its queues for the resolved families;
    the swap chain was created on that device for that surface with the
    stored format and extent; the images are those of that swap chain; and
    the views are the ones created for these images. *)
Theorem initVulkan_coherent
    (drv : Driver) (bs : Bootstrap) (s : RayTracingApplication) :
  let r := initVulkan drv bs s in
  let f := final r in
  physicalDevice s = VK_NULL_HANDLE ->
  outcome r = Ok tt ->
  enableValidationLayers s = false
  /\ (exists ci : VkInstanceCreateInfo.t,
        vkCreateInstance bs ci = (VK_SUCCESS, instance f)
        /\ VkInstanceCreateInfo.ppEnabledLayerNames ci = []
        /\ VkInstanceCreateInfo.pNext ci = nullptr)
  /\ debugMessenger f = debugMessenger s
  /\ glfwCreateWindowSurface bs (instance f) (window f) = (VK_SUCCESS, surface f)
  /\ physicalDevice f ∈ snd (vkEnumeratePhysicalDevices drv (instance f))
  /\ physicalDevice f <> VK_NULL_HANDLE
  /\ outcome (isDeviceSuitable drv (physicalDevice f) f) = Ok true
  /\ (exists (dci : VkDeviceCreateInfo.t) (g p : Z),
        vkCreateDevice drv (physicalDevice f) dci = (VK_SUCCESS, device f)
        /\ outcome (findQueueFamilies drv (physicalDevice f) f)
           = Ok (mkIndicies (Some g) (Some p))
        /\ graphicsQueue f = vkGetDeviceQueue drv (device f) g 0
        /\ presentQueue f = vkGetDeviceQueue drv (device f) p 0)
  /\ (exists sci : VkSwapchainCreateInfoKHR.t,
        vkCreateSwapchainKHR drv (device f) sci = (VK_SUCCESS, swapChain f)
        /\ VkSwapchainCreateInfoKHR.surface sci = surface f
        /\ VkSwapchainCreateInfoKHR.imageFormat sci = swapChainImageFormat f
        /\ VkSwapchainCreateInfoKHR.imageExtent sci = swapChainExtent f)
  /\ vkGetSwapchainImagesKHR drv (device f) (swapChain f)
     = (VK_SUCCESS, swapChainImages f)
  /\ swapChainImageViews f = (snd ∘ viewOf bs f <$> swapChainImages f)
  /\ Forall (fun image => fst (viewOf bs f image) = VK_SUCCESS) (swapChainImages f).
Proof.
  intros r f Hnull Hok. subst f r.
  destruct (initVulkan_stages drv bs s Hok)
    as (s1 & s2 & s3 & s4 & s5 & s6 & s7
        & [H1 E1] & [H2 E2] & [H3 E3] & [H4 E4] & [H5 E5] & [H6 E6] & [H7 E7]
        & _ & ->).
  destruct (createInstance_Ok_inv bs s H1) as (Hoff & enabled & _ & Hci & Hs1).
  cbn zeta in Hci, Hs1.
  match type of Hci with fst (vkCreateInstance bs ?c) = _ => set (ci := c) in * end.
  rewrite Hs1 in E1. clear Hs1 H1.
  destruct (setupDebugMessenger_Ok_inv bs _ H2) as (m & Hs2 & _ & Hdbg).
  rewrite Hs2 in E2. clear Hs2 H2.
  destruct (createSurface_Ok_inv bs _ H3) as (surf & Hsurf & Hs3 & _).
  rewrite Hs3 in E3. clear Hs3 H3.
  assert (Hnull3 : physicalDevice s3 = VK_NULL_HANDLE) by now subst.
  destruct (pickPhysicalDevice_Ok_inv drv _ Hnull3 H4)
    as (d & Hk & Hd & Hsuit & Hs4).
  rewrite Hs4 in E4. clear Hs4 H4.
  destruct (createLogicalDevice_Ok_inv drv _ H5)
    as (q5 & g & p & _ & Hfind & Hdev & Hs5 & _).
  cbn zeta in Hdev, Hs5.
  rewrite Hs5 in E5. clear Hs5 H5.
  destruct (createSwapChain_Ok_inv drv _ H6)
    as (q6 & sci & _ & Hsci & Hswap & Himages & Hs6 & _).
  cbn zeta in Hswap, Himages, Hs6.
  rewrite Hs6 in E6. clear Hs6 H6.
  destruct (createImageViews_run bs s6) as (n & _ & Hall & Hs7 & _ & Hout).
  destruct Hout as [[-> _]|(image & _ & _ & Hout)]; [|congruence].
  rewrite firstn_all in Hall, Hs7.
  rewrite drop_ge in Hs7 by (rewrite length_resize; lia).
  rewrite app_nil_r in Hs7. rewrite Hs7 in E7. clear Hs7 H7.
  assert (Ei : instance s7 = snd (vkCreateInstance bs ci)) by (subst; reflexivity).
  assert (Ei3 : instance s3 = instance s7) by (subst; reflexivity).
  assert (Ei2 : instance s2 = instance s7) by (subst; reflexivity).
  assert (Ew : window s2 = window s7) by (subst; reflexivity).
  assert (Es : surface s7 = surf) by (subst; reflexivity).
  assert (Es3 : surface s7 = surface s3) by (subst; reflexivity).
  assert (Es4 : surface s7 = surface s4) by (subst; reflexivity).
  assert (Es5 : surface s5 = surface s7) by (subst; reflexivity).
  assert (Ex3 : deviceExtensions s7 = deviceExtensions s3) by (subst; reflexivity).
  assert (Ep : physicalDevice s7 = d) by (subst; reflexivity).
  assert (Ep4 : physicalDevice s4 = d) by (subst; reflexivity).
  assert (Ed : device s5 = device s7) by (subst; reflexivity).
  split; [exact Hoff|].
  split.
  { exists ci. split; [rewrite Ei, <- Hci; apply surjective_pairing|].
    split; reflexivity. }
  split.
  { assert (Ev1 : enableValidationLayers s1 = enableValidationLayers s)
      by (subst; reflexivity).
    assert (Em1 : debugMessenger s1 = debugMessenger s) by (subst; reflexivity).
    assert (Em : debugMessenger s7 = m) by (subst; reflexivity).
    rewrite Em, <- Em1. apply Hdbg. now rewrite Ev1. }
  split.
  { rewrite <- Ei2, <- Ew, Es. exact Hsurf. }
  split.
  { rewrite Ep, <- Ei3. exact Hk. }
  split; [now rewrite Ep|].
  split.
  { rewrite Ep, (isDeviceSuitable_state drv d s3 s7 Es3 Ex3). exact Hsuit. }
  split.
  { eexists _, g, p. rewrite Ep, <- Ep4. split.
    { transitivity
        (fst (vkCreateDevice drv (physicalDevice s4)
                (deviceCreateInfoFor s4 g p
                   (snd (vkEnumerateDeviceExtensionProperties drv
                           (physicalDevice s4))))),
         device s7).
      - rewrite E7, E6, E5. apply surjective_pairing.
      - now rewrite Hdev. }
    split.
    { destruct (findQueueFamilies_state drv (physicalDevice s4) s4 s7 Es4) as [-> _].
      exact Hfind. }
    rewrite E7, E6, E5. split; reflexivity. }
  split.
  { exists sci. rewrite <- Ed, <- Es5. split.
    { transitivity (fst (vkCreateSwapchainKHR drv (device s5) sci), swapChain s7).
      - rewrite E7, E6. apply surjective_pairing.
      - now rewrite Hswap. }
    split; [exact Hsci|]. rewrite E7, E6. split; reflexivity. }
  split.
  { rewrite <- Ed.
    transitivity
      (fst (vkGetSwapchainImagesKHR drv (device s5)
              (snd (vkCreateSwapchainKHR drv (device s5) sci))),
       swapChainImages s7).
    - rewrite E7, E6. apply surjective_pairing.
    - now rewrite Himages. }
  rewrite E7. split; [reflexivity|exact Hall].
Qed.

Lemma initVulkan_coherent_witness :
  physicalDevice (final (initVulkan Scenario.driver Boot.loader (Boot.fresh false))) = 7
  /\ outcome (isDeviceSuitable Scenario.driver 7
                (final (initVulkan Scenario.driver Boot.loader (Boot.fresh false))))
     = Ok true
  /\ vkGetSwapchainImagesKHR Scenario.driver 100 300
     = (VK_SUCCESS,
        swapChainImages
          (final (initVulkan Scenario.driver Boot.loader (Boot.fresh false)))).
Proof.
  assert (Hnull : physicalDevice (Boot.fresh false) = VK_NULL_HANDLE) by reflexivity.
  assert (Hok : outcome (initVulkan Scenario.driver Boot.loader (Boot.fresh false))
                = Ok tt) by (vm_compute; reflexivity).
  destruct (initVulkan_coherent Scenario.driver Boot.loader (Boot.fresh false)
              Hnull Hok)
    as (_ & _ & _ & _ & _ & _ & Hsuitable & _ & _ & Himages & _).
  split; [vm_compute; reflexivity|]. split; [exact Hsuitable|exact Himages].
Defined.

(** The start-up of the concrete platform ends in the object the
    teardown theorems start from. *)
Example initVulkan_loader :
  final (initVulkan Scenario.driver Boot.loader (Boot.fresh false)) = Boot.started.
Proof. vm_compute. reflexivity. Qed.

Lemma pickPhysicalDevice_queries drv s :
  Forall (fun c => isSurfaceQuery c = true) (calls (pickPhysicalDevice drv s)).
Proof.
  rewrite pickPhysicalDevice_run. cbn zeta.
  pose proof (pickPhysicalDevice_for_queries drv
                (snd (vkEnumeratePhysicalDevices drv (instance s))) s) as Hq.
  destruct (bool_decide (fst _ = VK_SUCCESS)); [|constructor].
  destruct (bool_decide (length _ = 0%nat)); [constructor|].
  destruct (outcome (pickPhysicalDevice_for drv _ s)); [|exact Hq|exact Hq].
  destruct (bool_decide _); exact Hq.
Qed.

Lemma initVulkan_calls drv bs s :
  outcome (initVulkan drv bs s) = Ok tt ->
  exists s3 s4 s5 : RayTracingApplication,
    s3 = final (createSurface bs
                  (final (setupDebugMessenger bs (final (createInstance bs s)))))
    /\ s4 = final (pickPhysicalDevice drv s3)
    /\ s5 = final (createLogicalDevice drv s4)
    /\ outcome (createLogicalDevice drv s4) = Ok tt
    /\ outcome (createSwapChain drv s5) = Ok tt
    /\ calls (initVulkan drv bs s)
       = calls (pickPhysicalDevice drv s3)
         ++ calls (createLogicalDevice drv s4)
         ++ calls (createSwapChain drv s5).
Proof.
  unfold initVulkan. intros Hok.
  pose proof Hok as Hok'.
  apply bind_Ok_inv in Hok as ([] & H1 & Hok & _).
  rewrite (bind_Ok _ _ _ _ H1). cbn [calls]. rewrite createInstance_calls.
  apply bind_Ok_inv in Hok as ([] & H2 & Hok & _).
  rewrite (bind_Ok _ _ _ _ H2). cbn [calls].
  destruct (setupDebugMessenger_Ok_inv bs _ H2) as (m & _ & -> & _).
  apply bind_Ok_inv in Hok as ([] & H3 & Hok & _).
  rewrite (bind_Ok _ _ _ _ H3). cbn [calls].
  destruct (createSurface_Ok_inv bs _ H3) as (surf & _ & _ & ->).
  apply bind_Ok_inv in Hok as ([] & H4 & Hok & _).
  rewrite (bind_Ok _ _ _ _ H4). cbn [calls].
  apply bind_Ok_inv in Hok as ([] & H5 & Hok & _).
  rewrite (bind_Ok _ _ _ _ H5). cbn [calls].
  apply bind_Ok_inv in Hok as ([] & H6 & Hok & _).
  rewrite (bind_Ok _ _ _ _ H6). cbn [calls].
  apply bind_Ok_inv in Hok as ([] & H7 & Hok & _).
  rewrite (bind_Ok _ _ _ _ H7). cbn [calls].
  destruct (createImageViews_run bs
              (final (createSwapChain drv
                 (final (createLogicalDevice drv
                    (final (pickPhysicalDevice drv
                       (final (createSurface bs
                          (final (setupDebugMessenger bs
                             (final (createInstance bs s)))))))))))))
    as (n & _ & _ & _ & -> & _).
  destruct (createGraphicsPipeline_pure bs
              (final (createImageViews bs
                 (final (createSwapChain drv
                    (final (createLogicalDevice drv
                       (final (pickPhysicalDevice drv
                          (final (createSurface bs
                             (final (setupDebugMessenger bs
                                (final (createInstance bs s)))))))))))))))
    as (_ & ->).
  do 3 eexists. repeat (split; [reflexivity|]).
  split; [exact H5|]. split; [exact H6|].
  cbn [app]. now rewrite !app_nil_r.
Qed.

(** X26: a successful initVulkan makes, besides surface-support queries,
    exactly four logged platform calls, in this order: the creation of the
    device on the stored adapter, the two queue fetches on the stored
    device, and the creation of the swap chain on the stored device. *)
Theorem initVulkan_creates
    (drv : Driver) (bs : Bootstrap) (s : RayTracingApplication) :
  let r := initVulkan drv bs s in
  let f := final r in
  outcome r = Ok tt ->
  exists (dci : VkDeviceCreateInfo.t) (sci : VkSwapchainCreateInfoKHR.t) (g p : Z),
    filter (fun c => isSurfaceQuery c = false) (calls r)
    = [CreateDevice (physicalDevice f) dci;
       GetDeviceQueue (device f) g 0;
       GetDeviceQueue (device f) p 0;
       CreateSwapchainKHR (device f) sci].
Proof.
  intros r f Hok. subst f r.
  destruct (initVulkan_calls drv bs s Hok)
    as (s3 & s4 & s5 & E3 & E4 & E5 & H5 & H6 & ->).
  destruct (initVulkan_stages drv bs s Hok)
    as (t1 & t2 & t3 & t4 & t5 & t6 & t7
        & [_ E1'] & [_ E2'] & [_ E3'] & [_ E4'] & [_ E5'] & [_ E6'] & [H7 E7']
        & _ & ->).
  assert (t5 = s5) as -> by (subst; reflexivity).
  assert (t4 = s4) as Et4 by (subst; reflexivity).
  clear E1' E2' E3' E4' E5' E3 t1 t2 t3.
  destruct (createLogicalDevice_Ok_inv drv _ H5)
    as (q5 & g & p & Hq5 & _ & _ & Hs5 & Hc5).
  cbn zeta in Hs5, Hc5.
  destruct (createSwapChain_Ok_inv drv _ H6)
    as (q6 & sci & Hq6 & _ & _ & _ & Hs6 & Hc6).
  cbn zeta in Hs6, Hc6.
  destruct (createImageViews_run bs t6) as (n & _ & _ & Hs7 & _ & _).
  rewrite <- E7' in Hs7.
  assert (Ed : device t7 = device s5) by (rewrite Hs7, E6', Hs6; reflexivity).
  assert (Ep : physicalDevice t7 = physicalDevice s4).
  { rewrite Hs7, E6', Hs6, E5, Hs5. reflexivity. }
  assert (Ed5 : device s5
                = snd (vkCreateDevice drv (physicalDevice s4)
                         (deviceCreateInfoFor s4 g p
                            (snd (vkEnumerateDeviceExtensionProperties drv
                                    (physicalDevice s4)))))).
  { rewrite E5 at 1. rewrite Hs5. reflexivity. }
  rewrite Hc5, Hc6, Ed, Ep, <- Ed5.
  exists (deviceCreateInfoFor s4 g p
            (snd (vkEnumerateDeviceExtensionProperties drv (physicalDevice s4)))),
    sci, g, p.
  assert (Hnone : forall q : list Call,
            Forall (fun c => isSurfaceQuery c = true) q ->
            filter (fun c => isSurfaceQuery c = false) q = []).
  { induction 1 as [|c q Hc _ IH]; [reflexivity|].
    rewrite filter_cons_False by congruence. exact IH. }
  rewrite !filter_app, (Hnone _ (pickPhysicalDevice_queries drv s3)),
    (Hnone _ Hq5), (Hnone _ Hq6).
  reflexivity.
Qed.

Lemma initVulkan_creates_witness :
  exists (dci : VkDeviceCreateInfo.t) (sci : VkSwapchainCreateInfoKHR.t) (g p : Z),
    filter (fun c => isSurfaceQuery c = false)
      (calls (initVulkan Scenario.driver Boot.loader (Boot.fresh false)))
    = [CreateDevice
         (physicalDevice
            (final (initVulkan Scenario.driver Boot.loader (Boot.fresh false)))) dci;
       GetDeviceQueue
         (device (final (initVulkan Scenario.driver Boot.loader (Boot.fresh false))))
         g 0;
       GetDeviceQueue
         (device (final (initVulkan Scenario.driver Boot.loader (Boot.fresh false))))
         p 0;
       CreateSwapchainKHR
         (device (final (initVulkan Scenario.driver Boot.loader (Boot.fresh false))))
         sci].
Proof.
  apply (initVulkan_creates Scenario.driver Boot.loader (Boot.fresh false)).
  vm_compute. reflexivity.
Defined.

Lemma queries_startup (q : list Call) :
  Forall (fun c => isSurfaceQuery c = true) q ->
  Forall (fun c => isStartupCall c = true) q.
Proof. induction 1 as [|c q Hc _ IH]; constructor; [now destruct c|exact IH]. Qed.

Lemma Forall_calls_bind {A B} (P : Call -> Prop) (m : M A) (k : A -> M B) s :
  Forall P (calls (m s)) ->
  (forall a, outcome (m s) = Ok a -> Forall P (calls (k a (final (m s))))) ->
  Forall P (calls (bind m k s)).
Proof.
  intros Hm Hk. unfold bind.
  destruct (outcome (m s)) as [a| |]; cbn [calls]; [|exact Hm|exact Hm].
  apply Forall_app. split; [exact Hm|]. now apply Hk.
Qed.

Lemma createLogicalDevice_startup_calls drv s :
  Forall (fun c => isStartupCall c = true) (calls (createLogicalDevice drv s)).
Proof.
  destruct (findQueueFamilies_total drv (physicalDevice s) s)
    as (ind & q & Hfind & Hq).
  apply queries_startup in Hq.
  destruct (isComplete ind) eqn:Hc.
  2:{ now rewrite (createLogicalDevice_run_incomplete drv s ind q Hfind Hc). }
  unfold isComplete in Hc.
  destruct (graphicsFamily ind) as [g|] eqn:Hg; [|discriminate Hc].
  destruct (presentFamily ind) as [p|] eqn:Hp; [|discriminate Hc].
  rewrite (createLogicalDevice_run drv s ind q g p Hfind Hg Hp). cbn zeta.
  destruct (bool_decide _); [|exact Hq].
  destruct (bool_decide _); cbn [calls]; apply Forall_app; split; try exact Hq;
    repeat constructor.
Qed.

Lemma createSwapChain_startup_calls drv s :
  Forall (fun c => isStartupCall c = true) (calls (createSwapChain drv s)).
Proof.
  destruct (createSwapChain_cases drv s)
    as [(o & q & Hrun & Ho & Hq)
       |(fmt & extent & ind & q & g & p & Hcaps & Hfmt & Hext & Hfind & Hg & Hp & Hq)];
    apply queries_startup in Hq.
  { now rewrite Hrun. }
  rewrite (createSwapChain_run drv s fmt extent ind q g p
             Hcaps Hfmt Hext Hfind Hg Hp).
  cbn zeta.
  destruct (bool_decide _); [destruct (bool_decide _)|]; cbn [calls];
    apply Forall_app; split; try exact Hq; repeat constructor.
Qed.

Lemma initVulkan_startup_calls drv bs s :
  Forall (fun c => isStartupCall c = true) (calls (initVulkan drv bs s)).
Proof.
  unfold initVulkan.
  apply Forall_calls_bind; [rewrite createInstance_calls; constructor|intros _ _].
  apply Forall_calls_bind; [|intros _ _].
  { rewrite setupDebugMessenger_run.
    destruct (enableValidationLayers _); [|constructor].
    destruct (vkCreateDebugUtilsMessengerEXT _ _); [|constructor].
    destruct (bool_decide _); constructor. }
  apply Forall_calls_bind; [|intros _ _].
  { rewrite createSurface_run. cbn zeta. destruct (bool_decide _); constructor. }
  apply Forall_calls_bind; [|intros _ _].
  { apply queries_startup, pickPhysicalDevice_queries. }
  apply Forall_calls_bind; [apply createLogicalDevice_startup_calls|intros _ _].
  apply Forall_calls_bind; [apply createSwapChain_startup_calls|intros _ _].
  apply Forall_calls_bind; [|intros _ _].
  { match goal with |- context [createImageViews bs ?x] =>
      destruct (createImageViews_run bs x) as (n & _ & _ & _ & -> & _) end.
    constructor. }
  match goal with |- context [createGraphicsPipeline bs ?x] =>
    destruct (createGraphicsPipeline_pure bs x) as [_ ->] end.
  constructor.
Qed.

(** X27: whatever its outcome, initVulkan releases nothing: no destroy
    call and no glfwTerminate is among its platform calls, so what it
    created before a failure is still held. *)
Theorem initVulkan_never_releases
    (drv : Driver) (bs : Bootstrap) (s : RayTracingApplication) :
  Forall (fun c => isRelease c = false) (calls (initVulkan drv bs s)).
Proof.
  apply (Forall_impl _ _ _ (initVulkan_startup_calls drv bs s)).
  intros c Hc. destruct c; done.
Qed.

(** ** The whole run *)

Lemma mainLoop_for_closes bs window n : forall fuel k : nat,
  glfwWindowShouldClose bs window (k + n) = true ->
  (forall m : nat, (m < n)%nat -> glfwWindowShouldClose bs window (k + m) = false) ->
  (n < fuel)%nat ->
  mainLoop_for bs window fuel k = Some (k + n)%nat.
Proof.
  induction n as [|n IH]; intros fuel k Hclose Hopen Hfuel;
    (destruct fuel as [|fuel]; [lia|]); cbn [mainLoop_for].
  - rewrite Nat.add_0_r in *. now rewrite Hclose.
  - pose proof (Hopen 0%nat ltac:(lia)) as H0. rewrite Nat.add_0_r in H0.
    rewrite H0. cbn [negb].
    replace (k + S n)%nat with (S k + n)%nat in * by lia.
    apply IH; [exact Hclose| |lia].
    intros m Hm. replace (S k + m)%nat with (k + S m)%nat by lia.
    apply Hopen. lia.
Qed.

Lemma mainLoop_for_open bs window : forall fuel k : nat,
  (forall m : nat, (m < fuel)%nat -> glfwWindowShouldClose bs window (k + m) = false) ->
  mainLoop_for bs window fuel k = None.
Proof.
  induction fuel as [|fuel IH]; intros k Hopen; [reflexivity|].
  cbn [mainLoop_for].
  pose proof (Hopen 0%nat ltac:(lia)) as H0. rewrite Nat.add_0_r in H0.
  rewrite H0. cbn [negb]. apply IH.
  intros m Hm. replace (S k + m)%nat with (k + S m)%nat by lia.
  apply Hopen. lia.
Qed.

(** [run] in terms of the start-up on the object that holds the new
    window. *)
Lemma run_start drv bs fuel s :
  run drv bs fuel s =
  let start :=
    initVulkan drv bs
      (set_window (glfwCreateWindow bs WIDTH HEIGHT "Vulkan Raytracing") s) in
  match outcome start with
  | Ok _ =>
      match mainLoop_for bs (window (final start)) fuel 0 with
      | Some _ =>
          Some (mkRun (Ok tt) (final start)
                  (calls start
                   ++ (DestroyImageView (device (final start))
                       <$> swapChainImageViews (final start))
                   ++ teardownTail drv (final start)))
      | None => None
      end
  | Throw e => Some (mkRun (Throw e) (final start) (calls start))
  | Undefined => Some (mkRun Undefined (final start) (calls start))
  end.
Proof.
  unfold run. cbn zeta.
  rewrite (bind_with (initWindow bs) (fun _ => initVulkan drv bs) s _ eq_refl).
  cbn [initWindow modify outcome final calls app].
  destruct (outcome (initVulkan drv bs _)); [|reflexivity|reflexivity].
  destruct (mainLoop_for _ _ _ _); [|reflexivity].
  now rewrite cleanup_run.
Qed.

(** X28: when the start-up succeeds and the window first asks to close
    after [n] polls, run returns (given fuel for more than [n] tests of
    the loop condition) and its platform calls are those of the start-up
    followed by the teardown of the object the start-up left: its image
    views in order, its swap chain, its device, the messenger when
    validation is enabled and the destroy function is found, its surface,
    its instance, its window, and glfwTerminate. *)
Theorem run_releases
    (drv : Driver) (bs : Bootstrap) (s : RayTracingApplication) (fuel n : nat) :
  let start :=
    initVulkan drv bs
      (set_window (glfwCreateWindow bs WIDTH HEIGHT "Vulkan Raytracing") s) in
  let f := final start in
  outcome start = Ok tt ->
  glfwWindowShouldClose bs (window f) n = true ->
  (forall m : nat, (m < n)%nat -> glfwWindowShouldClose bs (window f) m = false) ->
  (n < fuel)%nat ->
  run drv bs fuel s
  = Some (mkRun (Ok tt) f
            (calls start
             ++ (DestroyImageView (device f) <$> swapChainImageViews f)
             ++ teardownTail drv f)).
Proof.
  intros start f Hok Hclose Hopen Hfuel. subst f start.
  rewrite run_start. cbn zeta. rewrite Hok.
  now rewrite (mainLoop_for_closes bs _ n fuel 0%nat Hclose Hopen Hfuel).
Qed.

Lemma run_releases_witness :
  run Scenario.driver Boot.loader 5 (Boot.fresh false)
  = Some (mkRun (Ok tt)
            (final (initVulkan Scenario.driver Boot.loader
                      (set_window
                         (glfwCreateWindow Boot.loader WIDTH HEIGHT "Vulkan Raytracing")
                         (Boot.fresh false))))
            (calls (initVulkan Scenario.driver Boot.loader
                      (set_window
                         (glfwCreateWindow Boot.loader WIDTH HEIGHT "Vulkan Raytracing")
                         (Boot.fresh false)))
             ++ (DestroyImageView 100 <$> [501; 502; 503])
             ++ teardownTail Scenario.driver Boot.started)).
Proof.
  apply (run_releases Scenario.driver Boot.loader (Boot.fresh false) 5 2).
  - vm_compute. reflexivity.
  - reflexivity.
  - intros [|[|m]] Hm; [reflexivity|reflexivity|lia].
  - lia.
Defined.

(** X29: after a successful start-up run does not reach cleanup while the
    window has not asked to close: with the window still open at every
    test of the loop condition that the fuel allows, run has not
    returned. *)
Theorem run_waits
    (drv : Driver) (bs : Bootstrap) (s : RayTracingApplication) (fuel : nat) :
  let start :=
    initVulkan drv bs
      (set_window (glfwCreateWindow bs WIDTH HEIGHT "Vulkan Raytracing") s) in
  outcome start = Ok tt ->
  (forall m : nat,
     (m < fuel)%nat -> glfwWindowShouldClose bs (window (final start)) m = false) ->
  run drv bs fuel s = None.
Proof.
  intros start Hok Hopen. subst start.
  rewrite run_start. cbn zeta. rewrite Hok.
  now rewrite (mainLoop_for_open bs _ fuel 0%nat Hopen).
Qed.

Lemma run_waits_witness :
  run Scenario.driver Boot.loader 2 (Boot.fresh false) = None.
Proof.
  apply (run_waits Scenario.driver Boot.loader (Boot.fresh false) 2).
  - vm_compute. reflexivity.
  - intros [|[|m]] Hm; [reflexivity|reflexivity|lia].
Defined.

(** X30: when the start-up does not succeed, run ends at once with the
    outcome of the start-up, whatever the window does, and has released
    nothing: cleanup is skipped, so what was created before the failure is
    never destroyed and glfwTerminate is not called. *)
Theorem run_failure
    (drv : Driver) (bs : Bootstrap) (s : RayTracingApplication) (fuel : nat) :
  let start :=
    initVulkan drv bs
      (set_window (glfwCreateWindow bs WIDTH HEIGHT "Vulkan Raytracing") s) in
  outcome start <> Ok tt ->
  exists r : Run unit,
    run drv bs fuel s = Some r
    /\ outcome r = outcome start
    /\ Forall (fun c => isRelease c = false) (calls r).
Proof.
  intros start Hfail. subst start.
  rewrite run_start. cbn zeta.
  assert (Hnone :
    Forall (fun c => isRelease c = false)
      (calls (initVulkan drv bs
                (set_window (glfwCreateWindow bs WIDTH HEIGHT "Vulkan Raytracing")
                   s)))).
  { apply (Forall_impl _ _ _ (initVulkan_startup_calls drv bs _)).
    intros c Hc. destruct c; done. }
  destruct (outcome (initVulkan drv bs _)) as [[]| |]; [done| |];
    eexists; (split; [reflexivity|]); split; done.
Qed.

Lemma run_failure_witness :
  exists r : Run unit,
    run Boot.chainless Boot.loader 0 (Boot.fresh false) = Some r
    /\ outcome r
       = outcome (initVulkan Boot.chainless Boot.loader
                    (set_window
                       (glfwCreateWindow Boot.loader WIDTH HEIGHT "Vulkan Raytracing")
                       (Boot.fresh false)))
    /\ Forall (fun c => isRelease c = false) (calls r).
Proof.
  apply (run_failure Boot.chainless Boot.loader (Boot.fresh false) 0).
  vm_compute. discriminate.
Defined.
